(** * saas-sec-agents: the assessment pipeline and its orchestration gate

    A shallow embedding of the deterministic core of the repository:

    - [Collect]   : skills/sfdc_connect/sfdc_connect.py   (collector)
    - [Assess]    : skills/oscal_assess/oscal_assess.py   (rule engine)
    - [GapMap]    : scripts/oscal_gap_map.py              (control mapper)
    - [Benchmark] : skills/sscf_benchmark/sscf_benchmark.py (domain scorer)
    - [Loop]      : harness/loop.py                       (orchestration loop)

    Python values read from JSON are modelled by the type [Py.value];
    Python exceptions by the error monad [Py.result].  Strings are byte
    strings; case mapping and whitespace are the ASCII ones.

    A float is a double given by its exact rational value, or one of the
    infinities or NaN ([Py.float]).  The one float operation of the
    pipeline that rounds, the division of the scorer, rounds to the
    nearest double, ties to even ([Py.float_div]); the counts it divides
    are lengths of lists in memory, hence below 2^52, so its operands are
    exact.  [round(x, 4)] is the decimal with four places nearest to the
    exact value of the double [x], ties to even; the double it returns is
    given by that decimal, and so are the thresholds a score is compared
    with.

    The collector output and the gap-analysis artifact read by the gate
    are arbitrary JSON values, since the code inspects their shape; so are
    the values the mapper copies from its input files, which are taken to
    be in the range of JSON (a YAML date, for one, is not).  The catalog,
    crosswalk and backlog records handed from one stage to the next are
    typed as the stages write them.  The org the collector queries is the
    record [Collect.Salesforce].  The model API, the tool subprocesses,
    the file system and the memory store are the fields of the class
    [Loop.Env]; what a run persists is the list of its events.  Creating
    the output directories and writing the output files of the mapper and
    of the loop are taken to succeed. *)

From Stdlib Require Import String Ascii List ZArith QArith Qround Qabs Qpower Bool Lia.
From Stdlib Require Import DecimalString.
From Stdlib Require Import Lqa Sorted.
Import ListNotations.

Open Scope string_scope.
Open Scope list_scope.

(* ================================================================== *)
(** * Python values, dictionaries and exceptions *)
(* ================================================================== *)

Module Py.

#[local] Set Warnings "-register-all".

(** ** Floats *)

(** A Python float: a double, given by its exact value, or one of the
    three special values, which [json.loads] yields for [Infinity],
    [-Infinity], [NaN] and for a numeral beyond the range such as [1e400]. *)
Inductive float : Type :=
| Finite (q : Q)
| PosInf
| NegInf
| NaN.

(** The integer nearest to [y], ties to the even one. *)
Definition round_half_even (y : Q) : Z :=
  let f := Qfloor y in
  match (y - inject_Z f ?= 1 # 2)%Q with
  | Lt => f
  | Gt => (f + 1)%Z
  | Eq => if Z.even f then f else (f + 1)%Z
  end.

(** [floor(log2 |x|)], for [x] not zero. *)
Definition Qlog2 (x : Q) : Z :=
  let l := (Z.log2 (Z.abs (Qnum x)) - Z.log2 (Zpos (Qden x)))%Z in
  if Qle_bool (2 ^ l) (Qabs x) then l else (l - 1)%Z.

(** The exponent of the last binary digit a double keeps of [x]: 53
    digits, and never below 2^-1074 (gradual underflow). *)
Definition bexp (x : Q) : Z := Z.max (Qlog2 x - 52) (-1074).

(** IEEE 754 round-to-nearest, ties to even, in binary64: the double
    nearest to [x].  (The upper end of the range is checked where a
    value can reach it.) *)
Definition to_double (x : Q) : Q :=
  if Qeq_bool x 0 then 0
  else (inject_Z (round_half_even (x / 2 ^ bexp x)) * 2 ^ bexp x)%Q.

(** [x / y] on floats, for [y] not zero: the exact quotient, correctly
    rounded. *)
Definition float_div (x y : Q) : Q := to_double (x / y).

(** [bool(x)] *)
Definition float_truthy (x : float) : bool :=
  match x with
  | Finite q => negb (Qeq_bool q 0)
  | PosInf | NegInf | NaN => true
  end.

(** ** Values *)

(** A value as [json.loads] returns it.  A [dict] keeps its insertion
    order; the first binding of a key is the one that is looked up. *)
Inductive value : Type :=
| VNone
| VBool (b : bool)
| VInt (z : Z)
| VFloat (x : float)
| VStr (s : string)
| VList (l : list value)
| VDict (kv : list (string * value)).

Definition adict (V : Type) : Type := list (string * V).
Definition dict : Type := adict value.

Inductive exn_class : Type :=
| AttributeError | TypeError | ValueError | KeyError | IndexError | OverflowError
| JSONDecodeError | OSError | RuntimeError | OtherError.

Record exn : Type := Exn { exn_kind : exn_class; exn_msg : string }.

Inductive result (A : Type) : Type :=
| Ok (a : A)
| Raise (e : exn).
Arguments Ok {A} a.
Arguments Raise {A} e.

Definition bind {A B : Type} (m : result A) (k : A -> result B) : result B :=
  match m with
  | Ok a => k a
  | Raise e => Raise e
  end.

Definition raise_ {A : Type} (c : exn_class) : result A := Raise (Exn c "").

(** [try: m  except Exception: h] *)
Definition try_except {A : Type} (m : result A) (h : exn -> A) : A :=
  match m with
  | Ok a => a
  | Raise e => h e
  end.

Fixpoint mapM {A B : Type} (f : A -> result B) (l : list A) : result (list B) :=
  match l with
  | [] => Ok []
  | x :: r =>
      bind (f x) (fun y => bind (mapM f r) (fun ys => Ok (y :: ys)))
  end.

(** ** Association-list dictionaries *)

Fixpoint ad_get {V : Type} (d : adict V) (k : string) : option V :=
  match d with
  | [] => None
  | (k', v) :: r => if k' =? k then Some v else ad_get r k
  end.

Definition ad_mem {V : Type} (d : adict V) (k : string) : bool :=
  match ad_get d k with Some _ => true | None => false end.

(** [d[k] = v]: the binding is replaced in place, a new key goes last. *)
Fixpoint ad_set {V : Type} (d : adict V) (k : string) (v : V) : adict V :=
  match d with
  | [] => [(k, v)]
  | (k', v') :: r => if k' =? k then (k', v) :: r else (k', v') :: ad_set r k v
  end.

(** [d.get(k, dflt)] *)
Definition ad_get_default {V : Type} (d : adict V) (k : string) (dflt : V) : V :=
  match ad_get d k with Some v => v | None => dflt end.

(** [sorted(d.items())] (the keys of a dict are pairwise different, so
    only keys are ever compared). *)
Fixpoint insert_by_key {V : Type} (kv : string * V) (l : adict V) : adict V :=
  match l with
  | [] => [kv]
  | x :: r => if String.leb (fst kv) (fst x) then kv :: l else x :: insert_by_key kv r
  end.

Definition sorted_items {V : Type} (d : adict V) : adict V :=
  fold_right insert_by_key [] d.

(** ** Operations on values *)

(** [bool(v)] *)
Definition truthy (v : value) : bool :=
  match v with
  | VNone => false
  | VBool b => b
  | VInt z => negb (z =? 0)%Z
  | VFloat x => float_truthy x
  | VStr s => negb (s =? "")
  | VList l => match l with [] => false | _ => true end
  | VDict kv => match kv with [] => false | _ => true end
  end.

(** [isinstance(v, dict)] *)
Definition is_dict (v : value) : bool :=
  match v with VDict _ => true | _ => false end.

(** [v.get(k, dflt)]: only a dict has the method. *)
Definition py_get (v : value) (k : string) (dflt : value) : result value :=
  match v with
  | VDict d => Ok (ad_get_default d k dflt)
  | _ => raise_ AttributeError
  end.

(** [v == s] for a string literal [s] *)
Definition eq_str (v : value) (s : string) : bool :=
  match v with VStr s' => s' =? s | _ => false end.

(** [a or b] *)
Definition py_or (a b : value) : value := if truthy a then a else b.

(** [isinstance(v, (bool, int, float))] *)
Definition is_number (v : value) : bool :=
  match v with VInt _ | VBool _ | VFloat _ => true | _ => false end.

(** [isinstance(v, str)] *)
Definition is_str (v : value) : bool :=
  match v with VStr _ => true | _ => false end.

(** [hash(v)] succeeds: lists and dicts are unhashable. *)
Definition hashable (v : value) : bool :=
  match v with VList _ | VDict _ => false | _ => true end.

(** ** Strings *)

Definition str_of_Z (z : Z) : string := NilZero.string_of_int (Z.to_int z).
Definition str_of_nat (n : nat) : string := str_of_Z (Z.of_nat n).

Definition ascii_lower (c : ascii) : ascii :=
  let n := nat_of_ascii c in
  if ((65 <=? n) && (n <=? 90))%nat then ascii_of_nat (n + 32) else c.

Definition ascii_upper (c : ascii) : ascii :=
  let n := nat_of_ascii c in
  if ((97 <=? n) && (n <=? 122))%nat then ascii_of_nat (n - 32) else c.

Fixpoint str_map (f : ascii -> ascii) (s : string) : string :=
  match s with
  | EmptyString => EmptyString
  | String c r => String (f c) (str_map f r)
  end.

Definition lower : string -> string := str_map ascii_lower.
Definition upper : string -> string := str_map ascii_upper.

(** [sub in s] *)
Definition contains (sub s : string) : bool :=
  match String.index 0 sub s with Some _ => true | None => false end.

Definition is_space (c : ascii) : bool :=
  let n := nat_of_ascii c in
  (((9 <=? n) && (n <=? 13)) || ((28 <=? n) && (n <=? 32)))%nat.

Fixpoint lstrip (s : string) : string :=
  match s with
  | EmptyString => EmptyString
  | String c r => if is_space c then lstrip r else s
  end.

Fixpoint rstrip (s : string) : string :=
  match s with
  | EmptyString => EmptyString
  | String c r =>
      let r' := rstrip r in
      if is_space c && (r' =? "") then EmptyString else String c r'
  end.

Definition strip (s : string) : string := rstrip (lstrip s).

(** What is left to the interpreter: [repr] of floats and of containers,
    and the parsing of numerals by [int(str)] and [float(str)]. *)
Class Builtins : Type := {
  py_repr : value -> string;
  int_of_str : string -> option Z;
  float_of_str : string -> option float
}.

(** [str(v)] *)
Definition py_str `{Builtins} (v : value) : string :=
  match v with
  | VNone => "None"
  | VBool true => "True"
  | VBool false => "False"
  | VInt z => str_of_Z z
  | VStr s => s
  | VFloat _ | VList _ | VDict _ => py_repr v
  end.

(** [int(v)]: a float is truncated towards zero; an infinity and a NaN
    cannot be converted. *)
Definition py_int `{Builtins} (v : value) : result Z :=
  match v with
  | VInt z => Ok z
  | VBool b => Ok (if b then 1 else 0)%Z
  | VFloat (Finite q) => Ok (Z.quot (Qnum q) (Zpos (Qden q)))
  | VFloat (PosInf | NegInf) => raise_ OverflowError
  | VFloat NaN => raise_ ValueError
  | VStr s => match int_of_str s with Some z => Ok z | None => raise_ ValueError end
  | VNone | VList _ | VDict _ => raise_ TypeError
  end.

(** [v < n] for an integer literal [n] *)
Definition py_lt (v : value) (n : Z) : result bool :=
  match v with
  | VInt z => Ok (z <? n)%Z
  | VBool b => Ok ((if b then 1 else 0) <? n)%Z
  | VFloat (Finite q) => Ok (negb (Qle_bool (inject_Z n) q))
  | VFloat NegInf => Ok true
  | VFloat (PosInf | NaN) => Ok false
  | _ => raise_ TypeError
  end.

(** [v.lower()] *)
Definition py_lower (v : value) : result string :=
  match v with VStr s => Ok (lower s) | _ => raise_ AttributeError end.

(** [k in v] for a dict [v] *)
Definition has_key (v : value) (k : string) : bool :=
  match v with VDict d => ad_mem d k | _ => false end.

Definition is_empty {A : Type} (l : list A) : bool :=
  match l with [] => true | _ => false end.

(** [sorted] on strings *)
Fixpoint insert_str (s : string) (l : list string) : list string :=
  match l with
  | [] => [s]
  | x :: r => if String.leb s x then s :: l else x :: insert_str s r
  end.

Definition sorted_strs (l : list string) : list string := fold_right insert_str [] l.

End Py.

Import Py.

Declare Scope py_scope.
Delimit Scope py_scope with py.
Notation "x <- m ;; k" := (bind m (fun x => k))
  (at level 61, m at next level, right associativity) : py_scope.
Notation "' pat <- m ;; k" := (bind m (fun x => match x with pat => k end))
  (at level 61, pat pattern, m at next level, right associativity) : py_scope.

(* ================================================================== *)
(** * skills/sfdc_connect/sfdc_connect.py *)
(* ================================================================== *)

Module Collect.

(** The authenticated client; the collector only reads through it.  A
    query answers with the JSON value that ends up in the output file. *)
Record Salesforce : Type := {
  (** [sf.query_all(soql)] *)
  query_all : string -> result value;
  (** [sf.restful(path, params={"q": q})] *)
  restful : string -> string -> result value
}.

(** [{"totalSize": 0, "records": []}] *)
Definition no_rows : value := VDict [("totalSize", VInt 0); ("records", VList [])].

Definition collect_auth (sf : Salesforce) : result dict :=
  let data : dict := [] in
  let data :=
    ad_set data "session_settings"
      (try_except
         (sf.(restful) "tooling/query"
            "SELECT SessionTimeout, RequireHttps, ForceLogoutOnSessionTimeout, LockSessionsToDomain FROM SecuritySettings LIMIT 1")
         (fun exc => VDict [("error", VStr exc.(exn_msg));
                            ("note", VStr "Requires Tooling API access")])) in
  let data :=
    ad_set data "mfa_org_settings"
      (try_except
         (sf.(restful) "tooling/query"
            "SELECT MultiFactorAuthenticationForUserUI, MultiFactorAuthenticationForUserUIBlock FROM OrganizationSettings LIMIT 1")
         (fun exc => VDict [("error", VStr exc.(exn_msg));
                            ("note", VStr "OrganizationSettings MFA fields require API v57+")])) in
  let data :=
    ad_set data "sso_providers"
      (try_except
         (sf.(query_all) "SELECT Id, Name, SamlVersion, IsEnabled FROM SamlSsoConfig")
         (fun _ => no_rows)) in
  let data :=
    ad_set data "login_ip_ranges"
      (try_except
         (sf.(query_all) "SELECT Id, ProfileId, StartAddress, EndAddress FROM LoginIpRange")
         (fun _ => no_rows)) in
  let data :=
    ad_set data "mfa_policies"
      (try_except
         (sf.(query_all)
            "SELECT Id, DeveloperName, IsEnabled FROM TransactionSecurityPolicy WHERE ActionConfig LIKE '%TwoFactor%'")
         (fun _ => no_rows)) in
  Ok data.

Definition collect_access (sf : Salesforce) : result dict :=
  (let data : dict := [] in
   admin_profiles <-
     sf.(query_all)
       "SELECT Id, Name, PermissionsModifyAllData, PermissionsManageUsers, PermissionsViewAllData FROM Profile WHERE PermissionsModifyAllData = true OR PermissionsManageUsers = true ORDER BY Name" ;;
   let data := ad_set data "admin_profiles" admin_profiles in
   elevated_permission_sets <-
     sf.(query_all)
       "SELECT Id, Name, Label, PermissionsModifyAllData, PermissionsViewAllData, PermissionsManageUsers FROM PermissionSet WHERE PermissionsModifyAllData = true OR PermissionsManageUsers = true ORDER BY Name" ;;
   let data := ad_set data "elevated_permission_sets" elevated_permission_sets in
   connected_apps <-
     sf.(query_all)
       "SELECT Id, Name, OptionsAllowAdminApprovedUsersOnly, OptionsRefreshTokenValidityMetric FROM ConnectedApplication ORDER BY Name" ;;
   let data := ad_set data "connected_apps" connected_apps in
   Ok data)%py.

Definition collect_event_monitoring (sf : Salesforce) : result dict :=
  (let data : dict := [] in
   event_log_types <-
     sf.(query_all)
       "SELECT EventType, LogDate, LogFileLength FROM EventLogFile WHERE LogDate = LAST_N_DAYS:7 GROUP BY EventType, LogDate, LogFileLength" ;;
   let data := ad_set data "event_log_types" event_log_types in
   let data :=
     ad_set data "field_history_retention"
       (try_except
          (sf.(query_all)
             "SELECT Id, EntityDefinition.QualifiedApiName FROM FieldDefinition WHERE IsAiPredictionField = false AND IsHistoryTracked = true LIMIT 100")
          (fun _ => no_rows)) in
   Ok data)%py.

Definition collect_transaction_security (sf : Salesforce) : result dict :=
  (policies <-
     sf.(query_all)
       "SELECT Id, DeveloperName, ResourceName, EventName, IsEnabled, ExecutionUserId, BlockMessage FROM TransactionSecurityPolicy ORDER BY EventName" ;;
   Ok [("policies", policies)])%py.

Definition collect_integrations (sf : Salesforce) : result dict :=
  (let data : dict := [] in
   named_credentials <-
     sf.(query_all)
       "SELECT Id, DeveloperName, Endpoint, AuthenticationProtocol FROM NamedCredential ORDER BY DeveloperName" ;;
   let data := ad_set data "named_credentials" named_credentials in
   remote_site_settings <-
     sf.(query_all)
       "SELECT Id, SiteName, EndpointUrl, IsActive, DisableProtocolSecurity FROM RemoteProxy ORDER BY SiteName" ;;
   let data := ad_set data "remote_site_settings" remote_site_settings in
   Ok data)%py.

Definition collect_oauth (sf : Salesforce) : result dict :=
  (policies <-
     sf.(query_all)
       "SELECT Id, Name, OptionsAllowAdminApprovedUsersOnly, PermittedUsersPolicyEnum, RefreshTokenPolicyEnum FROM ConnectedApplication ORDER BY Name" ;;
   Ok [("connected_app_oauth_policies", policies)])%py.

Definition collect_secconf (sf : Salesforce) : result dict :=
  let data :=
    try_except
      (sf.(query_all) "SELECT Score, LastModifiedDate FROM SecurityHealthCheck LIMIT 1")
      (fun _ =>
         VDict [("note",
                 VStr "SecurityHealthCheck not available via SOQL — check Setup > Security Health Check in UI")]) in
  Ok [("health_check", data)].

Definition SCOPE_COLLECTORS : adict (Salesforce -> result dict) :=
  [ ("auth", collect_auth);
    ("access", collect_access);
    ("event-monitoring", collect_event_monitoring);
    ("transaction-security", collect_transaction_security);
    ("integrations", collect_integrations);
    ("oauth", collect_oauth);
    ("secconf", collect_secconf) ].

Definition VALID_SCOPES : list string := map fst SCOPE_COLLECTORS ++ ["all"].

Definition _result_envelope (org env collected_at_utc scope : string) (data : dict) : dict :=
  [ ("org", VStr org);
    ("env", VStr env);
    ("collected_at_utc", VStr collected_at_utc);
    ("scope", VStr scope);
    ("raw", VDict data) ].

Section WithBuiltins.
Context `{Builtins}.

Definition scopes_to_run (scope : string) : list string :=
  if scope =? "all" then map fst SCOPE_COLLECTORS else [scope].

(** The body of [for s in scopes_to_run]: a collector that raises leaves
    [{"error": str(exc)}] under its scope. *)
Definition collect_scope (sf : Salesforce) (combined : dict) (s : string) : dict :=
  ad_set combined s
    (VDict
       (try_except
          (match ad_get SCOPE_COLLECTORS s with
           | Some collector => collector sf
           | None => Raise (Exn KeyError (py_repr (VStr s)))
           end)
          (fun exc => [("error", VStr exc.(exn_msg))]))).

(** [collect] once connected: the object that goes under ["raw"]. *)
Definition collect_combined (sf : Salesforce) (scope : string) : dict :=
  fold_left (collect_scope sf) (scopes_to_run scope) [].

(** The document [collect] writes. *)
Definition collect (sf : Salesforce) (org env collected_at_utc scope : string) : dict :=
  _result_envelope org env collected_at_utc scope (collect_combined sf scope).

End WithBuiltins.

End Collect.

(* ================================================================== *)
(** * skills/oscal_assess/oscal_assess.py *)
(* ================================================================== *)

Module Assess.

Definition VALID_STATUSES : list string := ["pass"; "fail"; "partial"; "not_applicable"].
Definition VALID_SEVERITIES : list string := ["critical"; "high"; "moderate"; "low"].

Record Finding : Type := mkFinding {
  control_id : value;
  status : string;
  severity : string;
  observed_value : string;
  remediation : string;
  owner : string;
  due_date : string
}.

(** [Finding(control_id, status, severity, observed_value, remediation)]
    with the defaults of the dataclass for the last two fields. *)
Definition finding (cid : value) (st sev obs rem : string) : Finding :=
  mkFinding cid st sev obs rem "Business Security Services" "".

Definition NA_DEFAULT_REASON : string := "Scope not collected by sfdc-connect".

Definition _na (cid : value) (sev reason : string) : Finding :=
  finding cid "not_applicable" sev reason "".

(** [raw[scope_name]] when the key is there, else the whole of a
    non-empty [raw], else [None]. *)
Definition _scope (raw : dict) (scope_name : string) : value :=
  match ad_get raw scope_name with
  | Some v => v
  | None => if truthy (VDict raw) then VDict raw else VNone
  end.

Section WithBuiltins.
Context `{Builtins}.

Definition to_dict (f : Finding) (org env date_str : string) : dict :=
  [ ("control_id", f.(control_id));
    ("status", VStr f.(status));
    ("severity", VStr f.(severity));
    ("owner", VStr f.(owner));
    ("due_date", VStr f.(due_date));
    ("observed_value", VStr f.(observed_value));
    ("remediation", VStr f.(remediation));
    ("evidence_ref",
     VStr ("collector://salesforce/" ++ env ++ "/" ++ py_str f.(control_id)
           ++ "/snapshot-" ++ date_str)) ].

Definition _total (obj : value) : result Z :=
  match obj with
  | VDict d => py_int (ad_get_default d "totalSize" (VInt 0))
  | _ => Ok 0%Z
  end.

(** Iterating a dict gives its keys and iterating a string its characters,
    none of which is a dict; the other values are not iterable. *)
Definition _records (obj : value) : result (list dict) :=
  match obj with
  | VDict d =>
      match ad_get_default d "records" (VList []) with
      | VList l => Ok (flat_map (fun r => match r with VDict x => [x] | _ => [] end) l)
      | VDict _ | VStr _ => Ok []
      | VNone | VBool _ | VInt _ | VFloat _ => raise_ TypeError
      end
  | _ => Ok []
  end.

(** [r.get(k)] as a condition *)
Definition flag (r : dict) (k : string) : bool := truthy (ad_get_default r k VNone).

Definition len {A : Type} (l : list A) : string := str_of_nat (length l).

(** ** Authentication *)

Definition _rule_auth_001 (raw : dict) : result Finding :=
  let auth := _scope raw "auth" in
  if negb (truthy auth) then Ok (_na (VStr "SBS-AUTH-001") "critical" NA_DEFAULT_REASON)
  else
    (sso <- py_get auth "sso_providers" (VDict []) ;;
     providers <- _records sso ;;
     let enabled := filter (fun p => flag p "IsEnabled") providers in
     if is_empty providers then
       Ok (finding (VStr "SBS-AUTH-001") "fail" "critical"
             "No SAML SSO providers configured — org-wide SSO not enforced."
             "Configure and enable at least one SAML SSO provider in Setup > Single Sign-On Settings.")
     else if is_empty enabled then
       Ok (finding (VStr "SBS-AUTH-001") "partial" "critical"
             (len providers ++ " SSO provider(s) configured but none enabled.")
             "Enable the configured SSO provider and enforce org-wide SSO.")
     else
       Ok (finding (VStr "SBS-AUTH-001") "pass" "critical"
             (len enabled ++ " enabled SSO provider(s) found.") ""))%py.

Definition _rule_auth_002 (raw : dict) : result Finding :=
  let auth := _scope raw "auth" in
  if negb (truthy auth) then Ok (_na (VStr "SBS-AUTH-002") "moderate" NA_DEFAULT_REASON)
  else
    (sso <- py_get auth "sso_providers" (VDict []) ;;
     providers <- _records sso ;;
     lir <- py_get auth "login_ip_ranges" (VDict []) ;;
     ip_ranges <- _total lir ;;
     if is_empty providers then
       Ok (finding (VStr "SBS-AUTH-002") "partial" "moderate"
             "SSO not configured — SSO bypass governance cannot be assessed."
             "Configure SSO before evaluating bypass governance.")
     else if (ip_ranges =? 0)%Z then
       Ok (finding (VStr "SBS-AUTH-002") "partial" "moderate"
             ("SSO configured (" ++ len providers
              ++ " provider(s)) but no Login IP Ranges restrict bypass.")
             "Define Login IP Ranges on profiles that are exempt from SSO to limit bypass exposure.")
     else
       Ok (finding (VStr "SBS-AUTH-002") "pass" "moderate"
             ("SSO configured with " ++ str_of_Z ip_ranges
              ++ " Login IP Range restriction(s) governing bypass.") ""))%py.

Definition _rule_auth_003 (raw : dict) : result Finding :=
  let auth := _scope raw "auth" in
  if negb (truthy auth) then Ok (_na (VStr "SBS-AUTH-003") "moderate" NA_DEFAULT_REASON)
  else
    (lir <- py_get auth "login_ip_ranges" (VDict []) ;;
     ip_ranges <- _total lir ;;
     if (ip_ranges =? 0)%Z then
       Ok (finding (VStr "SBS-AUTH-003") "fail" "moderate"
             "No Login IP Ranges configured — all IPs permitted for all profiles."
             "Configure Login IP Ranges on privileged profiles to restrict access by network location.")
     else if (ip_ranges <? 3)%Z then
       Ok (finding (VStr "SBS-AUTH-003") "partial" "moderate"
             ("Only " ++ str_of_Z ip_ranges ++ " Login IP Range(s) — coverage may be incomplete.")
             "Review whether all privileged profiles have Login IP Ranges applied.")
     else
       Ok (finding (VStr "SBS-AUTH-003") "pass" "moderate"
             (str_of_Z ip_ranges ++ " Login IP Range(s) configured.") ""))%py.

Definition _rule_auth_004 (raw : dict) : result Finding :=
  let auth := _scope raw "auth" in
  if negb (truthy auth) then Ok (_na (VStr "SBS-AUTH-004") "moderate" NA_DEFAULT_REASON)
  else
    (mfa <- py_get auth "mfa_org_settings" (VDict []) ;;
     if is_dict mfa && has_key mfa "error" then
       Ok (finding (VStr "SBS-AUTH-004") "partial" "moderate"
             "MFA org settings could not be retrieved via Tooling API — manual review required."
             "Verify MFA enforcement for external users in Setup > Identity Verification.")
     else
       records <- _records mfa ;;
       let unconfirmed :=
         finding (VStr "SBS-AUTH-004") "partial" "moderate"
           "MFA org-level enforcement not confirmed — Tooling API returned no usable MFA fields."
           "Confirm MFA enforcement in Setup > Identity Verification or via Transaction Security policies." in
       match records with
       | rec :: _ =>
           if truthy (ad_get_default rec "MultiFactorAuthenticationForUserUI" (VBool false))
           then Ok (finding (VStr "SBS-AUTH-004") "pass" "moderate"
                      "MFA enforced for user UI (MultiFactorAuthenticationForUserUI=true)." "")
           else Ok unconfirmed
       | [] => Ok unconfirmed
       end)%py.

(** ** Access controls *)

Definition _rule_acs_001 (raw : dict) : result Finding :=
  let access := _scope raw "access" in
  if negb (truthy access) then Ok (_na (VStr "SBS-ACS-001") "high" NA_DEFAULT_REASON)
  else
    (ap <- py_get access "admin_profiles" (VDict []) ;;
     admin_profiles <- _total ap ;;
     if (5 <? admin_profiles)%Z then
       Ok (finding (VStr "SBS-ACS-001") "fail" "high"
             (str_of_Z admin_profiles
              ++ " profiles with ModifyAllData or ManageUsers — excessive admin surface.")
             "Reduce admin profiles; document and justify each. Target ≤2 for ModifyAllData.")
     else if (2 <? admin_profiles)%Z then
       Ok (finding (VStr "SBS-ACS-001") "partial" "high"
             (str_of_Z admin_profiles ++ " elevated profiles — review and justify each.")
             "Document justification for all profiles with elevated permissions.")
     else
       Ok (finding (VStr "SBS-ACS-001") "pass" "high"
             (str_of_Z admin_profiles ++ " admin profile(s) — within acceptable threshold.") ""))%py.

Definition _rule_acs_002 (raw : dict) : result Finding :=
  let access := _scope raw "access" in
  if negb (truthy access) then Ok (_na (VStr "SBS-ACS-002") "high" NA_DEFAULT_REASON)
  else
    (eps <- py_get access "elevated_permission_sets" (VDict []) ;;
     perm_sets <- _total eps ;;
     if (10 <? perm_sets)%Z then
       Ok (finding (VStr "SBS-ACS-002") "fail" "high"
             (str_of_Z perm_sets
              ++ " permission sets with elevated privileges — undocumented API access likely.")
             "Audit and document justification for all permission sets with ModifyAllData or ManageUsers.")
     else if (4 <? perm_sets)%Z then
       Ok (finding (VStr "SBS-ACS-002") "partial" "high"
             (str_of_Z perm_sets
              ++ " elevated permission sets — verify all are documented and justified.")
             "Ensure each elevated permission set has a documented business justification.")
     else
       Ok (finding (VStr "SBS-ACS-002") "pass" "high"
             (str_of_Z perm_sets ++ " elevated permission set(s) — within acceptable threshold.")
             ""))%py.

Definition _rule_acs_003 (raw : dict) : result Finding :=
  let access := _scope raw "access" in
  if negb (truthy access) then Ok (_na (VStr "SBS-ACS-003") "critical" NA_DEFAULT_REASON)
  else
    (ca <- py_get access "connected_apps" (VDict []) ;;
     apps <- _records ca ;;
     if is_empty apps then
       Ok (finding (VStr "SBS-ACS-003") "pass" "critical" "No connected apps found." "")
     else
       let unrestricted :=
         filter (fun a => negb (flag a "OptionsAllowAdminApprovedUsersOnly")) apps in
       if (length unrestricted =? length apps)%nat then
         Ok (finding (VStr "SBS-ACS-003") "fail" "critical"
               ("All " ++ len apps ++ " connected app(s) allow non-admin-approved users.")
               "Restrict all connected apps to admin-approved users only via OAuth policy.")
       else if negb (is_empty unrestricted) then
         Ok (finding (VStr "SBS-ACS-003") "partial" "critical"
               (len unrestricted ++ "/" ++ len apps
                ++ " connected app(s) not restricted to admin-approved users.")
               "Apply admin-approved-users-only policy to all connected apps.")
       else
         Ok (finding (VStr "SBS-ACS-003") "pass" "critical"
               ("All " ++ len apps ++ " connected app(s) restricted to admin-approved users.")
               ""))%py.

Definition _rule_acs_004 (raw : dict) : result Finding :=
  let access := _scope raw "access" in
  if negb (truthy access) then Ok (_na (VStr "SBS-ACS-004") "high" NA_DEFAULT_REASON)
  else
    (ap <- py_get access "admin_profiles" (VDict []) ;;
     profiles <- _records ap ;;
     let super_admin :=
       filter (fun p => flag p "PermissionsModifyAllData" && flag p "PermissionsManageUsers")
              profiles in
     let count := length super_admin in
     if (2 <? count)%nat then
       Ok (finding (VStr "SBS-ACS-004") "fail" "high"
             (str_of_nat count
              ++ " profiles have both ModifyAllData and ManageUsers — super admin equivalent.")
             "Reduce to ≤2 super-admin-equivalent profiles with documented justification.")
     else if (0 <? count)%nat then
       Ok (finding (VStr "SBS-ACS-004") "partial" "high"
             (str_of_nat count
              ++ " super admin–equivalent profile(s) — verify documented justification exists.")
             "Document the business justification for each super-admin-equivalent profile.")
     else
       Ok (finding (VStr "SBS-ACS-004") "pass" "high"
             "No profiles found with both ModifyAllData and ManageUsers." ""))%py.

Definition _rule_acs_structural (cid sev : string) (raw : dict) : result Finding :=
  let access := _scope raw "access" in
  if negb (truthy access) then Ok (_na (VStr cid) sev NA_DEFAULT_REASON)
  else
    Ok (finding (VStr cid) "partial" sev
          "Access scope collected — full assessment requires detailed profile/permission set audit."
          ("Run a detailed permission audit for " ++ cid
           ++ " using Setup > Permission Set Analyzer.")).

(** ** Integrations *)

Definition _rule_int_002 (raw : dict) : result Finding :=
  let integrations := _scope raw "integrations" in
  if negb (truthy integrations) then Ok (_na (VStr "SBS-INT-002") "moderate" NA_DEFAULT_REASON)
  else
    (rss <- py_get integrations "remote_site_settings" (VDict []) ;;
     sites <- _records rss ;;
     let insecure :=
       filter (fun s => flag s "DisableProtocolSecurity" && flag s "IsActive") sites in
     let inactive_insecure :=
       filter (fun s => flag s "DisableProtocolSecurity" && negb (flag s "IsActive")) sites in
     if negb (is_empty insecure) then
       Ok (finding (VStr "SBS-INT-002") "fail" "moderate"
             (len insecure ++ " active remote site(s) have protocol security disabled.")
             "Enable protocol security on all active Remote Site Settings or remove unused entries.")
     else if negb (is_empty inactive_insecure) then
       Ok (finding (VStr "SBS-INT-002") "partial" "moderate"
             (len inactive_insecure
              ++ " inactive remote site(s) have protocol security disabled.")
             "Remove or remediate inactive remote sites with insecure protocol settings.")
     else
       Ok (finding (VStr "SBS-INT-002") "pass" "moderate"
             (len sites ++ " remote site setting(s) — none with protocol security disabled.")
             ""))%py.

Definition _rule_int_003 (raw : dict) : result Finding :=
  let integrations := _scope raw "integrations" in
  if negb (truthy integrations) then Ok (_na (VStr "SBS-INT-003") "moderate" NA_DEFAULT_REASON)
  else
    (nc <- py_get integrations "named_credentials" (VDict []) ;;
     creds <- _records nc ;;
     if is_empty creds then
       Ok (finding (VStr "SBS-INT-003") "partial" "moderate"
             "No Named Credentials found — integrations may be using hardcoded credentials."
             "Migrate integration credentials to Named Credentials to centralize and govern access.")
     else
       Ok (finding (VStr "SBS-INT-003") "pass" "moderate"
             (len creds ++ " Named Credential(s) found — managed integration credentials in use.")
             ""))%py.

(** The truthy [EventType] values, in record order. *)
Definition event_types (log_types : list dict) : list value :=
  flat_map (fun r => let t := ad_get_default r "EventType" VNone in
                     if truthy t then [t] else []) log_types.

(** [t.upper()] for an element of the set *)
Definition upper_of (t : value) : result string :=
  match t with VStr s => Ok (upper s) | _ => raise_ AttributeError end.

Definition str_of (t : value) : string := match t with VStr s => s | _ => "" end.

Definition is_api_type (t : string) : bool :=
  contains "API" (upper t) || contains "REST" (upper t).

Definition _rule_int_004 (raw : dict) : result Finding :=
  let em := _scope raw "event-monitoring" in
  if negb (truthy em) then Ok (_na (VStr "SBS-INT-004") "high" NA_DEFAULT_REASON)
  else
    (elt <- py_get em "event_log_types" (VDict []) ;;
     log_types <- _records elt ;;
     let seen := event_types log_types in
     (* building the set hashes every element *)
     if negb (forallb hashable seen) then raise_ TypeError
     else if is_empty seen then
       Ok (finding (VStr "SBS-INT-004") "fail" "high"
             "No Event Log File types found in last 7 days — API event monitoring not active."
             "Enable Event Monitoring in Setup > Event Manager and ensure API event types are captured.")
     else
       _ <- mapM upper_of seen ;;
       let unique_types := nodup string_dec (map str_of seen) in
       let api_types := filter is_api_type unique_types in
       if is_empty api_types then
         Ok (finding (VStr "SBS-INT-004") "partial" "high"
               (len unique_types
                ++ " event type(s) found but no API-specific event types detected.")
               "Enable API event types (ApiEvent, RestApi) in Event Manager for full API telemetry.")
       else
         Ok (finding (VStr "SBS-INT-004") "pass" "high"
               (len api_types ++ " API event type(s) active: "
                ++ String.concat ", " (sorted_strs api_types) ++ ".")
               ""))%py.

(** ** OAuth security *)

Definition _rule_oauth_001 (raw : dict) : result Finding :=
  let oauth := _scope raw "oauth" in
  if negb (truthy oauth) then Ok (_na (VStr "SBS-OAUTH-001") "critical" NA_DEFAULT_REASON)
  else
    (cap <- py_get oauth "connected_app_oauth_policies" (VDict []) ;;
     policies <- _records cap ;;
     if is_empty policies then
       Ok (finding (VStr "SBS-OAUTH-001") "pass" "critical"
             "No OAuth-enabled connected apps found." "")
     else
       let open_access :=
         filter (fun p => let v := ad_get_default p "PermittedUsersPolicyEnum" (VStr "") in
                          eq_str v "AllUsers" || eq_str v "") policies in
       if (length open_access =? length policies)%nat then
         Ok (finding (VStr "SBS-OAUTH-001") "fail" "critical"
               ("All " ++ len policies
                ++ " connected app(s) allow all users — no formal installation control.")
               "Restrict all connected apps to admin-approved users or specific profiles/permission sets.")
       else if negb (is_empty open_access) then
         Ok (finding (VStr "SBS-OAUTH-001") "partial" "critical"
               (len open_access ++ "/" ++ len policies ++ " connected app(s) permit all users.")
               "Apply admin-approved-only policy to all connected apps.")
       else
         Ok (finding (VStr "SBS-OAUTH-001") "pass" "critical"
               ("All " ++ len policies ++ " connected app(s) have controlled access policies.")
               ""))%py.

Definition _rule_oauth_002 (raw : dict) : result Finding :=
  let oauth := _scope raw "oauth" in
  if negb (truthy oauth) then Ok (_na (VStr "SBS-OAUTH-002") "critical" NA_DEFAULT_REASON)
  else
    (cap <- py_get oauth "connected_app_oauth_policies" (VDict []) ;;
     policies <- _records cap ;;
     if is_empty policies then
       Ok (finding (VStr "SBS-OAUTH-002") "pass" "critical"
             "No OAuth-enabled connected apps found." "")
     else
       let unrestricted :=
         filter (fun p => negb (flag p "OptionsAllowAdminApprovedUsersOnly")) policies in
       if (length unrestricted =? length policies)%nat then
         Ok (finding (VStr "SBS-OAUTH-002") "fail" "critical"
               ("All " ++ len policies
                ++ " connected app(s) not restricted to admin-approved users.")
               "Enable 'Admin approved users are pre-authorized' on all connected apps.")
       else if negb (is_empty unrestricted) then
         Ok (finding (VStr "SBS-OAUTH-002") "partial" "critical"
               (len unrestricted ++ "/" ++ len policies
                ++ " connected app(s) lack admin-approved restriction.")
               "Apply admin-approved-users policy to all remaining connected apps.")
       else
         Ok (finding (VStr "SBS-OAUTH-002") "pass" "critical"
               ("All " ++ len policies ++ " connected app(s) restricted to admin-approved users.")
               ""))%py.

Definition _rule_oauth_structural (cid sev : string) (raw : dict) : result Finding :=
  let oauth := _scope raw "oauth" in
  if negb (truthy oauth) then Ok (_na (VStr cid) sev NA_DEFAULT_REASON)
  else
    Ok (finding (VStr cid) "partial" sev
          "OAuth scope collected — full assessment requires manual classification and documentation."
          ("Complete manual assessment for " ++ cid ++ " per the SBS runbook.")).

(** ** Data security *)

Definition _rule_data_004 (raw : dict) : result Finding :=
  let em := _scope raw "event-monitoring" in
  if negb (truthy em) then Ok (_na (VStr "SBS-DATA-004") "high" NA_DEFAULT_REASON)
  else
    (fhr <- py_get em "field_history_retention" (VDict []) ;;
     tracked <- _total fhr ;;
     if (tracked =? 0)%Z then
       Ok (finding (VStr "SBS-DATA-004") "fail" "high"
             "No fields with history tracking enabled found."
             "Enable Field History Tracking on sensitive fields in object field settings.")
     else if (tracked <? 10)%Z then
       Ok (finding (VStr "SBS-DATA-004") "partial" "high"
             ("Only " ++ str_of_Z tracked
              ++ " tracked field(s) — coverage may be insufficient for sensitive data.")
             "Review all objects containing PII/regulated data and enable Field History Tracking.")
     else
       Ok (finding (VStr "SBS-DATA-004") "pass" "high"
             (str_of_Z tracked ++ " field(s) with history tracking enabled.") ""))%py.

Definition _rule_data_structural (cid sev : string) (raw : dict) : result Finding :=
  Ok (finding (VStr cid) "partial" sev
        "Data security controls require field-level inventory — not available via sfdc-connect."
        ("Complete " ++ cid
         ++ " assessment via Setup > Data Classification or a custom SOQL audit.")).

(** ** Security configuration *)

Definition _rule_secconf_001 (raw : dict) : result Finding :=
  let secconf := _scope raw "secconf" in
  if negb (truthy secconf) then Ok (_na (VStr "SBS-SECCONF-001") "high" NA_DEFAULT_REASON)
  else
    (hc <- py_get secconf "health_check" (VDict []) ;;
     if is_dict hc && has_key hc "note" then
       Ok (finding (VStr "SBS-SECCONF-001") "partial" "high"
             "Health Check not available via SOQL — check manually in Setup > Security Health Check."
             "Review Security Health Check in the Salesforce UI and establish a documented baseline.")
     else
       records <- _records hc ;;
       match records with
       | [] =>
           Ok (finding (VStr "SBS-SECCONF-001") "partial" "high"
                 "Health Check score could not be retrieved via API."
                 "Verify Health Check is accessible and document the baseline score.")
       | r0 :: _ =>
           let score := ad_get_default r0 "Score" (VInt 0) in
           below50 <- py_lt score 50 ;;
           if below50 then
             Ok (finding (VStr "SBS-SECCONF-001") "fail" "high"
                   ("Health Check score: " ++ py_str score
                    ++ "/100 — critically below baseline.")
                   "Address all Health Check findings in Setup > Security Health Check immediately.")
           else
             below80 <- py_lt score 80 ;;
             if below80 then
               Ok (finding (VStr "SBS-SECCONF-001") "partial" "high"
                     ("Health Check score: " ++ py_str score
                      ++ "/100 — below recommended 80% threshold.")
                     "Remediate Health Check findings to reach ≥80% score.")
             else
               Ok (finding (VStr "SBS-SECCONF-001") "pass" "high"
                     ("Health Check score: " ++ py_str score ++ "/100.") "")
       end)%py.

Definition _rule_secconf_002 (raw : dict) : result Finding :=
  let secconf := _scope raw "secconf" in
  if negb (truthy secconf) then Ok (_na (VStr "SBS-SECCONF-002") "high" NA_DEFAULT_REASON)
  else
    (hc <- py_get secconf "health_check" (VDict []) ;;
     records <- _records hc ;;
     match records with
     | [] =>
         Ok (finding (VStr "SBS-SECCONF-002") "partial" "high"
               "Health Check deviations cannot be enumerated via API — manual review required."
               "Review and remediate each Health Check deviation in Setup > Security Health Check.")
     | r0 :: _ =>
         let score := ad_get_default r0 "Score" (VInt 0) in
         below50 <- py_lt score 50 ;;
         if below50 then
           Ok (finding (VStr "SBS-SECCONF-002") "fail" "high"
                 ("Health Check score " ++ py_str score
                  ++ "/100 indicates unaddressed critical deviations.")
                 "Resolve all failing Health Check items — prioritise Critical and High risk items.")
         else
           below80 <- py_lt score 80 ;;
           if below80 then
             Ok (finding (VStr "SBS-SECCONF-002") "partial" "high"
                   ("Health Check score " ++ py_str score
                    ++ "/100 — some deviations remain unaddressed.")
                   "Continue remediating Health Check findings until score reaches ≥80%.")
           else
             Ok (finding (VStr "SBS-SECCONF-002") "pass" "high"
                   ("Health Check score " ++ py_str score
                    ++ "/100 — deviations within acceptable range.") "")
     end)%py.

(** ** Transaction security / deployments *)

Definition _rule_dep_003 (raw : dict) : result Finding :=
  let ts := _scope raw "transaction-security" in
  if negb (truthy ts) then Ok (_na (VStr "SBS-DEP-003") "high" NA_DEFAULT_REASON)
  else
    (pol <- py_get ts "policies" (VDict []) ;;
     policies <- _records pol ;;
     if is_empty policies then
       Ok (finding (VStr "SBS-DEP-003") "fail" "high"
             "No Transaction Security Policies found — no automated threat response configured."
             "Create Transaction Security Policies in Setup > Transaction Security to monitor high-risk events.")
     else
       let enabled := filter (fun p => flag p "IsEnabled") policies in
       if is_empty enabled then
         Ok (finding (VStr "SBS-DEP-003") "partial" "high"
               (len policies ++ " Transaction Security Polic(ies) found but none enabled.")
               "Enable relevant Transaction Security Policies to enforce automated threat response.")
       else
         Ok (finding (VStr "SBS-DEP-003") "pass" "high"
               (len enabled ++ "/" ++ len policies
                ++ " Transaction Security Polic(ies) active.") ""))%py.

Definition _rule_not_collectable (cid sev reason : string) (_raw : dict) : result Finding :=
  Ok (_na (VStr cid) sev reason).

(** ** Rule registry *)

Definition _CODE_NA := "Requires source code review — not assessable via Salesforce API".
Definition _PORTAL_NA := "Requires Apex/LWC code audit — not assessable via Salesforce API".
Definition _DEP_NA :=
  "Requires CI/CD and source repository audit — not assessable via Salesforce API".
Definition _FILE_NA := "Requires manual content link review — not assessable via Salesforce API".
Definition _FDNS_NA := "Foundational governance control — requires manual programme review".

Definition rule : Type := dict -> result Finding.

Definition RULES : adict rule :=
  [ (* Authentication *)
    ("SBS-AUTH-001", _rule_auth_001);
    ("SBS-AUTH-002", _rule_auth_002);
    ("SBS-AUTH-003", _rule_auth_003);
    ("SBS-AUTH-004", _rule_auth_004);
    (* Access Controls *)
    ("SBS-ACS-001", _rule_acs_001);
    ("SBS-ACS-002", _rule_acs_002);
    ("SBS-ACS-003", _rule_acs_003);
    ("SBS-ACS-004", _rule_acs_004);
    ("SBS-ACS-005", _rule_acs_structural "SBS-ACS-005" "high");
    ("SBS-ACS-006", _rule_acs_structural "SBS-ACS-006" "critical");
    ("SBS-ACS-007", _rule_acs_structural "SBS-ACS-007" "high");
    ("SBS-ACS-008", _rule_acs_structural "SBS-ACS-008" "high");
    ("SBS-ACS-009", _rule_acs_structural "SBS-ACS-009" "moderate");
    ("SBS-ACS-010", _rule_acs_structural "SBS-ACS-010" "moderate");
    ("SBS-ACS-011", _rule_acs_structural "SBS-ACS-011" "high");
    ("SBS-ACS-012", _rule_acs_structural "SBS-ACS-012" "moderate");
    (* Integrations *)
    ("SBS-INT-001",
     _rule_not_collectable "SBS-INT-001" "moderate"
       "Browser extension inventory requires manual review");
    ("SBS-INT-002", _rule_int_002);
    ("SBS-INT-003", _rule_int_003);
    ("SBS-INT-004", _rule_int_004);
    (* OAuth Security *)
    ("SBS-OAUTH-001", _rule_oauth_001);
    ("SBS-OAUTH-002", _rule_oauth_002);
    ("SBS-OAUTH-003", _rule_oauth_structural "SBS-OAUTH-003" "high");
    ("SBS-OAUTH-004", _rule_oauth_structural "SBS-OAUTH-004" "moderate");
    (* Data Security *)
    ("SBS-DATA-001", _rule_data_structural "SBS-DATA-001" "high");
    ("SBS-DATA-002", _rule_data_structural "SBS-DATA-002" "moderate");
    ("SBS-DATA-003", _rule_data_structural "SBS-DATA-003" "high");
    ("SBS-DATA-004", _rule_data_004);
    (* Security Configuration *)
    ("SBS-SECCONF-001", _rule_secconf_001);
    ("SBS-SECCONF-002", _rule_secconf_002);
    (* Deployments *)
    ("SBS-DEP-001", _rule_not_collectable "SBS-DEP-001" "high" _DEP_NA);
    ("SBS-DEP-002", _rule_not_collectable "SBS-DEP-002" "high" _DEP_NA);
    ("SBS-DEP-003", _rule_dep_003);
    ("SBS-DEP-005", _rule_not_collectable "SBS-DEP-005" "critical" _DEP_NA);
    ("SBS-DEP-006", _rule_not_collectable "SBS-DEP-006" "high" _DEP_NA);
    (* Code Security *)
    ("SBS-CODE-001", _rule_not_collectable "SBS-CODE-001" "moderate" _CODE_NA);
    ("SBS-CODE-002", _rule_not_collectable "SBS-CODE-002" "moderate" _CODE_NA);
    ("SBS-CODE-003", _rule_not_collectable "SBS-CODE-003" "high" _CODE_NA);
    ("SBS-CODE-004", _rule_not_collectable "SBS-CODE-004" "critical" _CODE_NA);
    (* Customer Portals *)
    ("SBS-CPORTAL-001", _rule_not_collectable "SBS-CPORTAL-001" "critical" _PORTAL_NA);
    ("SBS-CPORTAL-002", _rule_not_collectable "SBS-CPORTAL-002" "critical" _PORTAL_NA);
    (* File Security *)
    ("SBS-FILE-001", _rule_not_collectable "SBS-FILE-001" "moderate" _FILE_NA);
    ("SBS-FILE-002", _rule_not_collectable "SBS-FILE-002" "moderate" _FILE_NA);
    ("SBS-FILE-003", _rule_not_collectable "SBS-FILE-003" "moderate" _FILE_NA);
    (* Foundations *)
    ("SBS-FDNS-001", _rule_not_collectable "SBS-FDNS-001" "moderate" _FDNS_NA) ].

(** ** Dry-run stub data: (status, observed_value, remediation) *)

Definition _DRY_RUN_OVERRIDES : adict (string * string * string) :=
  [ ("SBS-AUTH-001", ("fail", "No SSO providers configured [dry-run]", "Configure org-wide SSO."));
    ("SBS-AUTH-002", ("partial", "SSO not configured — bypass governance N/A [dry-run]", ""));
    ("SBS-AUTH-003", ("fail", "No Login IP Ranges found [dry-run]",
                      "Add Login IP Ranges to privileged profiles."));
    ("SBS-AUTH-004", ("partial", "MFA org settings unconfirmed [dry-run]",
                      "Verify MFA in Setup > Identity Verification."));
    ("SBS-ACS-001", ("fail", "8 admin profiles with ModifyAllData [dry-run]",
                     "Reduce to ≤2 admin profiles."));
    ("SBS-ACS-002", ("partial", "6 elevated permission sets [dry-run]",
                     "Document justification for all elevated sets."));
    ("SBS-ACS-003", ("fail", "All 4 connected apps allow all users [dry-run]",
                     "Apply admin-approved policy."));
    ("SBS-ACS-004", ("partial", "2 super admin-equivalent profiles [dry-run]",
                     "Document justification."));
    ("SBS-ACS-005", ("partial", "Requires profile audit [dry-run]", "Run detailed profile review."));
    ("SBS-ACS-006", ("partial", "Requires permission set audit [dry-run]",
                     "Audit Use Any API Client grants."));
    ("SBS-ACS-007", ("partial", "Non-human identity inventory required [dry-run]",
                     "Build NHI inventory."));
    ("SBS-ACS-008", ("partial", "NHI privilege scope requires audit [dry-run]",
                     "Restrict NHI permissions."));
    ("SBS-ACS-009", ("partial", "Compensating controls require manual review [dry-run]", ""));
    ("SBS-ACS-010", ("fail", "No access review process evidence found [dry-run]",
                     "Implement quarterly access reviews."));
    ("SBS-ACS-011", ("partial", "Change governance process requires verification [dry-run]", ""));
    ("SBS-ACS-012", ("partial", "Login hour restrictions require profile audit [dry-run]", ""));
    ("SBS-INT-002", ("fail", "3 active remote sites have protocol security disabled [dry-run]",
                     "Enable protocol security."));
    ("SBS-INT-003", ("pass", "12 Named Credentials found [dry-run]", ""));
    ("SBS-INT-004", ("partial", "5 event types found but no API-specific types [dry-run]",
                     "Enable ApiEvent type."));
    ("SBS-OAUTH-001", ("fail", "3 connected apps allow all users [dry-run]",
                       "Restrict to admin-approved."));
    ("SBS-OAUTH-002", ("partial", "2/5 apps lack admin-approved restriction [dry-run]",
                       "Apply policy to all apps."));
    ("SBS-OAUTH-003", ("partial", "Criticality classification not documented [dry-run]",
                       "Classify all connected apps."));
    ("SBS-OAUTH-004", ("partial", "Vendor due diligence documentation missing [dry-run]",
                       "Complete vendor assessments."));
    ("SBS-DATA-001", ("partial", "Field scan required [dry-run]", "Run data classification scan."));
    ("SBS-DATA-002", ("partial", "Field inventory requires SOQL audit [dry-run]", ""));
    ("SBS-DATA-003", ("partial", "Backup process not verifiable via API [dry-run]",
                      "Verify backup schedule."));
    ("SBS-DATA-004", ("fail", "0 fields with history tracking enabled [dry-run]",
                      "Enable field history tracking."));
    ("SBS-SECCONF-001", ("partial", "Health Check score: 64/100 [dry-run]",
                         "Remediate to reach ≥80%."));
    ("SBS-SECCONF-002", ("partial", "Score 64/100 — deviations remain [dry-run]",
                         "Address all failing items."));
    ("SBS-DEP-003", ("fail", "No Transaction Security Policies found [dry-run]",
                     "Create TSPs for high-risk events."));
    ("SBS-CODE-003", ("partial", "Apex logging requires code audit [dry-run]", ""));
    ("SBS-CODE-004", ("fail", "Sensitive data in logs cannot be ruled out [dry-run]",
                      "Audit all Apex log statements.")) ].

(** [d.get(cid)] on a dict with string keys: hashing [cid] comes first. *)
Definition get_by_value {V : Type} (d : adict V) (cid : value) : result (option V) :=
  match cid with
  | VStr s => Ok (ad_get d s)
  | VList _ | VDict _ => raise_ TypeError
  | VNone | VBool _ | VInt _ | VFloat _ => Ok None
  end.

(** ** Core assessment logic *)

(** The choice of the finding for one control: the [if rule is None /
    elif dry_run / else] of the loop body. *)
Definition evaluate (raw : option dict) (dry_run : bool) (cid : value) (severity : string)
  : result Finding :=
  (rule <- get_by_value RULES cid ;;
   match rule with
   | None => Ok (_na cid severity "No assessment rule defined")
   | Some rule =>
       if dry_run then
         override <- get_by_value _DRY_RUN_OVERRIDES cid ;;
         match override with
         | Some (status, observed, remediation) =>
             Ok (finding cid status severity observed remediation)
         | None => rule []
         end
       else
         rule (match raw with Some d => d | None => [] end)
   end)%py.

(** The body of [for control in controls], up to [to_dict]. *)
Definition assess_control (raw : option dict) (dry_run : bool) (control : value)
  : result Finding :=
  (cid <- py_get control "control_id" (VStr "") ;;
   risk_level <- py_get control "risk_level" VNone ;;
   severity <- py_lower (py_or risk_level (VStr "moderate")) ;;
   evaluate raw dry_run cid severity)%py.

Definition run_assessment (raw : option dict) (controls : list value) (dry_run : bool)
    (org env date_str : string) : result (list dict) :=
  mapM (fun control =>
          (f <- assess_control raw dry_run control ;;
           Ok (to_dict f org env date_str))%py) controls.

(** [assess], the way from the collector's file to [run_assessment]:
    [raw = collector_data.get("raw", collector_data)]. *)
Definition raw_of (collector_data : value) : result value :=
  py_get collector_data "raw" collector_data.

End WithBuiltins.

End Assess.

(* ================================================================== *)
(** * skills/sscf_benchmark/sscf_benchmark.py *)
(* ================================================================== *)

Module Benchmark.

(** A backlog item as the mapper writes it (only the keys the scorer reads;
    an absent ["status"] reads as the empty string). *)
Record item : Type := Item {
  status : string;
  sscf_control_ids : list string;
  sbs_control_id : option string;
  legacy_control_id : option string
}.

(** An entry of the framework control index. *)
Record ctrl : Type := Ctrl {
  domain : string;
  sscf_control_id : string;
  title : string;
  owner_team : string
}.

Record backlog : Type := Backlog {
  assessment_id : option string;
  mapped_items : list item
}.

(** [round(x, 4)] on the double [x]: the decimal with four places nearest
    to the exact value of [x], ties to even.  (What [round] returns is the
    double nearest to that decimal, which prints as the decimal; the
    decimal stands for it here.) *)
Definition py_round4 (x : Q) : Q := Qred (round_half_even (x * 10000) # 10000).

Definition _domain_status (score threshold : Q) : string :=
  if Qle_bool threshold score then "green"
  else if Qle_bool (1 # 2) score then "amber"
  else "red".

(** The body of the counting loop:
    [status = item.get("status", ""); if status in counts: counts[status] += 1] *)
Definition count_step (counts : adict nat) (it : item) : adict nat :=
  let status := it.(status) in
  match ad_get counts status with
  | Some n => ad_set counts status (n + 1)%nat
  | None => counts
  end.

Definition counts_init : adict nat :=
  [("pass", 0); ("partial", 0); ("fail", 0); ("not_applicable", 0)]%nat.

Definition cnt (counts : adict nat) (k : string) : nat := ad_get_default counts k 0%nat.

Definition Qnat (n : nat) : Q := inject_Z (Z.of_nat n).

(** Returns [(pass, partial, fail, not_applicable, score)].  The counts
    are below 2^52 (a list of 2^52 items does not fit in memory), so they
    convert to floats exactly and the products and their sum are exact;
    the division rounds. *)
Definition _score_findings (items : list item) : nat * nat * nat * nat * Q :=
  let counts := fold_left count_step items counts_init in
  let scoreable := (cnt counts "pass" + cnt counts "partial" + cnt counts "fail")%nat in
  let score :=
    if (scoreable =? 0)%nat then 1%Q
    else float_div (Qnat (cnt counts "pass") * 1 + Qnat (cnt counts "partial") * (1 # 2))%Q
                   (Qnat scoreable) in
  (cnt counts "pass", cnt counts "partial", cnt counts "fail",
   cnt counts "not_applicable", py_round4 score).

Record control_detail : Type := ControlDetail {
  cd_sscf_control_id : string;
  cd_title : string;
  cd_owner_team : string;
  cd_findings : list string;
  cd_worst_status : string
}.

Record domain_result : Type := DomainResult {
  dr_domain : string;
  dr_sscf_controls : list string;
  dr_findings_count : nat;
  dr_pass : nat;
  dr_partial : nat;
  dr_fail : nat;
  dr_not_applicable : nat;
  dr_score : Q;
  dr_status : string;
  dr_controls : list control_detail
}.

Record report : Type := Report {
  benchmark_id : string;
  source_assessment_id : string;
  framework : string;
  threshold : Q;
  overall_score : Q;
  overall_status : string;
  domains : list domain_result;
  total_domains : nat;
  domains_green : nat;
  domains_amber : nat;
  domains_red : nat;
  unmatched_findings : nat
}.

(** [domain_controls.setdefault(domain, {})[cid] = []] *)
Definition register_control (dc : adict (adict (list item))) (c : ctrl)
  : adict (adict (list item)) :=
  let inner := ad_get_default dc c.(domain) [] in
  ad_set dc c.(domain) (ad_set inner c.(sscf_control_id) []).

(** [domain_controls.setdefault(domain, {}).setdefault(sscf_cid, []).append(item)] *)
Definition place_item (dc : adict (adict (list item))) (dom cid : string) (it : item)
  : adict (adict (list item)) :=
  let inner := ad_get_default dc dom [] in
  let items := ad_get_default inner cid [] in
  ad_set dc dom (ad_set inner cid (items ++ [it])).

(** The inner loop over [item.get("sscf_control_ids", [])]. *)
Definition distribute_item (sscf_index : adict ctrl)
    (acc : adict (adict (list item)) * bool) (it : item) (sscf_cid : string)
  : adict (adict (list item)) * bool :=
  match ad_get sscf_index sscf_cid with
  | Some ctrl_meta => (place_item (fst acc) ctrl_meta.(domain) sscf_cid it, true)
  | None => acc
  end.

(** The loop over [mapped_items]; the state is
    [(domain_controls, unmatched_items)]. *)
Definition distribute (sscf_index : adict ctrl)
    (st : adict (adict (list item)) * list item) (it : item)
  : adict (adict (list item)) * list item :=
  let '(dc, placed) :=
    fold_left (fun acc cid => distribute_item sscf_index acc it cid)
              it.(sscf_control_ids) (fst st, false) in
  if placed then (dc, snd st) else (dc, snd st ++ [it]).

Definition worst_status (items : list item) : string :=
  let statuses := map status items in
  let worst :=
    if existsb (String.eqb "fail") statuses then "fail"
    else if existsb (String.eqb "partial") statuses then "partial"
    else if existsb (String.eqb "pass") statuses then "pass"
    else "not_applicable" in
  match items with [] => "not_applicable" | _ => worst end.

(** [i.get("sbs_control_id", i.get("legacy_control_id", ""))] *)
Definition finding_label (i : item) : string :=
  match i.(sbs_control_id) with
  | Some s => s
  | None => match i.(legacy_control_id) with Some l => l | None => "" end
  end.

Definition detail_of (sscf_index : adict ctrl) (entry : string * list item)
  : control_detail :=
  let '(sscf_cid, items) := entry in
  let ctrl_meta := ad_get sscf_index sscf_cid in
  {| cd_sscf_control_id := sscf_cid;
     cd_title := match ctrl_meta with Some c => c.(title) | None => "" end;
     cd_owner_team := match ctrl_meta with Some c => c.(owner_team) | None => "" end;
     cd_findings := map finding_label items;
     cd_worst_status := worst_status items |}.

(** The body of the loop [for domain, controls in sorted(domain_controls.items())]. *)
Definition score_domain (sscf_index : adict ctrl) (threshold : Q)
    (entry : string * adict (list item)) : domain_result :=
  let '(dom, controls) := entry in
  let domain_items := concat (map snd controls) in
  let '(passes, partials, fails, nas, score) := _score_findings domain_items in
  {| dr_domain := dom;
     dr_sscf_controls := map fst (sorted_items controls);
     dr_findings_count := length domain_items;
     dr_pass := passes;
     dr_partial := partials;
     dr_fail := fails;
     dr_not_applicable := nas;
     dr_score := score;
     dr_status := _domain_status score threshold;
     dr_controls := map (detail_of sscf_index) (sorted_items controls) |}.

Definition count_status (s : string) (drs : list domain_result) : nat :=
  length (filter (fun dr => dr.(dr_status) =? s) drs).

Definition run_benchmark (b : backlog) (sscf_index : adict ctrl) (threshold : Q)
  : report :=
  let dc0 := fold_left register_control (map snd sscf_index) [] in
  let '(domain_controls, unmatched_items) :=
    fold_left (distribute sscf_index) b.(mapped_items) (dc0, []) in
  let domain_results :=
    map (score_domain sscf_index threshold) (sorted_items domain_controls) in
  let all_items := concat (map (fun d => concat (map snd (snd d))) domain_controls) in
  let '(_, _, _, _, overall_score) := _score_findings all_items in
  {| benchmark_id :=
       "sscf-benchmark-" ++ match b.(assessment_id) with Some a => a | None => "unknown" end;
     source_assessment_id := match b.(assessment_id) with Some a => a | None => "" end;
     framework := "CSA_SSCF";
     threshold := threshold;
     overall_score := py_round4 overall_score;
     overall_status := _domain_status overall_score threshold;
     domains := domain_results;
     total_domains := length domain_results;
     domains_green := count_status "green" domain_results;
     domains_amber := count_status "amber" domain_results;
     domains_red := count_status "red" domain_results;
     unmatched_findings := length unmatched_items |}.

End Benchmark.

(* ================================================================== *)
(** * scripts/oscal_gap_map.py *)
(* ================================================================== *)

Module GapMap.

(** A control of the imported catalog (the keys the mapper reads):
    [c.get("control_id")], [c.get("title", "")] and
    [c.get("category", "")].  The id and the category are the strings the
    catalog importer writes; the title is kept as the value it is, since
    the report calls [.replace] on it. *)
Record control : Type := Control {
  c_control_id : string;
  c_title : value;
  c_category : string
}.

(** What [main] builds from its input files before the mapping loop
    (lines 131-150).  The files are of the shapes that code is written
    for: the crosswalk rows are keyed by their legacy id, and the framework
    mapping binds control ids and categories to lists. *)
Record config : Type := Config {
  controls_by_id : adict control;
  map_by_legacy : adict dict;
  sscf_defaults_by_category : adict (list value);
  sscf_overrides : adict (list value)
}.

Record mapped_item : Type := MappedItem {
  mi_legacy_control_id : string;
  mi_sbs_control_id : string;
  mi_sbs_title : value;
  mi_status : value;
  mi_severity : value;
  mi_owner : value;
  mi_due_date : value;
  mi_remediation : value;
  mi_evidence_ref : value;
  mi_mapping_notes : value;
  mi_mapping_confidence : value;
  mi_sscf_mappings : list value;
  mi_sscf_control_ids : list value
}.

Record unmapped_item : Type := UnmappedItem {
  um_legacy_control_id : string;
  um_status : value;
  um_severity : value
}.

(** The three lists the loop appends to. *)
Record buckets : Type := Buckets {
  mapped_items : list mapped_item;
  unmapped_items : list unmapped_item;
  invalid_mapping_entries : list string
}.

(** The object written to the backlog file.  Its
    ["mapping_confidence_counts"] member is evaluated by [main] (see
    [confidences_sortable]) but not kept here: with numbers of several
    types among the confidences its keys depend on the iteration order of
    a Python set. *)
Record backlog_payload : Type := BacklogPayload {
  bp_assessment_id : string;
  bp_generated_at_utc : string;
  bp_catalog_version : value;
  bp_framework : string;
  bp_catalog_controls : nat;
  bp_findings_total : nat;
  bp_mapped_findings : nat;
  bp_unmapped_findings : nat;
  bp_invalid_mapping_entries : nat;
  bp_status_counts : adict nat;
  bp_buckets : buckets
}.

(** What [main] leaves on disk, in the order of the two [write_text]
    calls. *)
Inductive output : Type :=
| WriteJson (payload : backlog_payload)
| WriteMd (text : string).

Section WithRepr.
Context `{Builtins}.

(** [_findings]: the dict entries of [gap["findings"]]. *)
Definition _findings (gap : dict) : result (list dict) :=
  match ad_get_default gap "findings" (VList []) with
  | VList findings =>
      Ok (flat_map (fun f => match f with VDict d => [d] | _ => [] end) findings)
  | _ => raise_ ValueError
  end.

(** [sscf_overrides.get(id) or sscf_defaults_by_category.get(category) or []] *)
Definition sscf_mappings_for (cfg : config) (sbs_control_id : string) (sbs : control)
  : list value :=
  match ad_get cfg.(sscf_overrides) sbs_control_id with
  | Some ((_ :: _) as l) => l
  | _ =>
      match ad_get cfg.(sscf_defaults_by_category) sbs.(c_category) with
      | Some ((_ :: _) as l) => l
      | _ => []
      end
  end.

(** [str(finding.get("control_id", "")).strip()] *)
Definition legacy_id (finding : dict) : string :=
  strip (py_str (ad_get_default finding "control_id" (VStr ""))).

Definition fget (finding : dict) (k : string) : value :=
  ad_get_default finding k (VStr "").

Definition mk_mapped (cfg : config) (finding : dict)
    (legacy_control_id sbs_control_id : string) (sbs : control)
    (notes confidence : value) : mapped_item :=
  {| mi_legacy_control_id := legacy_control_id;
     mi_sbs_control_id := sbs_control_id;
     mi_sbs_title := sbs.(c_title);
     mi_status := fget finding "status";
     mi_severity := fget finding "severity";
     mi_owner := fget finding "owner";
     mi_due_date := fget finding "due_date";
     mi_remediation := fget finding "remediation";
     mi_evidence_ref := fget finding "evidence_ref";
     mi_mapping_notes := notes;
     mi_mapping_confidence := confidence;
     mi_sscf_mappings := sscf_mappings_for cfg sbs_control_id sbs;
     mi_sscf_control_ids := [] |}.

Definition add_mapped (b : buckets) (m : mapped_item) : buckets :=
  {| mapped_items := b.(mapped_items) ++ [m];
     unmapped_items := b.(unmapped_items);
     invalid_mapping_entries := b.(invalid_mapping_entries) |}.

Definition add_unmapped (b : buckets) (u : unmapped_item) : buckets :=
  {| mapped_items := b.(mapped_items);
     unmapped_items := b.(unmapped_items) ++ [u];
     invalid_mapping_entries := b.(invalid_mapping_entries) |}.

Definition add_invalid (b : buckets) (e : string) : buckets :=
  {| mapped_items := b.(mapped_items);
     unmapped_items := b.(unmapped_items);
     invalid_mapping_entries := b.(invalid_mapping_entries) ++ [e] |}.

(** The body of [for finding in findings]. *)
Definition map_finding (cfg : config) (b : buckets) (finding : dict) : buckets :=
  let legacy_control_id := legacy_id finding in
  if prefix "SBS-" legacy_control_id then
    let sbs_control_id := legacy_control_id in
    match ad_get cfg.(controls_by_id) sbs_control_id with
    | None =>
        add_invalid b (legacy_control_id ++ " -> " ++ sbs_control_id
                       ++ " (SBS control not found in imported catalog)")
    | Some sbs =>
        add_mapped b
          (mk_mapped cfg finding legacy_control_id sbs_control_id sbs
             (VStr "Direct collector mapping (SBS control ID emitted by collector).")
             (VStr "high"))
    end
  else
    match ad_get cfg.(map_by_legacy) legacy_control_id with
    | None | Some [] =>
        add_unmapped b
          {| um_legacy_control_id := legacy_control_id;
             um_status := fget finding "status";
             um_severity := fget finding "severity" |}
    | Some map_row =>
        let sbs_control_id :=
          strip (py_str (ad_get_default map_row "sbs_control_id" (VStr ""))) in
        match ad_get cfg.(controls_by_id) sbs_control_id with
        | None =>
            add_invalid b (legacy_control_id ++ " -> " ++ sbs_control_id
                           ++ " (not found in imported catalog)")
        | Some sbs =>
            add_mapped b
              (mk_mapped cfg finding legacy_control_id sbs_control_id sbs
                 (ad_get_default map_row "notes" (VStr ""))
                 (ad_get_default map_row "mapping_confidence" (VStr "unrated")))
        end
    end.

(** The second loop: [item["sscf_control_ids"] = [...]]. *)
Definition sscf_ids_of (sscf_mappings : list value) : list value :=
  flat_map (fun mapping =>
              match mapping with
              | VDict d =>
                  let id := ad_get_default d "sscf_control_id" VNone in
                  if truthy id then [id] else []
              | _ => []
              end) sscf_mappings.

Definition set_sscf_control_ids (m : mapped_item) : mapped_item :=
  {| mi_legacy_control_id := m.(mi_legacy_control_id);
     mi_sbs_control_id := m.(mi_sbs_control_id);
     mi_sbs_title := m.(mi_sbs_title);
     mi_status := m.(mi_status);
     mi_severity := m.(mi_severity);
     mi_owner := m.(mi_owner);
     mi_due_date := m.(mi_due_date);
     mi_remediation := m.(mi_remediation);
     mi_evidence_ref := m.(mi_evidence_ref);
     mi_mapping_notes := m.(mi_mapping_notes);
     mi_mapping_confidence := m.(mi_mapping_confidence);
     mi_sscf_mappings := m.(mi_sscf_mappings);
     mi_sscf_control_ids := sscf_ids_of m.(mi_sscf_mappings) |}.

(** Lines 152-229 of [main]: both loops. *)
Definition map_findings (cfg : config) (findings : list dict) : buckets :=
  let b := fold_left (map_finding cfg) findings (Buckets [] [] []) in
  {| mapped_items := map set_sscf_control_ids b.(mapped_items);
     unmapped_items := b.(unmapped_items);
     invalid_mapping_entries := b.(invalid_mapping_entries) |}.

(** [_status_summary]: the counting loop over the mapped items, on
    [str(item.get("status", "")).strip()]. *)
Definition status_step (summary : adict nat) (item : mapped_item) : adict nat :=
  let status := strip (py_str item.(mi_status)) in
  match ad_get summary status with
  | Some n => ad_set summary status (n + 1)%nat
  | None => summary
  end.

Definition _status_summary (items : list mapped_item) : adict nat :=
  fold_left status_step items
    [("pass", 0); ("fail", 0); ("partial", 0); ("not_applicable", 0)]%nat.

(** Lines 140-146 of [main]: the crosswalk rows keyed by their legacy
    id; [mappings] is the list under ["mappings"] of the mapping file. *)
Definition add_mapping_row (map_by_legacy : adict dict) (row : value) : adict dict :=
  match row with
  | VDict d =>
      let legacy := strip (py_str (ad_get_default d "legacy_control_id" (VStr ""))) in
      if negb (legacy =? "") then ad_set map_by_legacy legacy d else map_by_legacy
  | _ => map_by_legacy
  end.

Definition build_map_by_legacy (mappings : list value) : adict dict :=
  fold_left add_mapping_row mappings [].

(** [sorted({item.get("mapping_confidence", "unrated") for item in
    mapped_items})] at line 245: building the set raises TypeError on a
    list or an object; sorting two different elements compares them, which
    raises TypeError unless both are numbers or both are strings.  The
    only set without two different elements that holds neither is
    [{None}]. *)
Definition is_none (v : value) : bool :=
  match v with VNone => true | _ => false end.

Definition confidences_sortable (confidences : list value) : result unit :=
  if negb (forallb hashable confidences) then raise_ TypeError
  else if forallb is_none confidences || forallb is_number confidences
          || forallb is_str confidences
  then Ok tt
  else raise_ TypeError.

(** Lines 231-251 of [main]: the members of the payload in the order the
    dict display evaluates them; [now] is [datetime.now(UTC).isoformat()]
    and [controls_payload] the object of the controls file, read a second
    time for its version. *)
Definition build_payload (cfg : config) (controls_payload : dict) (now : string)
    (assessment_id : string) (findings : list dict) (out : buckets)
  : result backlog_payload :=
  (catalog_version <-
     py_get (ad_get_default controls_payload "catalog" (VDict [])) "version" VNone ;;
   let status_counts := _status_summary out.(mapped_items) in
   _ <- confidences_sortable (map mi_mapping_confidence out.(mapped_items)) ;;
   Ok {| bp_assessment_id := assessment_id;
         bp_generated_at_utc := now;
         bp_catalog_version := catalog_version;
         bp_framework := "CSA_SSCF";
         bp_catalog_controls := length cfg.(controls_by_id);
         bp_findings_total := length findings;
         bp_mapped_findings := length out.(mapped_items);
         bp_unmapped_findings := length out.(unmapped_items);
         bp_invalid_mapping_entries := length out.(invalid_mapping_entries);
         bp_status_counts := status_counts;
         bp_buckets := out |})%py.

(** [sep.join(l)]: TypeError on an entry that is not a string. *)
Definition str_join (sep : string) (l : list value) : result string :=
  if forallb is_str l
  then Ok (String.concat sep (map (fun v => match v with VStr s => s | _ => "" end) l))
  else raise_ TypeError.

(** [title.replace("|", "/")]: AttributeError on anything but a string. *)
Fixpoint replace_bar (s : string) : string :=
  match s with
  | EmptyString => EmptyString
  | String c r => String (if Ascii.eqb c "|" then "/"%char else c) (replace_bar r)
  end.

Definition py_replace_bar (v : value) : result string :=
  match v with VStr s => Ok (replace_bar s) | _ => raise_ AttributeError end.

(** One row of the control mapping table (lines 75-88): the join first,
    then the arguments of [format] from left to right. *)
Definition mapped_row (item : mapped_item) : result string :=
  (sscf_controls <- str_join ", " item.(mi_sscf_control_ids) ;;
   title <- py_replace_bar item.(mi_sbs_title) ;;
   Ok ("| " ++ item.(mi_legacy_control_id)
       ++ " | " ++ item.(mi_sbs_control_id)
       ++ " | " ++ title
       ++ " | " ++ py_str item.(mi_mapping_confidence)
       ++ " | " ++ sscf_controls
       ++ " | " ++ py_str item.(mi_status)
       ++ " | " ++ py_str item.(mi_severity)
       ++ " | " ++ py_str item.(mi_owner)
       ++ " | " ++ py_str item.(mi_due_date) ++ " |")%string)%py.

Definition unmapped_row (item : unmapped_item) : string :=
  ("- `" ++ item.(um_legacy_control_id) ++ "` (" ++ py_str item.(um_status)
   ++ ", " ++ py_str item.(um_severity) ++ ")")%string.

Definition summary_count (summary : adict nat) (k : string) : string :=
  str_of_nat (ad_get_default summary k 0%nat).

(** [_to_markdown]; [now] is its own reading of the clock. *)
Definition _to_markdown (assessment_id : string) (control_count : nat)
    (mapped : list mapped_item) (unmapped : list unmapped_item)
    (invalid : list string) (now : string) : result string :=
  let summary := _status_summary mapped in
  let head :=
    [ "# Salesforce OSCAL Gap Matrix (POC)";
      "";
      ("- Assessment ID: `" ++ assessment_id ++ "`")%string;
      ("- Generated UTC: `" ++ now ++ "`")%string;
      ("- SBS controls in catalog: `" ++ str_of_nat control_count ++ "`")%string;
      ("- Mapped findings: `" ++ str_of_nat (length mapped) ++ "`")%string;
      ("- Unmapped findings: `" ++ str_of_nat (length unmapped) ++ "`")%string;
      "";
      "## Status Summary (Mapped Findings)";
      ("- pass: `" ++ summary_count summary "pass" ++ "`")%string;
      ("- fail: `" ++ summary_count summary "fail" ++ "`")%string;
      ("- partial: `" ++ summary_count summary "partial" ++ "`")%string;
      ("- not_applicable: `" ++ summary_count summary "not_applicable" ++ "`")%string;
      "";
      "## Control Mapping Table";
      ("| Legacy Control ID | SBS Control ID | SBS Title | Mapping Confidence"
        ++ " | SSCF Controls | Status | Severity | Owner | Due Date |")%string;
      "|---|---|---|---|---|---|---|---|---|" ] in
  (rows <- mapM mapped_row mapped ;;
   let lines :=
     head ++ rows
     ++ [""; "## Unmapped Findings"]
     ++ (match unmapped with [] => ["- None"] | _ => map unmapped_row unmapped end)
     ++ [""; "## Invalid Mapping Entries"]
     ++ (match invalid with
         | [] => ["- None"]
         | _ => map (fun entry => ("- " ++ entry)%string) invalid
         end)
     ++ [""] in
   Ok (String.concat (String "010" EmptyString) lines))%py.

(** [main] from the loaded files on: [cfg] holds what lines 131-150
    build, [gap] is the gap-analysis object, [now] and [now'] the two
    readings of the clock.  The result is the return value together with
    what has been written when [main] ends: the backlog is written before
    the report is rendered, so a report that cannot be rendered leaves the
    backlog behind.  Creating the directories and the two writes
    themselves are taken to succeed. *)
Definition main (cfg : config) (controls_payload : dict) (now now' : string)
    (gap : dict) : result Z * list output :=
  match
    (findings <- _findings gap ;;
     let assessment_id :=
       py_str (ad_get_default gap "assessment_id" (VStr "unknown-assessment")) in
     let out := map_findings cfg findings in
     build_payload cfg controls_payload now assessment_id findings out)%py
  with
  | Raise e => (Raise e, [])
  | Ok backlog_payload =>
      let out := backlog_payload.(bp_buckets) in
      match _to_markdown backlog_payload.(bp_assessment_id)
              (length cfg.(controls_by_id)) out.(mapped_items)
              out.(unmapped_items) out.(invalid_mapping_entries) now' with
      | Raise e => (Raise e, [WriteJson backlog_payload])
      | Ok md => (Ok 0%Z, [WriteJson backlog_payload; WriteMd md])
      end
  end.

End WithRepr.

End GapMap.

(* ================================================================== *)
(** * harness/loop.py (with the dispatcher of harness/tools.py) *)
(* ================================================================== *)

Module Loop.

Definition _MAX_TURNS : nat := 20.

Definition nl : string := String (ascii_of_nat 10) EmptyString.

(** A text that is exchanged or stored: either the serialisation of a
    JSON value, identified with that value, or a text that is not JSON. *)
Inductive text : Type :=
| Json (v : value)
| Plain (s : string).

Definition json_dumps (v : value) : text := Json v.

Definition json_loads (t : text) : result value :=
  match t with
  | Json v => Ok v
  | Plain _ => raise_ JSONDecodeError
  end.

(** A content block of a model response. *)
Inductive block : Type :=
| TextBlock (text : string)
| ToolUseBlock (id name : string) (input : value)
| OtherBlock.

Record response : Type := Response {
  stop_reason : string;
  content : list block
}.

Record tool_result : Type := ToolResult {
  tool_use_id : string;
  tr_content : text
}.

Inductive message : Type :=
| UserText (s : string)
| Assistant (blocks : list block)
| UserToolResults (results : list tool_result).

(** The dict [state] of [_run_loop]. *)
Record state : Type := State {
  gap_analysis : value;
  backlog : value;
  sscf_report : value;
  turns : nat;
  summary : option string;
  score : option float;
  critical_fails : option (list value)
}.

Definition init_state : state :=
  {| gap_analysis := VNone; backlog := VNone; sscf_report := VNone; turns := 0;
     summary := None; score := None; critical_fails := None |}.

Definition set_turns (st : state) (n : nat) : state :=
  {| gap_analysis := st.(gap_analysis); backlog := st.(backlog);
     sscf_report := st.(sscf_report); turns := n; summary := st.(summary);
     score := st.(score); critical_fails := st.(critical_fails) |}.

Definition set_summary (st : state) (s : string) : state :=
  {| gap_analysis := st.(gap_analysis); backlog := st.(backlog);
     sscf_report := st.(sscf_report); turns := st.(turns); summary := Some s;
     score := st.(score); critical_fails := st.(critical_fails) |}.

Definition set_gap_analysis (st : state) (v : value) : state :=
  {| gap_analysis := v; backlog := st.(backlog);
     sscf_report := st.(sscf_report); turns := st.(turns); summary := st.(summary);
     score := st.(score); critical_fails := st.(critical_fails) |}.

Definition set_backlog (st : state) (v : value) : state :=
  {| gap_analysis := st.(gap_analysis); backlog := v;
     sscf_report := st.(sscf_report); turns := st.(turns); summary := st.(summary);
     score := st.(score); critical_fails := st.(critical_fails) |}.

Definition set_sscf_report (st : state) (v : value) : state :=
  {| gap_analysis := st.(gap_analysis); backlog := st.(backlog);
     sscf_report := v; turns := st.(turns); summary := st.(summary);
     score := st.(score); critical_fails := st.(critical_fails) |}.

Definition set_gate (st : state) (sc : float) (cf : list value) : state :=
  {| gap_analysis := st.(gap_analysis); backlog := st.(backlog);
     sscf_report := st.(sscf_report); turns := st.(turns); summary := st.(summary);
     score := Some sc; critical_fails := Some cf |}.

(** The consolidated record written to loop_result.json. *)
Record loop_result : Type := LoopResult {
  lr_org : string;
  lr_env : string;
  lr_dry_run : bool;
  lr_turns : nat;
  lr_overall_score : float;
  lr_critical_fails : list value;
  lr_gap_analysis : value;
  lr_backlog : value;
  lr_sscf_report : value;
  lr_summary : string
}.

(** What a run persists: a summary the memory store has accepted, and
    the file loop_result.json. *)
Inductive event : Type :=
| SaveAssessment (org assessment_id : string) (score : float) (critical_fails : list value)
| WriteLoopResult (org : string) (payload : loop_result).

(** How a call ends: it returns, raises, or leaves through [sys.exit]. *)
Inductive outcome (A : Type) : Type :=
| Returned (a : A)
| Raised (e : exn)
| Exited (code : Z).
Arguments Returned {A} a.
Arguments Raised {A} e.
Arguments Exited {A} code.

Definition exit_code {A : Type} (o : outcome A) : Z :=
  match o with
  | Returned _ => 0
  | Raised _ => 1
  | Exited c => c
  end.

(** The collaborators of the loop: the model API, the command-line tools
    run as subprocesses, the file system and the memory store. *)
Class Env : Type := {
  world : Type;
  (** [client.messages.create(...)] *)
  messages_create : list message -> world -> result response * world;
  (** a tool's CLI run in a subprocess: the path of its output file when
      it exits with 0, an exception otherwise *)
  run_cli : string -> value -> world -> result string * world;
  (** [Path(p).exists()] *)
  path_exists : world -> string -> bool;
  (** [Path(p).read_text()] *)
  read_text : world -> string -> result text;
  (** [build_client()] succeeds *)
  build_client : world -> bool;
  (** [load_memories(client, org)] *)
  load_memories : world -> string -> string;
  (** [client.add(summary, user_id=org, metadata=...)] for the summary
      of an assessment: the store accepts it or raises *)
  client_add : world -> string -> string -> float -> list value -> result unit
}.

Section WithEnv.
Context `{Builtins} `{Env}.

(** ** harness/tools.py *)

Definition _DISPATCHERS : list string :=
  ["sfdc_connect_collect"; "oscal_assess_assess"; "oscal_gap_map";
   "sscf_benchmark_benchmark"].

(** [dispatch]: an unknown tool raises, and so does an input that is not
    an object ([input_dict.get]); a known tool runs its CLI and answers
    with the JSON text naming the output file. *)
Definition dispatch (name : string) (input : value) (w : world) : result text * world :=
  if negb (existsb (String.eqb name) _DISPATCHERS) then
    (Raise (Exn ValueError
              ("Unknown tool: " ++ py_repr (VStr name) ++ ". Available: "
               ++ py_repr (VList (map VStr _DISPATCHERS)))), w)
  else
    match input with
    | VDict inp =>
        match run_cli name input w with
        | (Raise e, w') => (Raise e, w')
        | (Ok out_path, w') =>
            if (name =? "sfdc_connect_collect")
               && truthy (ad_get_default inp "dry_run" VNone)
            then
              (Ok (json_dumps
                     (VDict [("status", VStr "ok"); ("dry_run", VBool true);
                             ("output_file", VStr out_path);
                             ("note", VStr "dry-run: org config not collected; pass dry_run=true to oscal_assess_assess")])),
               w')
            else
              (Ok (json_dumps
                     (VDict [("status", VStr "ok"); ("output_file", VStr out_path)])),
               w')
        end
    | _ => (raise_ AttributeError, w)
    end.

(** ** Critical/fail gate helpers *)

(** [for f in v] *)
Definition py_iter (v : value) : result (list value) :=
  match v with
  | VList l => Ok l
  | VDict d => Ok (map (fun kv => VStr (fst kv)) d)
  | VStr s => Ok (map (fun c => VStr (String c EmptyString)) (list_ascii_of_string s))
  | VNone | VBool _ | VInt _ | VFloat _ => raise_ TypeError
  end.

(** [f[k]] on a dict *)
Definition py_index (f : value) (k : string) : result value :=
  match f with
  | VDict d => match ad_get d k with Some v => Ok v | None => raise_ KeyError end
  | _ => raise_ TypeError
  end.

(** [f.get("status") == "fail" and f.get("severity") == "critical"] *)
Definition is_critical_fail (f : value) : result bool :=
  (st <- py_get f "status" VNone ;;
   if eq_str st "fail" then
     sev <- py_get f "severity" VNone ;; Ok (eq_str sev "critical")
   else Ok false)%py.

(** The list comprehension of [_extract_critical_fails]. *)
Fixpoint critical_fail_ids (findings : list value) : result (list value) :=
  match findings with
  | [] => Ok []
  | f :: rest =>
      (keep <- is_critical_fail f ;;
       if keep then
         cid <- py_index f "control_id" ;;
         ids <- critical_fail_ids rest ;;
         Ok (cid :: ids)
       else critical_fail_ids rest)%py
  end.

(** [Path(p)] accepts a string only. *)
Definition as_path (p : value) : result string :=
  match p with VStr s => Ok s | _ => raise_ TypeError end.

Definition _extract_critical_fails (gap_analysis_path : value) (w : world)
  : result (list value) :=
  if negb (truthy gap_analysis_path) then Ok []
  else
    (path <- as_path gap_analysis_path ;;
     if negb (path_exists w path) then Ok []
     else
       Ok (try_except
             (t <- read_text w path ;;
              data <- json_loads t ;;
              findings <- py_get data "findings" (VList []) ;;
              fs <- py_iter findings ;;
              critical_fail_ids fs)
             (fun _ => [])))%py.

(** [float(v)]: an integer is rounded to the nearest double, and one
    beyond the range cannot be converted. *)
Definition py_float (v : value) : result float :=
  match v with
  | VFloat x => Ok x
  | VInt z =>
      let q := to_double (inject_Z z) in
      if Qle_bool (2 ^ 1024) (Qabs q) then raise_ OverflowError else Ok (Finite q)
  | VBool b => Ok (Finite (if b then 1 else 0))
  | VStr s => match float_of_str s with Some x => Ok x | None => raise_ ValueError end
  | VNone | VList _ | VDict _ => raise_ TypeError
  end.

Definition _extract_score (sscf_report_path : value) (w : world) : result float :=
  if negb (truthy sscf_report_path) then Ok (Finite 0)
  else
    (path <- as_path sscf_report_path ;;
     if negb (path_exists w path) then Ok (Finite 0)
     else
       Ok (try_except
             (t <- read_text w path ;;
              data <- json_loads t ;;
              v <- py_get data "overall_score" (VFloat (Finite 0)) ;;
              py_float v)
             (fun _ => Finite 0)))%py.

(** ** Tool error handler *)

Definition _CRITICAL_TOOLS : list string := ["sfdc_connect_collect"; "oscal_assess_assess"].

Definition is_critical_tool (tool_name : string) : bool :=
  existsb (String.eqb tool_name) _CRITICAL_TOOLS.

Definition critical_tool_message (tool_name : string) (error : exn) : string :=
  "Critical tool '" ++ tool_name
  ++ "' failed — aborting to prevent false-pass assessment." ++ nl ++ error.(exn_msg).

Definition error_payload (tool_name : string) (error : exn) : value :=
  VDict [("status", VStr "error"); ("tool", VStr tool_name);
         ("message", VStr error.(exn_msg))].

Definition _handle_tool_error (tool_name : string) (tool_input : value) (error : exn)
  : result text :=
  if is_critical_tool tool_name then
    Raise (Exn RuntimeError (critical_tool_message tool_name error))
  else Ok (json_dumps (error_payload tool_name error)).

(** ** Message loop *)

(** The [try] block that tracks output files; a result that is not JSON
    or not an object is passed over. *)
Definition track_output (st : state) (name : string) (result_str : text) : state :=
  match json_loads result_str with
  | Ok (VDict result_data) =>
      let out_file := ad_get_default result_data "output_file" VNone in
      if truthy out_file then
        if name =? "oscal_assess_assess" then set_gap_analysis st out_file
        else if name =? "oscal_gap_map" then set_backlog st out_file
        else if name =? "sscf_benchmark_benchmark" then set_sscf_report st out_file
        else st
      else st
  | _ => st
  end.

(** The body of [for block in response.content]. *)
Definition process_block (st : state) (tool_results : list tool_result) (b : block)
    (w : world) : result (state * list tool_result) * world :=
  match b with
  | ToolUseBlock id name input =>
      let '(r, w') := dispatch name input w in
      let handled :=
        match r with
        | Ok result_str => Ok result_str
        | Raise exc => _handle_tool_error name input exc
        end in
      match handled with
      | Raise e => (Raise e, w')
      | Ok result_str =>
          (Ok (track_output st name result_str,
               tool_results ++ [ToolResult id result_str]), w')
      end
  | TextBlock _ | OtherBlock => (Ok (st, tool_results), w)
  end.

Fixpoint process_blocks (blocks : list block) (st : state)
    (tool_results : list tool_result) (w : world)
  : result (state * list tool_result) * world :=
  match blocks with
  | [] => (Ok (st, tool_results), w)
  | b :: rest =>
      match process_block st tool_results b w with
      | (Raise e, w') => (Raise e, w')
      | (Ok (st', tool_results'), w') => process_blocks rest st' tool_results' w'
      end
  end.

(** [" ".join(block.text for block in response.content if hasattr(block, "text"))] *)
Definition final_text (blocks : list block) : string :=
  String.concat " "
    (flat_map (fun b => match b with TextBlock t => [t] | _ => [] end) blocks).

(** [for turn in range(_MAX_TURNS): ... else: ...], with [fuel] turns
    left and [turn] the index of the next one. *)
Fixpoint agent_turns (fuel turn : nat) (messages : list message) (st : state) (w : world)
  : result state * world :=
  match fuel with
  | O =>
      (Ok (set_summary st ("[max_turns=" ++ str_of_nat _MAX_TURNS ++ " exceeded]")), w)
  | S fuel' =>
      let st := set_turns st (turn + 1) in
      match messages_create messages w with
      | (Raise e, w1) => (Raise e, w1)
      | (Ok resp, w1) =>
          if resp.(stop_reason) =? "end_turn" then
            (Ok (set_summary st (final_text resp.(content))), w1)
          else if resp.(stop_reason) =? "max_tokens" then
            (Ok (set_summary st "[truncated]"), w1)
          else if negb (resp.(stop_reason) =? "tool_use") then
            (Ok (set_summary st ("[stop: " ++ resp.(stop_reason) ++ "]")), w1)
          else
            match process_blocks resp.(content) st [] w1 with
            | (Raise e, w2) => (Raise e, w2)
            | (Ok (st', tool_results), w2) =>
                agent_turns fuel' (turn + 1)
                  (messages ++ [Assistant resp.(content); UserToolResults tool_results])
                  st' w2
            end
      end
  end.

(** ** Memory *)

(** harness/memory.py, [save_assessment]: the summary joins the first
    five ids, which have to be strings; then the store is asked to add it,
    and a failure of the store is only warned about.  Returns what has
    been stored. *)
Definition save_assessment (org assessment_id : string) (sc : float) (cf : list value)
    (w : world) : result (list event) :=
  if existsb (fun v => negb (is_str v)) (firstn 5 cf) then raise_ TypeError
  else
    Ok (try_except
          (_ <- client_add w org assessment_id sc cf ;;
           Ok [SaveAssessment org assessment_id sc cf])%py
          (fun _ => [])).

(** ** [_run_loop] *)

Definition initial_messages (task org : string) (w0 : world) : list message :=
  let memory_context := if build_client w0 then load_memories w0 org else "" in
  let user_content :=
    if negb (memory_context =? "") then
      (memory_context ++ nl ++ nl ++ "---" ++ nl ++ nl ++ task)%string
    else task in
  [UserText user_content].

(** Up to the end of the [for] loop. *)
Definition loop_phase (task org : string) (w0 : world) : result state * world :=
  agent_turns _MAX_TURNS 0 (initial_messages task org w0) init_state w0.

(** From the critical/fail gate to the [return]. *)
Definition gate_phase (env org : string) (dry_run approve_critical mem_client : bool)
    (st : state) (w : world) : outcome state * list event :=
  match _extract_critical_fails st.(gap_analysis) w with
  | Raise e => (Raised e, [])
  | Ok cf =>
      match _extract_score st.(sscf_report) w with
      | Raise e => (Raised e, [])
      | Ok sc =>
          if negb (is_empty cf) && negb dry_run && negb approve_critical then
            (Exited 2, [])
          else if mem_client then
            match save_assessment org ("sfdc-assess-" ++ org ++ "-" ++ env ++ "-loop") sc cf w with
            | Raise e => (Raised e, [])
            | Ok evs => (Returned (set_gate st sc cf), evs)
            end
          else (Returned (set_gate st sc cf), [])
      end
  end.

Definition _run_loop (task env org : string) (dry_run approve_critical : bool) (w0 : world)
  : outcome state * list event * world :=
  match loop_phase task org w0 with
  | (Raise e, w) => (Raised e, [], w)
  | (Ok st, w) =>
      (gate_phase env org dry_run approve_critical (build_client w0) st w, w)
  end.

(** ** CLI *)

Definition default_task (env org : string) (dry_run : bool) : string :=
  let dry_note :=
    if dry_run
    then " Use dry_run=true for all tool calls (no real Salesforce connection)."
    else "" in
  ("Run a full OSCAL/SSCF security assessment for Salesforce org '" ++ org ++ "' "
  ++ "in environment '" ++ env ++ "'." ++ dry_note ++ nl ++ nl
  ++ "Pipeline:" ++ nl
  ++ "1. Call sfdc_connect_collect (scope='all') to gather org configuration." ++ nl
  ++ "2. Call oscal_assess_assess to produce gap_analysis.json." ++ nl
  ++ "3. Call oscal_gap_map with the gap_analysis output to produce backlog.json." ++ nl
  ++ "4. Call sscf_benchmark_benchmark with the backlog to produce the SSCF scorecard."
  ++ nl ++ nl
  ++ "Return a final summary with: overall_score, overall_status (red/amber/green), "
  ++ "count of critical/fail findings, and the top 3 remediation priorities.")%string.

Definition result_of (env org : string) (dry_run : bool) (st : state) : loop_result :=
  {| lr_org := org;
     lr_env := env;
     lr_dry_run := dry_run;
     lr_turns := st.(turns);
     lr_overall_score := match st.(score) with Some x => x | None => Finite 0 end;
     lr_critical_fails := match st.(critical_fails) with Some l => l | None => [] end;
     lr_gap_analysis := st.(gap_analysis);
     lr_backlog := st.(backlog);
     lr_sscf_report := st.(sscf_report);
     lr_summary := match st.(summary) with Some t => t | None => "" end |}.

(** The command [run]: the events are what the run has persisted when it
    ends, in order.  (The write of loop_result.json, the last statement
    but one, is taken to succeed.) *)
Definition run (env org : string) (dry_run approve_critical : bool) (task : option string)
    (w0 : world) : outcome unit * list event * world :=
  let task := match task with Some t => t | None => default_task env org dry_run end in
  match _run_loop task env org dry_run approve_critical w0 with
  | (Returned st, evs, w) =>
      (Returned tt, evs ++ [WriteLoopResult org (result_of env org dry_run st)], w)
  | (Raised e, evs, w) => (Raised e, evs, w)
  | (Exited c, evs, w) => (Exited c, evs, w)
  end.

End WithEnv.

End Loop.

(* ================================================================== *)
(** * Vocabulary of the properties *)
(* ================================================================== *)

(** A stand-in interpreter for the closed examples below. *)
Definition plain_builtins : Builtins :=
  {| py_repr := fun _ => "<repr>";
     int_of_str := fun _ => None;
     float_of_str := fun _ => None |}.

(* ------------------------------------------------------------------ *)
Section BenchmarkSpec.
Import Benchmark.

(** The number of items whose status is [s]. *)
Definition count_of (s : string) (items : list item) : nat :=
  length (filter (fun it => it.(status) =? s) items).

(** A double, the upper end of the range aside: [m * 2^e] for integers
    [|m| <= 2^53] and [e >= -1074]. *)
Definition double (q : Q) : Prop :=
  exists m e : Z, (Z.abs m <= 2 ^ 53)%Z /\ (-1074 <= e)%Z /\ q == inject_Z m * 2 ^ e.

(** [q] is a double nearest to [x]. *)
Definition nearest_double (x q : Q) : Prop :=
  double q /\ forall q', double q' -> Qabs (q - x) <= Qabs (q' - x).

(** [s] is [x] rounded to four decimal places: a multiple of 1/10000
    nearest to [x]. *)
Definition rounded4 (x s : Q) : Prop :=
  (exists n : Z, s == n # 10000) /\ Qabs (s - x) <= 1 # 20000.

(** The two-threshold rule, as the specification words it. *)
Definition banded (score green_threshold : Q) (band : string) : Prop :=
  (green_threshold <= score -> band = "green") /\
  (~ green_threshold <= score -> 1 # 2 <= score -> band = "amber") /\
  (~ green_threshold <= score -> ~ 1 # 2 <= score -> band = "red").

End BenchmarkSpec.

(* ------------------------------------------------------------------ *)
Section GapMapSpec.
Import GapMap.
Context `{Builtins}.

Inductive bucket : Type := InMapped | InUnmapped | InInvalid.

Definition bucket_eqb (a b : bucket) : bool :=
  match a, b with
  | InMapped, InMapped | InUnmapped, InUnmapped | InInvalid, InInvalid => true
  | _, _ => false
  end.

(** The routing of a finding as the specification words it: a canonical
    id is mapped directly; otherwise the crosswalk decides, its absence
    meaning unmapped; a target missing from the catalog is invalid. *)
Definition route (cfg : config) (finding : dict) : bucket :=
  let id := legacy_id finding in
  if prefix "SBS-" id then
    if ad_mem cfg.(controls_by_id) id then InMapped else InInvalid
  else
    match ad_get cfg.(map_by_legacy) id with
    | Some ((_ :: _) as row) =>
        let target := strip (py_str (ad_get_default row "sbs_control_id" (VStr ""))) in
        if ad_mem cfg.(controls_by_id) target then InMapped else InInvalid
    | _ => InUnmapped
    end.

Definition routed_to (cfg : config) (bk : bucket) (findings : list dict) : list dict :=
  filter (fun f => bucket_eqb (route cfg f) bk) findings.

(** What an entry of each bucket keeps of the finding it was made from. *)
Definition mapped_from (f : dict) (m : mapped_item) : Prop :=
  m.(mi_legacy_control_id) = legacy_id f
  /\ m.(mi_status) = fget f "status" /\ m.(mi_severity) = fget f "severity".

Definition unmapped_from (f : dict) (u : unmapped_item) : Prop :=
  u.(um_legacy_control_id) = legacy_id f
  /\ u.(um_status) = fget f "status" /\ u.(um_severity) = fget f "severity".

Definition invalid_from (f : dict) (e : string) : Prop :=
  exists rest, e = (legacy_id f ++ " -> " ++ rest)%string.

End GapMapSpec.

(* ------------------------------------------------------------------ *)
Section AssessSpec.
Import Assess.
Context `{Builtins}.

(** A catalog entry the loop body can read: an object whose control_id
    is hashable and whose risk_level is a string or empty. *)
Definition control_ok (c : value) : bool :=
  match c with
  | VDict d =>
      hashable (ad_get_default d "control_id" (VStr ""))
      && match ad_get_default d "risk_level" VNone with
         | VStr _ => true
         | v => negb (truthy v)
         end
  | _ => false
  end.

(** [control.get("control_id", "")] *)
Definition cid_of (c : value) : value :=
  match c with VDict d => ad_get_default d "control_id" (VStr "") | _ => VNone end.

Definition severity_of (c : value) : string :=
  match c with
  | VDict d =>
      match py_or (ad_get_default d "risk_level" VNone) (VStr "moderate") with
      | VStr s => lower s
      | _ => ""
      end
  | _ => ""
  end.

(** The ids registered through [_rule_not_collectable]. *)
Definition NOT_COLLECTABLE : list string :=
  [ "SBS-INT-001";
    "SBS-DEP-001"; "SBS-DEP-002"; "SBS-DEP-005"; "SBS-DEP-006";
    "SBS-CODE-001"; "SBS-CODE-002"; "SBS-CODE-003"; "SBS-CODE-004";
    "SBS-CPORTAL-001"; "SBS-CPORTAL-002";
    "SBS-FILE-001"; "SBS-FILE-002"; "SBS-FILE-003";
    "SBS-FDNS-001" ].

(** Those of them that the dry-run table overrides. *)
Definition DRY_RUN_OVERRIDDEN : list string := ["SBS-CODE-003"; "SBS-CODE-004"].

Definition SCOPES : list string :=
  ["auth"; "access"; "integrations"; "event-monitoring"; "oauth"; "secconf";
   "transaction-security"].

(** The scope each registered rule reads; the data-structural and the
    not-collectable rules read none. *)
Definition RULE_SCOPE : adict string :=
  [ ("SBS-AUTH-001", "auth"); ("SBS-AUTH-002", "auth");
    ("SBS-AUTH-003", "auth"); ("SBS-AUTH-004", "auth");
    ("SBS-ACS-001", "access"); ("SBS-ACS-002", "access"); ("SBS-ACS-003", "access");
    ("SBS-ACS-004", "access"); ("SBS-ACS-005", "access"); ("SBS-ACS-006", "access");
    ("SBS-ACS-007", "access"); ("SBS-ACS-008", "access"); ("SBS-ACS-009", "access");
    ("SBS-ACS-010", "access"); ("SBS-ACS-011", "access"); ("SBS-ACS-012", "access");
    ("SBS-INT-002", "integrations"); ("SBS-INT-003", "integrations");
    ("SBS-INT-004", "event-monitoring");
    ("SBS-OAUTH-001", "oauth"); ("SBS-OAUTH-002", "oauth");
    ("SBS-OAUTH-003", "oauth"); ("SBS-OAUTH-004", "oauth");
    ("SBS-DATA-004", "event-monitoring");
    ("SBS-SECCONF-001", "secconf"); ("SBS-SECCONF-002", "secconf");
    ("SBS-DEP-003", "transaction-security") ].

(** The collected data holds nothing for the scope: the input is the
    empty dict, or it binds the scope name to an empty or null value. *)
Definition no_data_for (raw : dict) (scope_name : string) : Prop :=
  raw = [] \/ exists v, ad_get raw scope_name = Some v /\ truthy v = false.

(** The controls whose rule is built by [_rule_data_structural]. *)
Definition DATA_STRUCTURAL : list string := ["SBS-DATA-001"; "SBS-DATA-002"; "SBS-DATA-003"].

(** A SOQL result whose ["records"], when present, can be iterated. *)
Definition records_ok (v : value) : bool :=
  match v with
  | VDict d =>
      match ad_get_default d "records" (VList []) with
      | VList _ | VDict _ | VStr _ => true
      | _ => false
      end
  | _ => true
  end.

(** An integer, a boolean or a finite float: what [int] converts. *)
Definition is_finite_number (v : value) : bool :=
  match v with
  | VInt _ | VBool _ | VFloat (Finite _) => true
  | _ => false
  end.

(** A SOQL result whose ["totalSize"], when present, is a finite number. *)
Definition total_ok (v : value) : bool :=
  match v with
  | VDict d => is_finite_number (ad_get_default d "totalSize" (VInt 0))
  | _ => true
  end.

(** The ["Score"] of the first record, when there is one, is a number. *)
Definition first_score_ok (v : value) : bool :=
  match _records v with
  | Ok (r0 :: _) => is_number (ad_get_default r0 "Score" (VInt 0))
  | _ => true
  end.

(** Every non-empty ["EventType"] is a string. *)
Definition event_types_ok (v : value) : bool :=
  match _records v with
  | Ok l => forallb is_str (event_types l)
  | Raise _ => true
  end.

(** What [_scope] returns is empty or an object with good fields. *)
Definition scope_ok (sd : value) (fields_ok : dict -> bool) : bool :=
  match sd with
  | VDict d => fields_ok d
  | v => negb (truthy v)
  end.

Definition soql (d : dict) (k : string) : value := ad_get_default d k (VDict []).

Definition auth_ok (raw : dict) : bool :=
  scope_ok (_scope raw "auth")
    (fun d => records_ok (soql d "sso_providers") && total_ok (soql d "login_ip_ranges")
              && records_ok (soql d "mfa_org_settings")).

Definition access_ok (raw : dict) : bool :=
  scope_ok (_scope raw "access")
    (fun d => total_ok (soql d "admin_profiles") && records_ok (soql d "admin_profiles")
              && total_ok (soql d "elevated_permission_sets")
              && records_ok (soql d "connected_apps")).

Definition integrations_ok (raw : dict) : bool :=
  scope_ok (_scope raw "integrations")
    (fun d => records_ok (soql d "remote_site_settings")
              && records_ok (soql d "named_credentials")).

Definition event_monitoring_ok (raw : dict) : bool :=
  scope_ok (_scope raw "event-monitoring")
    (fun d => records_ok (soql d "event_log_types")
              && event_types_ok (soql d "event_log_types")
              && total_ok (soql d "field_history_retention")).

Definition oauth_ok (raw : dict) : bool :=
  scope_ok (_scope raw "oauth")
    (fun d => records_ok (soql d "connected_app_oauth_policies")).

Definition secconf_ok (raw : dict) : bool :=
  scope_ok (_scope raw "secconf")
    (fun d => records_ok (soql d "health_check") && first_score_ok (soql d "health_check")).

Definition transaction_security_ok (raw : dict) : bool :=
  scope_ok (_scope raw "transaction-security")
    (fun d => records_ok (soql d "policies")).

(** The collector output the rules are written for. *)
Definition raw_ok (raw : dict) : bool :=
  auth_ok raw && access_ok raw && integrations_ok raw && event_monitoring_ok raw
  && oauth_ok raw && secconf_ok raw && transaction_security_ok raw.

Definition raw_input_ok (raw : option dict) : bool :=
  match raw with Some d => raw_ok d | None => true end.

(** The rule returns, and what it returns is a finding for [cid] whose
    status is one of the four. *)
Definition valid_result (cid : string) (r : result Finding) : Prop :=
  exists f, r = Ok f /\ f.(control_id) = VStr cid /\ In f.(status) VALID_STATUSES.

(** What the serialised finding says about its control and status. *)
Definition reports (control : value) (finding : dict) : Prop :=
  ad_get finding "control_id" = Some (cid_of control)
  /\ exists st, ad_get finding "status" = Some (VStr st) /\ In st VALID_STATUSES.

End AssessSpec.

(* ------------------------------------------------------------------ *)
Section LoopSpec.
Import Loop.
Context `{Builtins} `{Env}.

(** A tracked path is unset or a non-empty string. *)
Definition path_like (v : value) : bool :=
  match v with
  | VNone => true
  | VStr s => negb (s =? "")
  | _ => false
  end.

Definition tracked_ok (st : state) : Prop :=
  path_like st.(gap_analysis) = true
  /\ path_like st.(backlog) = true
  /\ path_like st.(sscf_report) = true.

(** The texts the loop hands to [track_output]: the dispatcher's answer
    names its output file by a string, the error payload names none. *)
Definition names_path (t : text) : Prop :=
  match t with
  | Json (VDict d) =>
      match ad_get_default d "output_file" VNone with
      | VNone | VStr _ => True
      | _ => False
      end
  | _ => True
  end.

(** The file at [p] holds a JSON object whose ["findings"] is the list [fs]. *)
Definition artifact_findings (w : world) (p : string) (fs : list value) : Prop :=
  path_exists w p = true
  /\ exists data, read_text w p = Ok (Json (VDict data))
       /\ ad_get_default data "findings" (VList []) = VList fs.

(** A findings entry as the assessor writes it: an object with a control_id. *)
Definition finding_entry (f : value) : bool :=
  match f with VDict d => ad_mem d "control_id" | _ => false end.

(** An entry with status fail and severity critical. *)
Definition critical_fail_entry (f : value) : bool :=
  match f with
  | VDict d =>
      eq_str (ad_get_default d "status" VNone) "fail"
      && eq_str (ad_get_default d "severity" VNone) "critical"
  | _ => false
  end.

(** An entry the comprehension trips over: not an object, or a
    critical/fail object without a control_id. *)
Definition malformed_entry (f : value) : bool :=
  negb (is_dict f) || (critical_fail_entry f && negb (finding_entry f)).

Definition entry_id (f : value) : value :=
  match f with VDict d => ad_get_default d "control_id" VNone | _ => VNone end.

(** What [save_assessment] leaves in the memory store: the summary, when
    the store accepts it. *)
Definition stored (w : world) (org assessment_id : string) (sc : float) (cf : list value)
  : list event :=
  match client_add w org assessment_id sc cf with
  | Ok _ => [SaveAssessment org assessment_id sc cf]
  | Raise _ => []
  end.

(** The task prompt [run] sends when [--task] is not given. *)
Definition task_of (env org : string) (dry_run : bool) (task : option string) : string :=
  match task with Some t => t | None => default_task env org dry_run end.

(** The ways in which the tracked gap-analysis path fails to give
    findings at the gate. *)
Inductive unreadable_artifact (w : world) : value -> Prop :=
| path_unset (p : value) :
    truthy p = false -> unreadable_artifact w p
| file_missing (s : string) :
    path_exists w s = false -> unreadable_artifact w (VStr s)
| read_fails (s : string) (e : exn) :
    read_text w s = Raise e -> unreadable_artifact w (VStr s)
| not_json (s t : string) :
    read_text w s = Ok (Plain t) -> unreadable_artifact w (VStr s)
| not_an_object (s : string) (v : value) :
    read_text w s = Ok (Json v) -> is_dict v = false -> unreadable_artifact w (VStr s)
| findings_not_iterable (s : string) (d : dict) (e : exn) :
    read_text w s = Ok (Json (VDict d)) ->
    py_iter (ad_get_default d "findings" (VList [])) = Raise e ->
    unreadable_artifact w (VStr s)
| entry_malformed (s : string) (d : dict) (fs : list value) :
    read_text w s = Ok (Json (VDict d)) ->
    py_iter (ad_get_default d "findings" (VList [])) = Ok fs ->
    existsb malformed_entry fs = true ->
    unreadable_artifact w (VStr s).

(** A point of the loop at which the next model turn is awaited. *)
Record config : Type := Config {
  c_fuel : nat;
  c_turn : nat;
  c_messages : list message;
  c_state : state;
  c_world : world
}.

Definition run_from (c : config) : result state * world :=
  agent_turns c.(c_fuel) c.(c_turn) c.(c_messages) c.(c_state) c.(c_world).

Definition start (task org : string) (w0 : world) : config :=
  Config _MAX_TURNS 0 (initial_messages task org w0) init_state w0.

(** One whole tool-use turn: the model asks for tools, every block goes
    through, and the results become the next user message. *)
Inductive turn_step : config -> config -> Prop :=
| tool_turn (fuel turn : nat) (messages : list message) (st st' : state)
    (w w1 w2 : world) (resp : response) (tool_results : list tool_result) :
    messages_create messages w = (Ok resp, w1) ->
    resp.(stop_reason) = "tool_use" ->
    process_blocks resp.(content) (set_turns st (turn + 1)) [] w1
    = (Ok (st', tool_results), w2) ->
    turn_step (Config (S fuel) turn messages st w)
              (Config fuel (turn + 1)
                 (messages ++ [Assistant resp.(content); UserToolResults tool_results])
                 st' w2).

Inductive reaches (c : config) : config -> Prop :=
| reaches_here : reaches c c
| reaches_next (c1 c2 : config) : reaches c c1 -> turn_step c1 c2 -> reaches c c2.

End LoopSpec.

(* ------------------------------------------------------------------ *)
Section LoopWorlds.
Import Loop.

(** A scripted world: the state counts the model calls made so far; the
    model answers from a fixed list, the listed tools fail and the others
    write to a path named after them, the files never change and the
    memory store accepts what it is given. *)
Definition scripted (responses : list response) (files : adict text)
    (failing : list string) : Env :=
  {| world := nat;
     messages_create := fun _ n =>
       (match nth_error responses n with
        | Some r => Ok r
        | None => Raise (Exn OtherError "APIConnectionError")
        end, S n);
     run_cli := fun name _ n =>
       (if existsb (String.eqb name) failing
        then Raise (Exn RuntimeError "Tool 'python' failed (exit 1)")
        else Ok ("generated/" ++ name ++ ".json")%string, n);
     path_exists := fun _ p => ad_mem files p;
     read_text := fun _ p =>
       match ad_get files p with
       | Some t => Ok t
       | None => Raise (Exn OSError "No such file or directory")
       end;
     build_client := fun _ => true;
     load_memories := fun _ org =>
       ("No prior assessments found in memory for org '" ++ org ++ "'.")%string;
     client_add := fun _ _ _ _ _ => Ok tt |}.

Definition assess_then_end : list response :=
  [ Response "tool_use"
      [ToolUseBlock "call_001" "oscal_assess_assess" (VDict [("dry_run", VBool true)])];
    Response "end_turn" [TextBlock "Assessment complete."] ].

Definition sample_findings : list value :=
  [ VDict [("control_id", VStr "SBS-AUTH-001"); ("status", VStr "fail");
           ("severity", VStr "critical")];
    VDict [("control_id", VStr "SBS-ACS-001"); ("status", VStr "fail");
           ("severity", VStr "high")] ].

Definition sample_gap : text :=
  Json (VDict [("assessment_id", VStr "test-001"); ("findings", VList sample_findings)]).

Definition blocked_env : Env :=
  scripted assess_then_end [("generated/oscal_assess_assess.json", sample_gap)] [].

(** The same findings followed by an entry that is not an object. *)
Definition masked_findings : list value := sample_findings ++ [VStr "oops"].

Definition masked_env : Env :=
  scripted assess_then_end
    [("generated/oscal_assess_assess.json",
      Json (VDict [("assessment_id", VStr "test-001"); ("findings", VList masked_findings)]))]
    [].

(** The same run when the artifact has gone by the time of the gate. *)
Definition lost_artifact_env : Env := scripted assess_then_end [] [].

(** [blocked_env] with a memory store that refuses the summary. *)
Definition refusing_store_env : Env :=
  {| world := nat;
     messages_create := @messages_create blocked_env;
     run_cli := @run_cli blocked_env;
     path_exists := @path_exists blocked_env;
     read_text := @read_text blocked_env;
     build_client := @build_client blocked_env;
     load_memories := @load_memories blocked_env;
     client_add := fun _ _ _ _ _ => Raise (Exn OtherError "Connection refused") |}.

(** The same script when the assessor's CLI fails. *)
Definition failing_assess_env : Env :=
  scripted assess_then_end [] ["oscal_assess_assess"].

End LoopWorlds.

(* ------------------------------------------------------------------ *)
(** ** More vocabulary: the scorecard *)

Section BenchmarkReportSpec.
Import Benchmark.


(** The number of times the index knows a framework control id of the item. *)
Definition hits (idx : adict ctrl) (it : item) : nat :=
  length (filter (ad_mem idx) it.(sscf_control_ids)).

(** A score with at most four decimals between 0 and 1. *)
Definition unit_score (q : Q) : Prop :=
  0 <= q /\ q <= 1 /\ exists n : Z, (0 <= n <= 10000)%Z /\ q = Qred (n # 10000).

Fixpoint sum_of {A : Type} (f : A -> nat) (l : list A) : nat :=
  match l with
  | [] => 0
  | a :: r => f a + sum_of f r
  end.

(** The number of items filed under the controls of one domain, and
    under all domains. *)
Definition placed_in (controls : adict (list item)) : nat :=
  sum_of (fun kv => length (snd kv)) controls.

Definition placements (dc : adict (adict (list item))) : nat :=
  sum_of (fun kv => placed_in (snd kv)) dc.

(** The domains the index names. *)
Definition index_domains (idx : adict ctrl) : list string :=
  map (fun kv => (snd kv).(domain)) idx.

End BenchmarkReportSpec.

Section BenchmarkOrderSpec.
Import Benchmark.

(** red < amber < green *)
Definition band_rank (band : string) : nat :=
  if band =? "green" then 2 else if band =? "amber" then 1 else 0.

(** [STATUS_SCORE], in halves: the weight of a scoreable status. *)
Definition status_weight (s : string) : option nat :=
  if s =? "pass" then Some 2%nat
  else if s =? "partial" then Some 1%nat
  else if s =? "fail" then Some 0%nat
  else None.

End BenchmarkOrderSpec.

(* ------------------------------------------------------------------ *)
(** ** More vocabulary: the backlog *)

Section GapMapOutputSpec.
Import GapMap.
Context `{Builtins}.

(** Where a mapped item comes from: its target is a control of the
    catalog, which gives the title and the framework mappings; a canonical
    id is its own target, any other id goes through its crosswalk row. *)
Definition well_mapped (cfg : config) (m : mapped_item) : Prop :=
  exists c,
    ad_get cfg.(controls_by_id) m.(mi_sbs_control_id) = Some c
    /\ m.(mi_sbs_title) = c.(c_title)
    /\ m.(mi_sscf_mappings) = sscf_mappings_for cfg m.(mi_sbs_control_id) c
    /\ if prefix "SBS-" m.(mi_legacy_control_id)
       then m.(mi_sbs_control_id) = m.(mi_legacy_control_id)
            /\ m.(mi_mapping_confidence) = VStr "high"
       else exists row,
            ad_get cfg.(map_by_legacy) m.(mi_legacy_control_id) = Some row
            /\ m.(mi_sbs_control_id)
               = strip (py_str (ad_get_default row "sbs_control_id" (VStr "")))
            /\ m.(mi_mapping_confidence)
               = ad_get_default row "mapping_confidence" (VStr "unrated").

(** [str(row.get("legacy_control_id", "")).strip()] *)
Definition legacy_of (row : dict) : string :=
  strip (py_str (ad_get_default row "legacy_control_id" (VStr ""))).

Definition dict_rows (rows : list value) : list dict :=
  flat_map (fun r => match r with VDict d => [d] | _ => [] end) rows.

(** The status text the summary counts a mapped item under. *)
Definition status_text (m : mapped_item) : string := strip (py_str m.(mi_status)).

(** A mapped item the report has a row for: its SSCF control ids and its
    title are strings. *)
Definition row_ok (m : mapped_item) : bool :=
  forallb is_str m.(mi_sscf_control_ids) && is_str m.(mi_sbs_title).

End GapMapOutputSpec.

(* ------------------------------------------------------------------ *)
(** ** More vocabulary: findings and collections *)

Section AssessOutputSpec.
Import Assess.
Context `{Builtins}.

(** What every finding of a rule looks like: it is keyed by the rule's
    control, status and severity are from the two enumerations, owner and
    due date are the defaults of the dataclass, something was observed, and
    a remediation is given exactly for the statuses fail and partial. *)
Definition schema_ok (cid : string) (f : Finding) : Prop :=
  f.(control_id) = VStr cid
  /\ In f.(status) VALID_STATUSES
  /\ In f.(severity) VALID_SEVERITIES
  /\ f.(owner) = "Business Security Services"
  /\ f.(due_date) = ""
  /\ f.(observed_value) <> ""
  /\ (f.(remediation) = "" <-> f.(status) = "pass" \/ f.(status) = "not_applicable").

(** Whatever the rule returns obeys the schema. *)
Definition sound (cid : string) (r : result Finding) : Prop :=
  match r with
  | Ok f => schema_ok cid f
  | Raise _ => True
  end.

(** The rule sees its input only through [_scope raw s]. *)
Definition reads_only (s : string) (r : rule) : Prop :=
  forall raw1 raw2, _scope raw1 s = _scope raw2 s -> r raw1 = r raw2.

End AssessOutputSpec.

Section CollectSpec.
Import Collect Assess.
Context `{Builtins}.

(** The rule returns a finding with this status. *)
Definition has_status (st : string) (r : result Finding) : Prop :=
  exists f, r = Ok f /\ f.(status) = st.

(** The rule came to a verdict: what it returns is not not_applicable. *)
Definition decided (r : result Finding) : Prop :=
  match r with
  | Ok f => f.(status) <> "not_applicable"
  | Raise _ => True
  end.

End CollectSpec.

Section CollectWorlds.
Import Collect.

(** An org whose every query is refused. *)
Definition refusing_org : Salesforce :=
  {| query_all := fun _ => Raise (Exn OtherError "INVALID_SESSION_ID: Session expired or invalid");
     restful := fun _ _ => Raise (Exn OtherError "INVALID_SESSION_ID: Session expired or invalid") |}.

End CollectWorlds.

(* ------------------------------------------------------------------ *)
(** ** More vocabulary: runs *)

Section LoopRunSpec.
Import Loop.
Context `{Builtins} `{Env}.

(** The ids of the tool_use blocks of a response, in order. *)
Definition tool_use_ids (blocks : list block) : list string :=
  flat_map (fun b => match b with ToolUseBlock id _ _ => [id] | _ => [] end) blocks.

(** One exchange: what the model asked and what it was answered. *)
Definition exchange : Type := (list block * list tool_result)%type.

Definition answered (ex : exchange) : Prop :=
  map tool_use_id (snd ex) = tool_use_ids (fst ex).

(** A conversation of [n] exchanges after the prompt. *)
Definition conversation (ms : list message) (n : nat) : Prop :=
  exists prompt exchanges,
    ms = UserText prompt
         :: flat_map (fun ex : exchange => [Assistant (fst ex); UserToolResults (snd ex)])
              exchanges
    /\ length exchanges = n
    /\ Forall answered exchanges.

(** The texts of the text blocks of a response, in order. *)
Definition block_texts (blocks : list block) : list string :=
  flat_map (fun b => match b with TextBlock t => [t] | _ => [] end) blocks.

(** The summary a response that ends the loop leaves: the texts of its
    text blocks joined by a space for end_turn, [truncated] for
    max_tokens, [stop: reason] for any other reason. *)
Definition closing_summary (resp : response) : string :=
  if resp.(stop_reason) =? "end_turn" then String.concat " " (block_texts resp.(content))
  else if resp.(stop_reason) =? "max_tokens" then "[truncated]"
  else "[stop: " ++ resp.(stop_reason) ++ "]".

(** [assessment_id] as [_run_loop] builds it. *)
Definition loop_assessment_id (env org : string) : string :=
  "sfdc-assess-" ++ org ++ "-" ++ env ++ "-loop".

End LoopRunSpec.

Section LoopRunWorlds.
Import Loop.

(** The model's answer is cut off while it asks for a tool. *)
Definition truncated_env : Env :=
  scripted [Response "max_tokens"
              [ToolUseBlock "call_001" "oscal_assess_assess" (VDict [])]] [] [].

(** The model asks for tools without end. *)
Definition tool_hungry_env : Env :=
  scripted (repeat (Response "tool_use" []) 25) [] [].

(** The model closes with two texts around a stray tool request. *)
Definition closing_env : Env :=
  scripted [Response "end_turn"
              [TextBlock "Overall score 51%.";
               ToolUseBlock "call_001" "oscal_assess_assess" (VDict []);
               TextBlock "Two findings need review."]] [] [].

End LoopRunWorlds.

Section PipelineWorlds.
Import Assess Loop.

(** The catalog entry of a control with a failing dry-run stub. *)
Definition sso_control : value :=
  VDict [("control_id", VStr "SBS-AUTH-001"); ("risk_level", VStr "Critical")].

(** The findings of a dry-run assessment of that catalog. *)
Definition dry_run_findings : list dict :=
  match @run_assessment plain_builtins None [sso_control] true "dry-run" "dev" "2026-03-01" with
  | Ok findings => findings
  | Raise _ => []
  end.

(** A world in which the gap analysis of that assessment is on disk. *)
Definition assessed_env : Env :=
  scripted assess_then_end
    [("generated/oscal_assess_assess.json",
      Json (VDict [("assessment_id", VStr "sfdc-assess-dry-run-dev-20260301");
                   ("org", VStr "dry-run"); ("env", VStr "dev");
                   ("findings", VList (map VDict dry_run_findings))]))] [].

End PipelineWorlds.

(* ================================================================== *)
(** * Properties *)
(* ================================================================== *)

(* ------------------------------------------------------------------ *)
(** ** The domain scorer *)

Section BenchmarkFacts.
Import Benchmark.

(** *** Dictionary lemmas *)

Lemma ad_get_set_same {V : Type} (d : adict V) (k : string) (v : V) :
  ad_get (ad_set d k v) k = Some v.
Proof.
  induction d as [|[k' v'] r IH]; simpl.
  - now rewrite String.eqb_refl.
  - destruct (k' =? k) eqn:E; simpl; rewrite E; auto.
Qed.

Lemma ad_get_set_other {V : Type} (d : adict V) (k k' : string) (v : V) :
  k <> k' -> ad_get (ad_set d k v) k' = ad_get d k'.
Proof.
  intros Hne. induction d as [|[k0 v0] r IH]; simpl.
  - destruct (String.eqb_spec k k'); [contradiction | reflexivity].
  - destruct (String.eqb_spec k0 k) as [->|Hk]; simpl.
    + destruct (String.eqb_spec k k'); [contradiction | reflexivity].
    + destruct (k0 =? k'); auto.
Qed.

(** *** Counting *)

Lemma cnt_count_step (c : adict nat) (it : item) (k : string) :
  ad_mem c k = true ->
  ad_mem (count_step c it) k = true /\
  cnt (count_step c it) k
  = (cnt c k + if (it.(status) =? k)%string then 1 else 0)%nat.
Proof.
  unfold ad_mem, cnt, ad_get_default, count_step. intros Hk.
  destruct (ad_get c k) as [n|] eqn:Ek; [clear Hk | discriminate].
  destruct (String.eqb_spec (status it) k) as [->|Hne].
  - rewrite Ek, ad_get_set_same. split; [reflexivity | lia].
  - destruct (ad_get c (status it)) as [m|] eqn:Es.
    + rewrite ad_get_set_other, Ek by assumption. split; [reflexivity | lia].
    + rewrite Ek. split; [reflexivity | lia].
Qed.

Lemma cnt_fold_count_step (items : list item) (c : adict nat) (k : string) :
  ad_mem c k = true ->
  cnt (fold_left count_step items c) k = (cnt c k + count_of k items)%nat.
Proof.
  revert c. induction items as [|it items IH]; intros c Hk; simpl.
  - unfold count_of; simpl; lia.
  - destruct (cnt_count_step c it k Hk) as [Hm Hc].
    rewrite (IH _ Hm), Hc. unfold count_of; simpl.
    destruct (status it =? k); simpl; lia.
Qed.

(** *** Rounding to an integer *)

Ltac compare_facts :=
  repeat match goal with
         | H : (_ ?= _)%Q = Eq |- _ => apply Qeq_alt in H
         | H : (_ ?= _)%Q = Lt |- _ => apply Qlt_alt in H
         | H : (_ ?= _)%Q = Gt |- _ => apply Qgt_alt in H
         end.

Lemma round_half_even_comp (x y : Q) : x == y -> round_half_even x = round_half_even y.
Proof.
  intros E. unfold round_half_even.
  rewrite (Qfloor_comp _ _ E).
  assert (Hc : (x - inject_Z (Qfloor y) ?= 1 # 2)%Q = (y - inject_Z (Qfloor y) ?= 1 # 2)%Q)
    by (rewrite E; reflexivity).
  now rewrite Hc.
Qed.

Lemma floor_bounds (y : Q) : inject_Z (Qfloor y) <= y /\ y < inject_Z (Qfloor y) + 1.
Proof.
  split; [apply Qfloor_le|].
  pose proof (Qlt_floor y) as H. rewrite inject_Z_plus in H. exact H.
Qed.

Lemma round_half_even_cases (y : Q) :
  let n := round_half_even y in
  (n = Qfloor y /\ y - inject_Z (Qfloor y) <= 1 # 2)
  \/ (n = (Qfloor y + 1)%Z /\ 1 # 2 <= y - inject_Z (Qfloor y)).
Proof.
  unfold round_half_even.
  destruct (y - inject_Z (Qfloor y) ?= 1 # 2)%Q eqn:C; compare_facts.
  - destruct (Z.even (Qfloor y)); [left | right]; split; try reflexivity; lra.
  - left. split; [reflexivity | lra].
  - right. split; [reflexivity | lra].
Qed.

Lemma round_half_even_near (y : Q) : Qabs (inject_Z (round_half_even y) - y) <= 1 # 2.
Proof.
  destruct (floor_bounds y) as [Hl Hu].
  apply Qabs_Qle_condition.
  destruct (round_half_even_cases y) as [[-> H] | [-> H]];
    rewrite ?inject_Z_plus; change (inject_Z 1) with 1; split; lra.
Qed.

Lemma round_half_even_nearest (y : Q) (k : Z) :
  Qabs (inject_Z (round_half_even y) - y) <= Qabs (inject_Z k - y).
Proof.
  destruct (floor_bounds y) as [Hl Hu].
  set (f := Qfloor y) in *.
  assert (Hk : (k <= f)%Z \/ (f + 1 <= k)%Z) by lia.
  assert (Hk' : inject_Z k <= inject_Z f \/ inject_Z f + 1 <= inject_Z k).
  { destruct Hk as [Hk|Hk]; [left | right].
    - now rewrite <- Zle_Qle.
    - change 1 with (inject_Z 1). rewrite <- inject_Z_plus, <- Zle_Qle. exact Hk. }
  clear Hk.
  destruct (round_half_even_cases y) as [[-> H] | [-> H]]; fold f in H |- *;
    rewrite ?inject_Z_plus; change (inject_Z 1) with 1;
    apply Qabs_case; intros Ha; apply Qabs_case; intros Hb; lra.
Qed.

Lemma round_half_even_mono (x y : Q) :
  x <= y -> (round_half_even x <= round_half_even y)%Z.
Proof.
  intros Hle. pose proof (Qfloor_resp_le x y Hle) as Hf. unfold round_half_even.
  destruct (Z.eq_dec (Qfloor x) (Qfloor y)) as [E|N].
  - rewrite <- E.
    destruct (x - inject_Z (Qfloor x) ?= 1 # 2)%Q eqn:Cx;
      destruct (y - inject_Z (Qfloor x) ?= 1 # 2)%Q eqn:Cy;
      try (destruct (Z.even (Qfloor x))); try lia; exfalso; compare_facts; lra.
  - assert (Hlt : (Qfloor x + 1 <= Qfloor y)%Z) by lia.
    destruct (x - inject_Z (Qfloor x) ?= 1 # 2)%Q;
      destruct (y - inject_Z (Qfloor y) ?= 1 # 2)%Q;
      try (destruct (Z.even (Qfloor x))); try (destruct (Z.even (Qfloor y))); lia.
Qed.

Lemma round_half_even_Z (k : Z) : round_half_even (inject_Z k) = k.
Proof.
  unfold round_half_even. rewrite Qfloor_Z.
  assert (Hc : (inject_Z k - inject_Z k ?= 1 # 2)%Q = Lt).
  { apply Qlt_alt.
    assert (H0 : inject_Z k - inject_Z k == 0) by ring.
    rewrite H0. reflexivity. }
  now rewrite Hc.
Qed.

Lemma round_nonneg (y : Q) : 0 <= y -> (0 <= round_half_even y)%Z.
Proof.
  intros Hy. rewrite <- (round_half_even_Z 0). apply round_half_even_mono. exact Hy.
Qed.

(** *** Powers of two *)

Lemma pow2_pos (e : Z) : 0 < 2 ^ e.
Proof. apply Qpower_0_lt. reflexivity. Qed.

Lemma pow2_succ (e : Z) : 2 ^ (e + 1) == 2 * 2 ^ e.
Proof. rewrite Qpower_plus by discriminate. change (2 ^ 1) with 2. ring. Qed.

Lemma pow2_le (a b : Z) : (a <= b)%Z -> 2 ^ a <= 2 ^ b.
Proof. intros H. apply Qpower_le_compat_l; [exact H | discriminate]. Qed.

Lemma inject_pow2 (n : Z) : (0 <= n)%Z -> inject_Z (2 ^ n) == 2 ^ n.
Proof. intros H. rewrite Zpower_Qpower by exact H. reflexivity. Qed.

Lemma Qabs_frac (x : Q) : Qabs x == inject_Z (Z.abs (Qnum x)) / inject_Z (Zpos (Qden x)).
Proof.
  destruct x as [n d]. unfold Qabs. cbn [Qnum Qden].
  rewrite (Qmake_Qdiv (Z.abs n) d). reflexivity.
Qed.

Lemma Qlog2_spec (x : Q) :
  ~ x == 0 -> 2 ^ Qlog2 x <= Qabs x /\ Qabs x < 2 ^ (Qlog2 x + 1).
Proof.
  intros Hx. unfold Qlog2.
  set (n := Z.abs (Qnum x)). set (d := Zpos (Qden x)).
  assert (Hn : (0 < n)%Z).
  { unfold n. destruct x as [[|p|p] q]; try reflexivity. exfalso. apply Hx. reflexivity. }
  assert (Hd : (0 < d)%Z) by reflexivity.
  destruct (Z.log2_spec n Hn) as [Hn1 Hn2].
  destruct (Z.log2_spec d Hd) as [Hd1 Hd2].
  set (a := Z.log2 n) in *. set (b := Z.log2 d) in *.
  assert (Ha : (0 <= a)%Z) by apply Z.log2_nonneg.
  assert (Hb : (0 <= b)%Z) by apply Z.log2_nonneg.
  assert (Qn1 : 2 ^ a <= inject_Z n)
    by (rewrite <- (inject_pow2 a) by lia; now rewrite <- Zle_Qle).
  assert (Qn2 : inject_Z n < 2 ^ (a + 1))
    by (rewrite <- (inject_pow2 (a + 1)) by lia; now rewrite <- Zlt_Qlt).
  assert (Qd1 : 2 ^ b <= inject_Z d)
    by (rewrite <- (inject_pow2 b) by lia; now rewrite <- Zle_Qle).
  assert (Qd2 : inject_Z d < 2 ^ (b + 1))
    by (rewrite <- (inject_pow2 (b + 1)) by lia; now rewrite <- Zlt_Qlt).
  assert (Qd : 0 < inject_Z d) by (change 0 with (inject_Z 0); now rewrite <- Zlt_Qlt).
  assert (Habs : Qabs x == inject_Z n / inject_Z d) by apply Qabs_frac.
  pose proof (pow2_pos b) as Pb. pose proof (pow2_pos a) as Pa.
  pose proof (pow2_pos (a - b)) as Pl.
  assert (El : 2 ^ a == 2 ^ (a - b) * 2 ^ b).
  { rewrite <- Qpower_plus by discriminate. replace (a - b + b)%Z with a by lia. reflexivity. }
  assert (Lo : 2 ^ (a - b - 1) < Qabs x).
  { rewrite Habs. apply Qlt_shift_div_l; [exact Qd|].
    assert (E : 2 ^ (a - b) == 2 * 2 ^ (a - b - 1)).
    { rewrite <- pow2_succ. replace (a - b - 1 + 1)%Z with (a - b)%Z by lia. reflexivity. }
    rewrite pow2_succ in Qd2.
    pose proof (pow2_pos (a - b - 1)) as P1.
    apply Qlt_le_trans with (2 ^ (a - b - 1) * (2 * 2 ^ b)).
    - apply Qmult_lt_l; assumption.
    - assert (E' : 2 ^ (a - b - 1) * (2 * 2 ^ b) == 2 ^ a) by (rewrite El, E; ring).
      rewrite E'. exact Qn1. }
  assert (Hi : Qabs x < 2 ^ (a - b + 1)).
  { rewrite Habs. apply Qlt_shift_div_r; [exact Qd|].
    apply Qlt_le_trans with (2 ^ (a + 1)); [exact Qn2|].
    rewrite !pow2_succ, El.
    assert (E : 2 * 2 ^ (a - b) * inject_Z d == 2 * (2 ^ (a - b) * inject_Z d)) by ring.
    rewrite E.
    assert (2 ^ (a - b) * 2 ^ b <= 2 ^ (a - b) * inject_Z d).
    { apply Qmult_le_l; assumption. }
    lra. }
  destruct (Qle_bool (2 ^ (a - b)) (Qabs x)) eqn:C.
  - apply Qle_bool_iff in C. split; assumption.
  - assert (N : ~ 2 ^ (a - b) <= Qabs x) by (intros H; apply Qle_bool_iff in H; congruence).
    apply Qnot_le_lt in N. split; [apply Qlt_le_weak; exact Lo|].
    replace (a - b - 1 + 1)%Z with (a - b)%Z by lia. exact N.
Qed.

Lemma Qlog2_mono (x y : Q) : 0 < x -> x <= y -> (Qlog2 x <= Qlog2 y)%Z.
Proof.
  intros Hx Hle.
  assert (Nx : ~ x == 0) by lra. assert (Ny : ~ y == 0) by lra.
  destruct (Qlog2_spec x Nx) as [X1 X2]. destruct (Qlog2_spec y Ny) as [Y1 Y2].
  rewrite Qabs_pos in X1, X2 by lra. rewrite Qabs_pos in Y1, Y2 by lra.
  destruct (Z_le_gt_dec (Qlog2 x) (Qlog2 y)) as [L|G]; [exact L|exfalso].
  pose proof (pow2_le (Qlog2 y + 1) (Qlog2 x) ltac:(lia)). lra.
Qed.

(** *** Rounding to a double *)

Lemma to_double_unfold (x : Q) :
  ~ x == 0 -> to_double x = inject_Z (round_half_even (x / 2 ^ bexp x)) * 2 ^ bexp x.
Proof.
  intros Hx. unfold to_double.
  destruct (Qeq_bool x 0) eqn:E; [|reflexivity].
  apply Qeq_bool_iff in E. contradiction.
Qed.

Lemma to_double_zero (x : Q) : x == 0 -> to_double x = 0.
Proof. intros E. unfold to_double. apply Qeq_bool_iff in E. now rewrite E. Qed.

Lemma scaled_back (x : Q) (e : Z) : x / 2 ^ e * 2 ^ e == x.
Proof. pose proof (pow2_pos e). field. lra. Qed.

Lemma scaled_lt (x : Q) : 0 < x -> x / 2 ^ bexp x < 2 ^ 53.
Proof.
  intros Hx. assert (Nx : ~ x == 0) by lra.
  destruct (Qlog2_spec x Nx) as [_ S2]. rewrite Qabs_pos in S2 by lra.
  pose proof (pow2_pos (bexp x)) as Pe.
  apply Qlt_shift_div_r; [exact Pe|].
  rewrite <- Qpower_plus by discriminate.
  apply Qlt_le_trans with (2 ^ (Qlog2 x + 1)); [exact S2|].
  apply pow2_le. unfold bexp. lia.
Qed.

Lemma scaled_ge (x : Q) : 0 < x -> (-1074 < bexp x)%Z -> 2 ^ 52 <= x / 2 ^ bexp x.
Proof.
  intros Hx He. assert (Nx : ~ x == 0) by lra.
  destruct (Qlog2_spec x Nx) as [S1 _]. rewrite Qabs_pos in S1 by lra.
  pose proof (pow2_pos (bexp x)) as Pe.
  apply Qle_shift_div_l; [exact Pe|].
  rewrite <- Qpower_plus by discriminate.
  assert (E : (52 + bexp x = Qlog2 x)%Z) by (unfold bexp in *; lia).
  rewrite E. exact S1.
Qed.

Lemma to_double_nonneg (x : Q) : 0 <= x -> 0 <= to_double x.
Proof.
  intros Hx. destruct (Qeq_dec x 0) as [E|N].
  - rewrite (to_double_zero x E). lra.
  - rewrite (to_double_unfold x N). pose proof (pow2_pos (bexp x)) as Pe.
    apply Qmult_le_0_compat; [|lra].
    change 0 with (inject_Z 0). rewrite <- Zle_Qle. apply round_nonneg.
    apply Qle_shift_div_l; [exact Pe | lra].
Qed.

Lemma to_double_mono (x y : Q) : 0 <= x -> x <= y -> to_double x <= to_double y.
Proof.
  intros Hx Hle. destruct (Qeq_dec x 0) as [E|N].
  - rewrite (to_double_zero x E). apply to_double_nonneg. lra.
  - assert (Px : 0 < x) by lra. assert (Py : 0 < y) by lra.
    assert (Ny : ~ y == 0) by lra.
    rewrite (to_double_unfold x N), (to_double_unfold y Ny).
    pose proof (pow2_pos (bexp x)) as Pex. pose proof (pow2_pos (bexp y)) as Pey.
    pose proof (Qlog2_mono x y Px Hle) as Hl.
    assert (He : (bexp x <= bexp y)%Z) by (unfold bexp; lia).
    destruct (Z.eq_dec (bexp x) (bexp y)) as [Ee|Ne].
    + rewrite <- Ee. apply Qmult_le_compat_r; [|lra].
      rewrite <- Zle_Qle. apply round_half_even_mono.
      apply Qmult_le_compat_r; [exact Hle|]. apply Qlt_le_weak, Qinv_lt_0_compat, Pex.
    + assert (Hlt : (bexp x + 1 <= bexp y)%Z) by lia.
      assert (Mx : inject_Z (round_half_even (x / 2 ^ bexp x)) <= 2 ^ 53).
      { rewrite <- (inject_pow2 53) by lia. rewrite <- Zle_Qle.
        rewrite <- (round_half_even_Z (2 ^ 53)).
        apply round_half_even_mono. rewrite (inject_pow2 53) by lia.
        apply Qlt_le_weak, scaled_lt, Px. }
      assert (My : 2 ^ 52 <= inject_Z (round_half_even (y / 2 ^ bexp y))).
      { rewrite <- (inject_pow2 52) by lia. rewrite <- Zle_Qle.
        rewrite <- (round_half_even_Z (2 ^ 52)) at 1.
        apply round_half_even_mono. rewrite (inject_pow2 52) by lia.
        apply scaled_ge; [exact Py|]. unfold bexp in *. lia. }
      apply Qle_trans with (2 ^ 53 * 2 ^ bexp x).
      { apply Qmult_le_compat_r; [exact Mx | lra]. }
      apply Qle_trans with (2 ^ 52 * 2 ^ bexp y).
      * rewrite <- !Qpower_plus by discriminate. apply pow2_le. lia.
      * apply Qmult_le_compat_r; [exact My | lra].
Qed.

Lemma to_double_one : to_double 1 == 1.
Proof. vm_compute. reflexivity. Qed.

Lemma to_double_unit (x : Q) : 0 <= x -> x <= 1 -> 0 <= to_double x /\ to_double x <= 1.
Proof.
  intros H0 H1. split; [now apply to_double_nonneg|].
  rewrite <- to_double_one. now apply to_double_mono.
Qed.

Lemma abs_scale (a b p c : Q) :
  0 < p -> Qabs (a - b / p) <= c -> Qabs (a * p - b) <= c * p.
Proof.
  intros Hp H.
  assert (E : a * p - b == (a - b / p) * p) by (field; lra).
  rewrite E, Qabs_Qmult, (Qabs_pos p) by lra.
  apply Qmult_le_compat_r; [exact H | lra].
Qed.

Lemma abs_scale_le (a b k p : Q) :
  0 < p -> Qabs (a - b / p) <= Qabs (k - b / p) -> Qabs (a * p - b) <= Qabs (k * p - b).
Proof.
  intros Hp H.
  assert (E1 : a * p - b == (a - b / p) * p) by (field; lra).
  assert (E2 : k * p - b == (k - b / p) * p) by (field; lra).
  rewrite E1, E2, !Qabs_Qmult, (Qabs_pos p) by lra.
  apply Qmult_le_compat_r; [exact H | lra].
Qed.

Lemma to_double_near (x : Q) :
  ~ x == 0 -> Qabs (to_double x - x) <= (1 # 2) * 2 ^ bexp x.
Proof.
  intros N. rewrite (to_double_unfold x N).
  apply abs_scale; [apply pow2_pos | apply round_half_even_near].
Qed.

Lemma to_double_near_unit (x : Q) :
  0 <= x -> x <= 1 -> Qabs (to_double x - x) <= 2 ^ (-53).
Proof.
  intros H0 H1. destruct (Qeq_dec x 0) as [E|N].
  - rewrite (to_double_zero x E).
    assert (E' : 0 - x == 0) by lra. rewrite E'. cbn [Qabs Z.abs]. apply Qlt_le_weak, pow2_pos.
  - pose proof (to_double_near x N) as Hn.
    destruct (Qlog2_spec x N) as [S1 _]. rewrite Qabs_pos in S1 by lra.
    assert (Hl : (Qlog2 x <= 0)%Z).
    { destruct (Z_le_gt_dec (Qlog2 x) 0) as [L|G]; [exact L|exfalso].
      pose proof (pow2_le 1 (Qlog2 x) ltac:(lia)) as P. change (2 ^ 1) with 2 in P. lra. }
    assert (He : 2 ^ bexp x <= 2 ^ (-52)) by (apply pow2_le; unfold bexp; lia).
    assert (E53 : 2 ^ (-53) == (1 # 2) * 2 ^ (-52)) by reflexivity.
    rewrite E53. lra.
Qed.

Lemma to_double_is_double (x : Q) : 0 <= x -> double (to_double x).
Proof.
  intros Hx. destruct (Qeq_dec x 0) as [E|N].
  - rewrite (to_double_zero x E). exists 0%Z, 0%Z.
    split; [cbn; lia|]. split; [lia | reflexivity].
  - assert (Px : 0 < x) by lra.
    exists (round_half_even (x / 2 ^ bexp x)), (bexp x).
    split; [|split].
    + pose proof (pow2_pos (bexp x)) as Pe.
      assert (H0 : (0 <= round_half_even (x / 2 ^ bexp x))%Z).
      { apply round_nonneg. apply Qle_shift_div_l; [exact Pe | lra]. }
      rewrite Z.abs_eq by exact H0.
      rewrite <- (round_half_even_Z (2 ^ 53)).
      apply round_half_even_mono. rewrite (inject_pow2 53) by lia.
      apply Qlt_le_weak, scaled_lt, Px.
    + unfold bexp. lia.
    + rewrite (to_double_unfold x N). reflexivity.
Qed.

Lemma to_double_nearest (x : Q) : 0 <= x -> nearest_double x (to_double x).
Proof.
  intros Hx. split; [apply to_double_is_double, Hx|].
  intros q' (m' & e' & Hm' & He' & Eq').
  destruct (Qeq_dec x 0) as [E|N].
  - rewrite (to_double_zero x E).
    assert (E0 : 0 - x == 0) by lra. rewrite E0. apply Qabs_nonneg.
  - assert (Px : 0 < x) by lra.
    rewrite (to_double_unfold x N). set (e := bexp x).
    pose proof (pow2_pos e) as Pe.
    destruct (Z_le_gt_dec e e') as [L|G].
    + (* q' is a multiple of 2^e *)
      assert (Ek : q' == inject_Z (m' * 2 ^ (e' - e)) * 2 ^ e).
      { rewrite Eq', inject_Z_mult, (inject_pow2 (e' - e)) by lia.
        assert (E2 : 2 ^ e' == 2 ^ (e' - e) * 2 ^ e).
        { rewrite <- Qpower_plus by discriminate.
          replace (e' - e + e)%Z with e' by lia. reflexivity. }
        rewrite E2. ring. }
      rewrite Ek. apply abs_scale_le; [exact Pe|]. apply round_half_even_nearest.
    + (* q' lies below the binade of x, whose lower end is a double *)
      assert (He : (-1074 < e)%Z) by lia.
      pose proof (scaled_ge x Px He) as Hs. fold e in Hs.
      assert (H52 : Qabs (inject_Z (round_half_even (x / 2 ^ e)) * 2 ^ e - x)
                    <= Qabs (inject_Z (2 ^ 52) * 2 ^ e - x)).
      { apply abs_scale_le; [exact Pe|]. apply round_half_even_nearest. }
      apply Qle_trans with (1 := H52).
      rewrite (inject_pow2 52) by lia.
      assert (Hx52 : 2 ^ 52 * 2 ^ e <= x).
      { pose proof (scaled_back x e) as Hb.
        apply (Qmult_le_compat_r _ _ (2 ^ e)) in Hs; [|lra]. lra. }
      assert (Hq' : Qabs q' <= 2 ^ 52 * 2 ^ e).
      { rewrite Eq', Qabs_Qmult, (Qabs_pos (2 ^ e')) by (apply Qlt_le_weak, pow2_pos).
        apply Qle_trans with (2 ^ 53 * 2 ^ e').
        - apply Qmult_le_compat_r; [|apply Qlt_le_weak, pow2_pos].
          rewrite <- (inject_pow2 53) by lia.
          assert (Ea : Qabs (inject_Z m') == inject_Z (Z.abs m')).
          { unfold Qabs, inject_Z. reflexivity. }
          rewrite Ea, <- Zle_Qle. exact Hm'.
        - rewrite <- !Qpower_plus by discriminate. apply pow2_le. lia. }
      pose proof (Qle_Qabs q') as Hqa.
      apply Qabs_case; intros Ha; apply Qabs_case; intros Hb; lra.
Qed.

(** *** Rounding to four decimals *)

Lemma py_round4_comp (x y : Q) : x == y -> py_round4 x = py_round4 y.
Proof.
  intros E. unfold py_round4.
  rewrite (round_half_even_comp (x * 10000) (y * 10000)); [reflexivity|].
  rewrite E. reflexivity.
Qed.

Lemma py_round4_grid (n : Z) : py_round4 (n # 10000) = Qred (n # 10000).
Proof.
  unfold py_round4.
  assert (Hy : (n # 10000) * 10000 == inject_Z n).
  { unfold Qeq, inject_Z, Qmult; simpl. lia. }
  rewrite (round_half_even_comp _ _ Hy), round_half_even_Z. reflexivity.
Qed.

Lemma py_round4_idem (x : Q) : py_round4 (py_round4 x) = py_round4 x.
Proof.
  unfold py_round4 at 2 3.
  set (n := round_half_even (x * 10000)).
  rewrite (py_round4_comp (Qred (n # 10000)) (n # 10000)) by apply Qred_correct.
  apply py_round4_grid.
Qed.

Lemma py_round4_rounded (x : Q) : rounded4 x (py_round4 x).
Proof.
  unfold rounded4, py_round4. set (n := round_half_even (x * 10000)).
  split; [exists n; apply Qred_correct|].
  rewrite Qred_correct.
  pose proof (round_half_even_near (x * 10000)) as Hn. fold n in Hn.
  assert (E : (n # 10000) - x == (inject_Z n - x * 10000) * (1 # 10000)).
  { rewrite (Qmake_Qdiv n 10000). field. }
  rewrite E, Qabs_Qmult. change (Qabs (1 # 10000)) with (1 # 10000).
  assert (H2 : (1 # 20000) == (1 # 2) * (1 # 10000)) by reflexivity.
  rewrite H2. apply Qmult_le_compat_r; [exact Hn | discriminate].
Qed.

(** A multiple of 1/10000 nearest to a value [y] within 2^-53 of a
    fraction [A / 2d] is nearest to the fraction too, as long as [d] is
    small: the fraction is then farther from every midpoint than [y] is
    from the fraction. *)
Lemma rounded4_transfer (A d : Z) (y s : Q) :
  (0 < d)%Z -> (20000 * d < 2 ^ 53)%Z ->
  Qabs (y - inject_Z A / (2 * inject_Z d)) <= 2 ^ (-53) ->
  rounded4 y s -> rounded4 (inject_Z A / (2 * inject_Z d)) s.
Proof.
  intros Hd Hsmall Hy [[n Hn] Hs].
  split; [exists n; exact Hn|].
  set (x := inject_Z A / (2 * inject_Z d)) in *.
  set (c := 2 ^ (-53)) in *.
  assert (Ec : c == 1 # 9007199254740992) by reflexivity.
  assert (Qd : 0 < inject_Z d) by (change 0 with (inject_Z 0); now rewrite <- Zlt_Qlt).
  set (D := 20000 * inject_Z d).
  assert (HD : 0 < D) by (unfold D; lra).
  assert (HD' : D < 9007199254740992).
  { unfold D. change 20000 with (inject_Z 20000). rewrite <- inject_Z_mult.
    change 9007199254740992 with (inject_Z (2 ^ 53)). now rewrite <- Zlt_Qlt. }
  assert (Hsy : s - x <= (1 # 20000) + c /\ x - s <= (1 # 20000) + c).
  { apply Qabs_Qle_condition in Hs, Hy. lra. }
  (* twice the distance of x from the midpoints next to s, in units of 1/D *)
  assert (Eup : (s - x - (1 # 20000)) * D
                == inject_Z ((2 * n - 1) * d - 10000 * A)).
  { unfold D, x. rewrite Hn, (Qmake_Qdiv n 10000).
    unfold Z.sub.
    repeat (rewrite inject_Z_plus || rewrite inject_Z_mult || rewrite inject_Z_opp).
    change (inject_Z 2) with 2. change (inject_Z 1) with 1.
    change (inject_Z 10000) with 10000.
    field. lra. }
  assert (Edn : (x - s - (1 # 20000)) * D
                == inject_Z (10000 * A - (2 * n + 1) * d)).
  { unfold D, x. rewrite Hn, (Qmake_Qdiv n 10000).
    unfold Z.sub.
    repeat (rewrite inject_Z_plus || rewrite inject_Z_mult || rewrite inject_Z_opp).
    change (inject_Z 2) with 2. change (inject_Z 1) with 1.
    change (inject_Z 10000) with 10000.
    field. lra. }
  assert (Hint : forall (t : Q) (K : Z), t * D == inject_Z K -> t <= c -> t <= 0).
  { intros t K EK Ht.
    destruct (Qlt_le_dec 0 t) as [Pt|]; [exfalso | assumption].
    assert (L1 : 0 < t * D) by (apply Qmult_lt_0_compat; assumption).
    assert (L2 : t * D <= c * D) by (apply Qmult_le_compat_r; lra).
    assert (L3 : c * D < 1) by (rewrite Ec; lra).
    rewrite EK in L1, L2.
    assert (K0 : (0 < K)%Z) by (rewrite Zlt_Qlt; exact L1).
    assert (K1 : (K < 1)%Z) by (rewrite Zlt_Qlt; change (inject_Z 1) with 1; lra).
    lia. }
  pose proof (Hint _ _ Eup ltac:(lra)) as U.
  pose proof (Hint _ _ Edn ltac:(lra)) as V.
  apply Qabs_Qle_condition. lra.
Qed.

(** *** The scoring function in closed form *)

Lemma score_findings_counts (items : list item) :
  let P := count_of "pass" items in
  let R := count_of "partial" items in
  let F := count_of "fail" items in
  _score_findings items
  = (P, R, F, count_of "not_applicable" items,
     py_round4 (if (P + R + F =? 0)%nat then 1
                else float_div (Qnat P * 1 + Qnat R * (1 # 2)) (Qnat (P + R + F)))).
Proof.
  unfold _score_findings.
  rewrite !cnt_fold_count_step by reflexivity.
  reflexivity.
Qed.

Lemma Qnat_nonneg (n : nat) : 0 <= Qnat n.
Proof. unfold Qnat. change 0 with (inject_Z 0). rewrite <- Zle_Qle. lia. Qed.

Lemma Qnat_add (a b : nat) : Qnat (a + b) == Qnat a + Qnat b.
Proof. unfold Qnat. rewrite Nat2Z.inj_add, inject_Z_plus. reflexivity. Qed.

Lemma Qnat_pos (n : nat) : n <> 0%nat -> 0 < Qnat n.
Proof. intros Hn. unfold Qnat. change 0 with (inject_Z 0). rewrite <- Zlt_Qlt. lia. Qed.

Lemma weighted_average_unit (P R F : nat) :
  (P + R + F <> 0)%nat ->
  0 <= (Qnat P * 1 + Qnat R * (1 # 2)) / Qnat (P + R + F)
  /\ (Qnat P * 1 + Qnat R * (1 # 2)) / Qnat (P + R + F) <= 1.
Proof.
  intros Hne.
  pose proof (Qnat_nonneg P) as HP. pose proof (Qnat_nonneg R) as HR.
  pose proof (Qnat_nonneg F) as HF.
  assert (Hs : Qnat (P + R + F) == Qnat P + Qnat R + Qnat F)
    by (rewrite !Qnat_add; reflexivity).
  pose proof (Qnat_pos _ Hne) as Hpos.
  split.
  - apply Qle_shift_div_l; [exact Hpos|]. lra.
  - apply Qle_shift_div_r; [exact Hpos|]. rewrite Hs. lra.
Qed.

Example score_2_1_1 :
  _score_findings [Item "pass" [] None None; Item "pass" [] None None;
                   Item "partial" [] None None; Item "fail" [] None None]
  = (2, 1, 1, 0, 5 # 8)%nat.
Proof. vm_compute. reflexivity. Qed.

(** The quotient 1/160 of one partial and 79 fail items lies halfway
    between 0.0062 and 0.0063; the double nearest to it lies above, and so
    the score is 0.0063.  The quotient 1/32 of one pass and 31 fail items
    is a double halfway between 0.0312 and 0.0313, and the tie goes to the
    even 0.0312. *)
Example score_at_a_tie :
  snd (_score_findings (Item "partial" [] None None :: repeat (Item "fail" [] None None) 79))
  = 63 # 10000
  /\ snd (_score_findings (Item "pass" [] None None :: repeat (Item "fail" [] None None) 31))
     = 39 # 1250.
Proof. split; vm_compute; reflexivity. Qed.

(** C7. A unit with [P] pass, [R] partial and [F] fail items (the
    not_applicable ones are counted apart and stay out of the denominator)
    scores 1.0 when [P + R + F = 0].  Otherwise its score is
    [(P*1.0 + R*0.5 + F*0.0) / (P + R + F)] rounded to four decimal places:
    a multiple of 0.0001 nearest to the quotient as a double, which for
    fewer than 2^38 scoreable items is a multiple of 0.0001 nearest to the
    exact quotient as well. *)
Theorem score_findings_weighted_average (items : list item) :
  let P := count_of "pass" items in
  let R := count_of "partial" items in
  let F := count_of "fail" items in
  let N := count_of "not_applicable" items in
  let x := (Qnat P * 1 + Qnat R * (1 # 2) + Qnat F * 0) / Qnat (P + R + F) in
  exists score,
    _score_findings items = (P, R, F, N, score)
    /\ ((P + R + F = 0)%nat -> score = 1)
    /\ ((P + R + F <> 0)%nat ->
        (exists q, nearest_double x q /\ rounded4 q score)
        /\ ((Z.of_nat (P + R + F) < 2 ^ 38)%Z -> rounded4 x score)).
Proof.
  intros P R F N x. rewrite score_findings_counts. fold P R F N.
  eexists. split; [reflexivity|]. split.
  - intros Hz. rewrite Hz. reflexivity.
  - intros Hnz. apply Nat.eqb_neq in Hnz. rewrite Hnz. apply Nat.eqb_neq in Hnz.
    set (x' := (Qnat P * 1 + Qnat R * (1 # 2)) / Qnat (P + R + F)).
    pose proof (Qnat_pos _ Hnz) as Hpos.
    assert (Ex : x == x') by (unfold x, x'; field; lra).
    destruct (weighted_average_unit P R F Hnz) as [H0 H1]. fold x' in H0, H1.
    unfold float_div. fold x'.
    assert (Hnear : nearest_double x (to_double x')).
    { destruct (to_double_nearest x' H0) as [Hd Hmin]. split; [exact Hd|].
      intros q' Hq'. rewrite Ex. now apply Hmin. }
    split.
    + exists (to_double x'). split; [exact Hnear | apply py_round4_rounded].
    + intros Hsmall.
      assert (Efrac : x == inject_Z (2 * Z.of_nat P + Z.of_nat R)
                            / (2 * inject_Z (Z.of_nat (P + R + F)))).
      { rewrite Ex. unfold x', Qnat. rewrite inject_Z_plus, inject_Z_mult.
        change (inject_Z 2) with 2. field. unfold Qnat in Hpos. lra. }
      destruct (rounded4_transfer (2 * Z.of_nat P + Z.of_nat R) (Z.of_nat (P + R + F))
                  (to_double x') (py_round4 (to_double x'))) as [Hg Hn].
      * lia.
      * lia.
      * rewrite <- Efrac, Ex. now apply to_double_near_unit.
      * apply py_round4_rounded.
      * split; [exact Hg|]. rewrite Efrac. exact Hn.
Qed.

(** *** Banding *)

Lemma domain_status_banded (score thr : Q) : banded score thr (_domain_status score thr).
Proof.
  unfold banded, _domain_status.
  destruct (Qle_bool thr score) eqn:E1.
  - apply Qle_bool_iff in E1. repeat split; intros; try reflexivity; contradiction.
  - assert (N1 : ~ thr <= score) by (intros H; apply Qle_bool_iff in H; congruence).
    destruct (Qle_bool (1 # 2) score) eqn:E2.
    + apply Qle_bool_iff in E2. repeat split; intros; try reflexivity; contradiction.
    + assert (N2 : ~ 1 # 2 <= score) by (intros H; apply Qle_bool_iff in H; congruence).
      repeat split; intros; try reflexivity; contradiction.
Qed.

Lemma score_domain_fields (idx : adict ctrl) (thr : Q) (entry : string * adict (list item)) :
  let dr := score_domain idx thr entry in
  let items := concat (map snd (snd entry)) in
  _score_findings items
  = (dr.(dr_pass), dr.(dr_partial), dr.(dr_fail), dr.(dr_not_applicable), dr.(dr_score))
  /\ dr.(dr_status) = _domain_status dr.(dr_score) thr.
Proof.
  destruct entry as [dom controls]. unfold score_domain. cbn [snd].
  destruct (_score_findings (concat (map snd controls))) as [[[[p r] f] n] sc].
  split; reflexivity.
Qed.

Example amber_at_0625 :
  let it s := Item s ["SSCF-IAM-001"] (Some "SBS-X") None in
  let r := run_benchmark
             (Backlog (Some "a") [it "pass"; it "pass"; it "partial"; it "fail"])
             [("SSCF-IAM-001", Ctrl "IAM" "SSCF-IAM-001" "t" "o")] (4 # 5) in
  map (fun d => (d.(dr_score), d.(dr_status))) r.(domains) = [(5 # 8, "amber")].
Proof. reflexivity. Qed.

Lemma run_benchmark_shape (b : backlog) (idx : adict ctrl) (thr : Q) :
  let r := run_benchmark b idx thr in
  exists dc all_items,
    r.(domains) = map (score_domain idx thr) (sorted_items dc)
    /\ r.(overall_score) = py_round4 (snd (_score_findings all_items))
    /\ r.(overall_status) = _domain_status (snd (_score_findings all_items)) thr.
Proof.
  unfold run_benchmark.
  destruct (fold_left (distribute idx) (mapped_items b) _) as [dc un].
  exists dc, (concat (map (fun d => concat (map snd (snd d))) dc)).
  destruct (_score_findings _) as [[[[p0 r0] f0] n0] sc0].
  repeat split.
Qed.

Lemma score_findings_rounded (items : list item) :
  py_round4 (snd (_score_findings items)) = snd (_score_findings items).
Proof. rewrite score_findings_counts. apply py_round4_idem. Qed.

(** C8. In every report, a domain without scoreable findings (its pass,
    partial and fail counts are all zero) has score exactly 1 and, whenever
    the green threshold is at most 1, status green; every domain status and
    the overall status are the two-threshold band of the corresponding
    score: green from the threshold on, else amber from 0.50 on, else red. *)
Theorem empty_domain_green_and_uniform_banding
    (b : backlog) (idx : adict ctrl) (thr : Q) :
  let r := run_benchmark b idx thr in
  (forall dr, In dr r.(domains) ->
     (dr.(dr_pass) + dr.(dr_partial) + dr.(dr_fail) = 0)%nat ->
     dr.(dr_score) = 1 /\ (thr <= 1 -> dr.(dr_status) = "green"))
  /\ (forall dr, In dr r.(domains) -> banded dr.(dr_score) thr dr.(dr_status))
  /\ banded r.(overall_score) thr r.(overall_status).
Proof.
  intros r. destruct (run_benchmark_shape b idx thr) as (dc & items & Hd & Hs & Hst).
  fold r in Hd, Hs, Hst. split; [|split].
  - intros dr Hin Hzero. rewrite Hd in Hin.
    apply in_map_iff in Hin. destruct Hin as [entry [<- _]].
    destruct (score_domain_fields idx thr entry) as [Hf Hband].
    rewrite Hband.
    pose proof (score_findings_counts (concat (map snd (snd entry)))) as Hc.
    cbv zeta in Hc. rewrite Hf in Hc.
    injection Hc as Hp Hr Hfl _ Hsc.
    rewrite <- Hp, <- Hr, <- Hfl, Hzero in Hsc. cbn [Nat.eqb] in Hsc.
    change (py_round4 1) with 1%Q in Hsc. rewrite Hsc.
    split; [reflexivity|]. intros Hle.
    apply (domain_status_banded 1 thr). exact Hle.
  - intros dr Hin. rewrite Hd in Hin.
    apply in_map_iff in Hin. destruct Hin as [entry [<- _]].
    destruct (score_domain_fields idx thr entry) as [_ ->].
    apply domain_status_banded.
  - rewrite Hs, Hst, score_findings_rounded. apply domain_status_banded.
Qed.

Lemma empty_domain_green_witness :
  let b := Backlog (Some "a")
             [Item "not_applicable" ["SSCF-IAM-001"] (Some "SBS-CODE-001") None] in
  let idx := [("SSCF-IAM-001", Ctrl "IAM" "SSCF-IAM-001" "Identity" "iam-team")] in
  let dr := score_domain idx (4 # 5)
              ("IAM", [("SSCF-IAM-001",
                        [Item "not_applicable" ["SSCF-IAM-001"] (Some "SBS-CODE-001") None])]) in
  In dr (run_benchmark b idx (4 # 5)).(domains)
  /\ (dr.(dr_pass) + dr.(dr_partial) + dr.(dr_fail) = 0)%nat
  /\ 4 # 5 <= 1
  /\ dr.(dr_score) = 1 /\ dr.(dr_status) = "green".
Proof.
  intros b idx dr.
  assert (Hin : In dr (run_benchmark b idx (4 # 5)).(domains)) by (left; reflexivity).
  assert (Hz : (dr.(dr_pass) + dr.(dr_partial) + dr.(dr_fail) = 0)%nat) by reflexivity.
  assert (Hle : 4 # 5 <= 1) by (unfold Qle; simpl; lia).
  destruct (empty_domain_green_and_uniform_banding b idx (4 # 5)) as [H _].
  destruct (H dr Hin Hz) as [Hs Hg].
  exact (conj Hin (conj Hz (conj Hle (conj Hs (Hg Hle))))).
Defined.

End BenchmarkFacts.

(* ------------------------------------------------------------------ *)
(** ** The control mapper *)

Section GapMapFacts.
Import GapMap.
Context `{Builtins}.

Lemma map_finding_routes (cfg : config) (b : buckets) (f : dict) :
  match route cfg f with
  | InMapped => exists m, map_finding cfg b f = add_mapped b m /\ mapped_from f m
  | InUnmapped => exists u, map_finding cfg b f = add_unmapped b u /\ unmapped_from f u
  | InInvalid => exists e, map_finding cfg b f = add_invalid b e /\ invalid_from f e
  end.
Proof.
  unfold route, map_finding, ad_mem.
  destruct (prefix "SBS-" (legacy_id f)).
  - destruct (ad_get (controls_by_id cfg) (legacy_id f)) as [sbs|].
    + eexists; split; [reflexivity | repeat split].
    + eexists; split; [reflexivity | eexists; reflexivity].
  - destruct (ad_get (map_by_legacy cfg) (legacy_id f)) as [[|kv row]|].
    + eexists; split; [reflexivity | repeat split].
    + destruct (ad_get (controls_by_id cfg) _) as [sbs|].
      * eexists; split; [reflexivity | repeat split].
      * eexists; split; [reflexivity | eexists; reflexivity].
    + eexists; split; [reflexivity | repeat split].
Qed.

Lemma fold_map_finding (cfg : config) (findings : list dict) (b0 : buckets) :
  let b := fold_left (map_finding cfg) findings b0 in
  exists ms us es,
    b.(mapped_items) = b0.(mapped_items) ++ ms
    /\ b.(unmapped_items) = b0.(unmapped_items) ++ us
    /\ b.(invalid_mapping_entries) = b0.(invalid_mapping_entries) ++ es
    /\ Forall2 mapped_from (routed_to cfg InMapped findings) ms
    /\ Forall2 unmapped_from (routed_to cfg InUnmapped findings) us
    /\ Forall2 invalid_from (routed_to cfg InInvalid findings) es.
Proof.
  revert b0. induction findings as [|f fs IH]; intros b0; cbn [fold_left].
  - exists [], [], []. rewrite !app_nil_r. repeat split; constructor.
  - destruct (IH (map_finding cfg b0 f)) as (ms & us & es & Hm & Hu & He & Fm & Fu & Fe).
    cbv zeta. rewrite Hm, Hu, He. clear IH Hm Hu He.
    pose proof (map_finding_routes cfg b0 f) as Hstep.
    unfold routed_to in *. cbn [filter].
    destruct (route cfg f); destruct Hstep as (x & -> & Hx);
      cbn [bucket_eqb add_mapped add_unmapped add_invalid
           mapped_items unmapped_items invalid_mapping_entries].
    + exists (x :: ms), us, es. rewrite <- app_assoc. repeat split; auto.
    + exists ms, (x :: us), es. rewrite <- app_assoc. repeat split; auto.
    + exists ms, us, (x :: es). rewrite <- app_assoc. repeat split; auto.
Qed.

Lemma routed_to_lengths (cfg : config) (findings : list dict) :
  (length (routed_to cfg InMapped findings)
   + length (routed_to cfg InUnmapped findings)
   + length (routed_to cfg InInvalid findings) = length findings)%nat.
Proof.
  unfold routed_to. induction findings as [|f fs IH]; cbn [filter length].
  - reflexivity.
  - destruct (route cfg f); cbn [bucket_eqb length]; lia.
Qed.

Lemma set_ids_mapped_from (f : dict) (m : mapped_item) :
  mapped_from f m -> mapped_from f (set_sscf_control_ids m).
Proof. intros H0. exact H0. Qed.

Example one_finding_per_bucket :
  let cfg :=
    {| controls_by_id := [("SBS-AUTH-001", Control "SBS-AUTH-001" (VStr "SSO") "Authentication")];
       map_by_legacy := [("LEG-7", [("legacy_control_id", VStr "LEG-7");
                                    ("sbs_control_id", VStr "SBS-GONE-001")])];
       sscf_defaults_by_category :=
         [("Authentication", [VDict [("sscf_control_id", VStr "SSCF-IAM-001")]])];
       sscf_overrides := [] |} in
  let out := map_findings cfg
               [ [("control_id", VStr " SBS-AUTH-001 "); ("status", VStr "fail")];
                 [("control_id", VStr "LEG-1"); ("status", VStr "pass")];
                 [("control_id", VStr "LEG-7"); ("status", VStr "partial")] ] in
  (map mi_sbs_control_id out.(mapped_items),
   map mi_sscf_control_ids out.(mapped_items),
   map um_legacy_control_id out.(unmapped_items),
   out.(invalid_mapping_entries))
  = (["SBS-AUTH-001"], [[VStr "SSCF-IAM-001"]], ["LEG-1"],
     ["LEG-7 -> SBS-GONE-001 (not found in imported catalog)"]).
Proof. reflexivity. Qed.

(** C6. The mapper puts every finding into exactly one bucket: each
    bucket holds, in order, one entry for each finding that the routing
    function sends to it and no other entry, so the three bucket sizes add
    up to the number of findings. *)
Theorem mapper_buckets_partition_findings (cfg : config) (findings : list dict) :
  let out := map_findings cfg findings in
  Forall2 mapped_from (routed_to cfg InMapped findings) out.(mapped_items)
  /\ Forall2 unmapped_from (routed_to cfg InUnmapped findings) out.(unmapped_items)
  /\ Forall2 invalid_from (routed_to cfg InInvalid findings) out.(invalid_mapping_entries)
  /\ (length out.(mapped_items) + length out.(unmapped_items)
      + length out.(invalid_mapping_entries) = length findings)%nat.
Proof.
  intros out.
  destruct (fold_map_finding cfg findings (Buckets [] [] []))
    as (ms & us & es & Hm & Hu & He & Fm & Fu & Fe).
  cbn [mapped_items unmapped_items invalid_mapping_entries app] in Hm, Hu, He.
  assert (Om : Forall2 mapped_from (routed_to cfg InMapped findings) out.(mapped_items)).
  { unfold out, map_findings. cbn [mapped_items]. rewrite Hm.
    clear - Fm. induction Fm; cbn [map]; constructor; auto. }
  assert (Ou : out.(unmapped_items) = us) by exact Hu.
  assert (Oe : out.(invalid_mapping_entries) = es) by exact He.
  rewrite Ou, Oe. repeat split; auto.
  rewrite <- (Forall2_length Om), <- (Forall2_length Fu), <- (Forall2_length Fe).
  apply routed_to_lengths.
Qed.

End GapMapFacts.

(* ------------------------------------------------------------------ *)
(** ** The rule engine *)

Section AssessFacts.
Import Assess.
Context `{Builtins}.

Lemma scope_present (raw : dict) (name : string) (v : value) :
  ad_get raw name = Some v -> _scope raw name = v.
Proof. unfold _scope. now intros ->. Qed.

Lemma scope_absent (raw : dict) (name : string) :
  raw <> [] -> ad_get raw name = None -> _scope raw name = VDict raw.
Proof.
  unfold _scope. intros Hne ->. destruct raw; [contradiction | reflexivity].
Qed.

Lemma scope_empty (name : string) : _scope [] name = VNone.
Proof. reflexivity. Qed.

Example auth_001_on_access_data :
  let raw := [("access", VDict [("admin_profiles", VDict [("totalSize", VInt 1)])])] in
  option_map status
    (match _rule_auth_001 raw with Ok f => Some f | Raise _ => None end) = Some "fail".
Proof. reflexivity. Qed.

(** C10. For a non-empty raw dict without the requested scope key,
    [_scope] hands back the whole dict; the rule for SBS-AUTH-001 then
    evaluates that dict exactly as if it had been collected under "auth",
    and whatever it returns is not a not_applicable finding. *)
Theorem scope_falls_back_to_whole_input (raw : dict) (scope_name : string) :
  raw <> [] ->
  ad_get raw scope_name = None ->
  _scope raw scope_name = VDict raw
  /\ (scope_name = "auth" ->
      _rule_auth_001 raw = _rule_auth_001 [("auth", VDict raw)]
      /\ forall f, _rule_auth_001 raw = Ok f -> f.(status) <> "not_applicable").
Proof.
  intros Hne Habs. split; [now apply scope_absent|].
  intros ->. unfold _rule_auth_001.
  rewrite (scope_absent raw "auth" Hne Habs).
  rewrite (scope_present [("auth", VDict raw)] "auth" (VDict raw) eq_refl).
  split; [reflexivity|].
  destruct raw as [|kv raw]; [contradiction|]. cbn [truthy negb].
  intros f. cbn [py_get bind].
  destruct (_records _) as [providers|e]; cbn [bind]; [|discriminate].
  destruct (is_empty providers); [intros [= <-]; discriminate|].
  destruct (is_empty _); intros [= <-]; discriminate.
Qed.

(** *** One control *)

Lemma assess_control_ok (raw : option dict) (dry_run : bool) (c : value) :
  control_ok c = true ->
  assess_control raw dry_run c = evaluate raw dry_run (cid_of c) (severity_of c).
Proof.
  destruct c as [| | | | | |d]; try discriminate. cbn [control_ok].
  intros Hok. apply andb_prop in Hok. destruct Hok as [_ Hrl].
  unfold assess_control, cid_of, severity_of. cbn [py_get bind].
  destruct (ad_get_default d "risk_level" VNone) as [|b|z|q|s0|l|kv] eqn:E;
    cbn [truthy negb] in Hrl.
  - reflexivity.
  - destruct b; [discriminate | reflexivity].
  - unfold py_or. cbn [truthy]. apply negb_true_iff in Hrl. now rewrite Hrl.
  - unfold py_or. cbn [truthy]. apply negb_true_iff in Hrl. now rewrite Hrl.
  - unfold py_or. cbn [truthy]. destruct (negb (s0 =? "")); reflexivity.
  - destruct l; [reflexivity | discriminate].
  - destruct kv; [reflexivity | discriminate].
Qed.

(** *** Controls outside the collector's reach *)

Lemma not_collectable_registered (cid : string) :
  In cid NOT_COLLECTABLE ->
  exists sev reason, ad_get RULES cid = Some (_rule_not_collectable cid sev reason).
Proof.
  unfold NOT_COLLECTABLE. intros Hin.
  repeat (destruct Hin as [<- | Hin]; [do 2 eexists; reflexivity|]).
  contradiction.
Qed.

Lemma evaluate_not_collectable (cid : string) (raw : option dict) (dry_run : bool)
    (sev : string) :
  In cid NOT_COLLECTABLE ->
  exists f, evaluate raw dry_run (VStr cid) sev = Ok f
    /\ f.(control_id) = VStr cid
    /\ (dry_run = false \/ ~ In cid DRY_RUN_OVERRIDDEN -> f.(status) = "not_applicable")
    /\ (dry_run = true -> cid = "SBS-CODE-003" -> f.(status) = "partial")
    /\ (dry_run = true -> cid = "SBS-CODE-004" -> f.(status) = "fail").
Proof.
  unfold NOT_COLLECTABLE, DRY_RUN_OVERRIDDEN. intros Hin.
  repeat (destruct Hin as [<- | Hin];
          [destruct dry_run; eexists; (split; [reflexivity|]);
           cbn [control_id status finding _na];
           (repeat split; try reflexivity; try discriminate;
            try (intros [E|E]; [discriminate E | exfalso; apply E; cbn; tauto]))|]).
  contradiction.
Qed.

(** C5 (as amended). A control registered through [_rule_not_collectable]
    gets a not_applicable finding for every collector input when the
    assessment is not a dry run, and in a dry run too unless the dry-run
    table overrides it: SBS-CODE-003 then reads partial and SBS-CODE-004
    fail. *)
Theorem not_collectable_is_not_applicable_unless_overridden
    (cid : string) (control : value) (raw : option dict) (dry_run : bool) :
  In cid NOT_COLLECTABLE ->
  control_ok control = true ->
  cid_of control = VStr cid ->
  (exists sev reason, ad_get RULES cid = Some (_rule_not_collectable cid sev reason))
  /\ exists f, assess_control raw dry_run control = Ok f
       /\ f.(control_id) = VStr cid
       /\ (dry_run = false \/ ~ In cid DRY_RUN_OVERRIDDEN -> f.(status) = "not_applicable")
       /\ (dry_run = true -> cid = "SBS-CODE-003" -> f.(status) = "partial")
       /\ (dry_run = true -> cid = "SBS-CODE-004" -> f.(status) = "fail").
Proof.
  intros Hin Hok Hcid. split; [now apply not_collectable_registered|].
  rewrite (assess_control_ok raw dry_run control Hok), Hcid.
  now apply evaluate_not_collectable.
Qed.

(** *** Missing scope data *)

Lemma ad_get_In {V : Type} (d : adict V) (k : string) (v : V) :
  ad_get d k = Some v -> In (k, v) d.
Proof.
  induction d as [|[k' v'] r IH]; cbn [ad_get]; [discriminate|].
  destruct (String.eqb_spec k' k) as [->|_].
  - intros [= ->]. now left.
  - intros Hr. right. now apply IH.
Qed.

Lemma no_data_scope (raw : dict) (s : string) :
  no_data_for raw s -> negb (truthy (_scope raw s)) = true.
Proof.
  unfold _scope. intros [-> | (v & -> & Hv)]; [reflexivity|]. now rewrite Hv.
Qed.

Ltac scope_is_empty Hno :=
  match goal with
  | |- context [negb (truthy (_scope ?raw ?s))] =>
      rewrite (no_data_scope raw s (Hno s eq_refl))
  end.

Lemma rules_without_scope_data (cid : string) (r : rule) (raw : dict) :
  In (cid, r) RULES ->
  (forall s, ad_get RULE_SCOPE cid = Some s -> no_data_for raw s) ->
  exists f, r raw = Ok f
    /\ f.(control_id) = VStr cid
    /\ (~ In cid DATA_STRUCTURAL ->
        f.(status) = "not_applicable" /\ f.(observed_value) <> "")
    /\ (In cid DATA_STRUCTURAL -> f.(status) = "partial").
Proof.
  unfold RULES, DATA_STRUCTURAL. intros Hin Hno.
  repeat (destruct Hin as [[= <- <-] | Hin];
          [ cbv delta [_rule_auth_001 _rule_auth_002 _rule_auth_003 _rule_auth_004
                       _rule_acs_001 _rule_acs_002 _rule_acs_003 _rule_acs_004
                       _rule_acs_structural _rule_int_002 _rule_int_003 _rule_int_004
                       _rule_oauth_001 _rule_oauth_002 _rule_oauth_structural
                       _rule_data_004 _rule_data_structural _rule_secconf_001
                       _rule_secconf_002 _rule_dep_003 _rule_not_collectable];
            cbv beta;
            cbv zeta; try scope_is_empty Hno;
            eexists; (split; [reflexivity|]);
            cbn [control_id status observed_value finding _na];
            (split; [reflexivity|]);
            (split;
             [ intros Hn; first [ split; [reflexivity | discriminate]
                                | exfalso; apply Hn; cbn; tauto ]
             | intros Hd; first [ reflexivity
                                | cbn in Hd; repeat (destruct Hd as [Hd|Hd]; try discriminate Hd);
                                  contradiction ] ])
          | ]).
  contradiction.
Qed.

(** C4 (as amended). When the collected data holds nothing for the scope
    a registered rule reads (the input is the empty dict, or it binds that
    scope name to an empty or null value), the rule returns a finding
    without raising, and the finding is not_applicable with a non-empty
    observed_value.  The rules that read no scope do so on every input,
    except those of the three data-structural controls SBS-DATA-001/002/003,
    which return partial on every input. *)
Theorem rules_degrade_without_scope_data (cid : string) (r : rule) (raw : dict) :
  ad_get RULES cid = Some r ->
  (forall s, ad_get RULE_SCOPE cid = Some s -> no_data_for raw s) ->
  exists f, r raw = Ok f
    /\ f.(control_id) = VStr cid
    /\ (~ In cid DATA_STRUCTURAL ->
        f.(status) = "not_applicable" /\ f.(observed_value) <> "")
    /\ (In cid DATA_STRUCTURAL -> f.(status) = "partial").
Proof.
  intros Hget Hno. apply rules_without_scope_data; [|exact Hno].
  now apply ad_get_In.
Qed.

(** *** Well-shaped collector output *)

Example collector_error_shape_ok :
  raw_ok [("auth", VDict [("sso_providers", VDict [("totalSize", VInt 0); ("records", VList [])]);
                          ("mfa_org_settings", VDict [("error", VStr "boom")])]);
          ("access", VDict [("error", VStr "INVALID_SESSION_ID")])] = true.
Proof. reflexivity. Qed.

Lemma records_ok_returns (v : value) :
  records_ok v = true -> exists l, _records v = Ok l.
Proof.
  destruct v as [| | | | | |d]; try (intros _; eexists; reflexivity).
  cbn [records_ok _records].
  destruct (ad_get_default d "records" (VList [])); try discriminate;
    intros _; eexists; reflexivity.
Qed.

Lemma total_ok_returns (v : value) :
  total_ok v = true -> exists z, _total v = Ok z.
Proof.
  destruct v as [| | | | | |d]; try (intros _; eexists; reflexivity).
  cbn [total_ok _total].
  destruct (ad_get_default d "totalSize" (VInt 0)) as [| | |[]| | |]; try discriminate;
    intros _; eexists; reflexivity.
Qed.

Lemma py_lt_number (v : value) (n : Z) :
  is_number v = true -> exists b, py_lt v n = Ok b.
Proof. destruct v as [| | |[]| | |]; try discriminate; intros _; eexists; reflexivity. Qed.

Lemma strs_hashable (l : list value) :
  forallb is_str l = true -> forallb hashable l = true.
Proof.
  induction l as [|v l IH]; cbn [forallb]; [reflexivity|].
  intros Hl. apply andb_prop in Hl. destruct Hl as [Hv Hl].
  rewrite (IH Hl). destruct v; try discriminate; reflexivity.
Qed.

Lemma strs_upper (l : list value) :
  forallb is_str l = true -> exists us, mapM upper_of l = Ok us.
Proof.
  induction l as [|v l IH]; cbn [forallb mapM]; [eexists; reflexivity|].
  intros Hl. apply andb_prop in Hl. destruct Hl as [Hv Hl].
  destruct (IH Hl) as [us ->].
  destruct v; try discriminate. eexists; reflexivity.
Qed.

Lemma scope_cases (sd : value) (fields_ok : dict -> bool) :
  scope_ok sd fields_ok = true ->
  negb (truthy sd) = true
  \/ exists d, sd = VDict d /\ negb (truthy sd) = false /\ fields_ok d = true.
Proof.
  destruct sd as [| | | | | |d]; cbn [scope_ok]; try (intros ->; now left).
  destruct d as [|kv d]; [now left|].
  intros Hf. right. exists (kv :: d). repeat split. exact Hf.
Qed.

(** *** Each rule on well-shaped input *)

Ltac leaf := eexists; split; [reflexivity | split; [reflexivity | cbn; tauto]].

Ltac split_fields F :=
  unfold soql in F;
  repeat (let F' := fresh "Hfld" in apply andb_prop in F; destruct F as [F F']).

Ltac step :=
  match goal with
  | Hr : records_ok ?v = true |- context [_records ?v] =>
      let l := fresh "l" in
      let E := fresh "E" in
      destruct (records_ok_returns v Hr) as [l E]; rewrite E in *; cbn [bind]
  | Ht : total_ok ?v = true |- context [_total ?v] =>
      let z := fresh "z" in
      let E := fresh "E" in
      destruct (total_ok_returns v Ht) as [z E]; rewrite E in *; cbn [bind]
  | Hs : is_number ?v = true |- context [py_lt ?v ?n] =>
      let b := fresh "b" in
      let E := fresh "E" in
      destruct (py_lt_number v n Hs) as [b E]; rewrite E; cbn [bind]
  | |- valid_result _ (if ?c then _ else _) => destruct c
  | |- valid_result _ (match ?l with [] => _ | _ :: _ => _ end) => destruct l
  | |- valid_result _ (Ok _) => leaf
  end.

(** Opens the scope guard of a rule: either nothing was collected, or the
    scope data is an object [d] whose fields are good. *)
Ltac open_scope_guard Hok :=
  cbv zeta;
  let Hn := fresh "Hn" in
  let d := fresh "d" in
  let Hd := fresh "Hd" in
  let F := fresh "F" in
  destruct (scope_cases _ _ Hok) as [Hn | (d & Hd & Hn & F)]; rewrite Hn;
  [ leaf | rewrite Hd; cbn [py_get bind]; split_fields F ].

Lemma auth_001_valid (raw : dict) :
  auth_ok raw = true -> valid_result "SBS-AUTH-001" (_rule_auth_001 raw).
Proof. unfold auth_ok, _rule_auth_001. intros Hok. open_scope_guard Hok. repeat step. Qed.

Lemma auth_002_valid (raw : dict) :
  auth_ok raw = true -> valid_result "SBS-AUTH-002" (_rule_auth_002 raw).
Proof. unfold auth_ok, _rule_auth_002. intros Hok. open_scope_guard Hok. repeat step. Qed.

Lemma auth_003_valid (raw : dict) :
  auth_ok raw = true -> valid_result "SBS-AUTH-003" (_rule_auth_003 raw).
Proof. unfold auth_ok, _rule_auth_003. intros Hok. open_scope_guard Hok. repeat step. Qed.

Lemma auth_004_valid (raw : dict) :
  auth_ok raw = true -> valid_result "SBS-AUTH-004" (_rule_auth_004 raw).
Proof. unfold auth_ok, _rule_auth_004. intros Hok. open_scope_guard Hok. repeat step. Qed.

Lemma acs_001_valid (raw : dict) :
  access_ok raw = true -> valid_result "SBS-ACS-001" (_rule_acs_001 raw).
Proof. unfold access_ok, _rule_acs_001. intros Hok. open_scope_guard Hok. repeat step. Qed.

Lemma acs_002_valid (raw : dict) :
  access_ok raw = true -> valid_result "SBS-ACS-002" (_rule_acs_002 raw).
Proof. unfold access_ok, _rule_acs_002. intros Hok. open_scope_guard Hok. repeat step. Qed.

Lemma acs_003_valid (raw : dict) :
  access_ok raw = true -> valid_result "SBS-ACS-003" (_rule_acs_003 raw).
Proof. unfold access_ok, _rule_acs_003. intros Hok. open_scope_guard Hok. repeat step. Qed.

Lemma acs_004_valid (raw : dict) :
  access_ok raw = true -> valid_result "SBS-ACS-004" (_rule_acs_004 raw).
Proof. unfold access_ok, _rule_acs_004. intros Hok. open_scope_guard Hok. repeat step. Qed.

Lemma acs_structural_valid (cid sev : string) (raw : dict) :
  valid_result cid (_rule_acs_structural cid sev raw).
Proof. unfold _rule_acs_structural. cbv zeta. repeat step. Qed.

Lemma int_002_valid (raw : dict) :
  integrations_ok raw = true -> valid_result "SBS-INT-002" (_rule_int_002 raw).
Proof. unfold integrations_ok, _rule_int_002. intros Hok. open_scope_guard Hok. repeat step. Qed.

Lemma int_003_valid (raw : dict) :
  integrations_ok raw = true -> valid_result "SBS-INT-003" (_rule_int_003 raw).
Proof. unfold integrations_ok, _rule_int_003. intros Hok. open_scope_guard Hok. repeat step. Qed.

Lemma int_004_valid (raw : dict) :
  event_monitoring_ok raw = true -> valid_result "SBS-INT-004" (_rule_int_004 raw).
Proof.
  unfold event_monitoring_ok, _rule_int_004. intros Hok. open_scope_guard Hok.
  step. unfold event_types_ok in Hfld0. rewrite E in Hfld0.
  rewrite (strs_hashable _ Hfld0). cbn [negb].
  destruct (strs_upper _ Hfld0) as [us ->]. cbn [bind].
  repeat step.
Qed.

Lemma oauth_001_valid (raw : dict) :
  oauth_ok raw = true -> valid_result "SBS-OAUTH-001" (_rule_oauth_001 raw).
Proof. unfold oauth_ok, _rule_oauth_001. intros Hok. open_scope_guard Hok. repeat step. Qed.

Lemma oauth_002_valid (raw : dict) :
  oauth_ok raw = true -> valid_result "SBS-OAUTH-002" (_rule_oauth_002 raw).
Proof. unfold oauth_ok, _rule_oauth_002. intros Hok. open_scope_guard Hok. repeat step. Qed.

Lemma oauth_structural_valid (cid sev : string) (raw : dict) :
  valid_result cid (_rule_oauth_structural cid sev raw).
Proof. unfold _rule_oauth_structural. cbv zeta. repeat step. Qed.

Lemma data_004_valid (raw : dict) :
  event_monitoring_ok raw = true -> valid_result "SBS-DATA-004" (_rule_data_004 raw).
Proof.
  unfold event_monitoring_ok, _rule_data_004. intros Hok. open_scope_guard Hok.
  repeat step.
Qed.

Lemma data_structural_valid (cid sev : string) (raw : dict) :
  valid_result cid (_rule_data_structural cid sev raw).
Proof. unfold _rule_data_structural. leaf. Qed.

Lemma secconf_001_valid (raw : dict) :
  secconf_ok raw = true -> valid_result "SBS-SECCONF-001" (_rule_secconf_001 raw).
Proof.
  unfold secconf_ok, _rule_secconf_001. intros Hok. open_scope_guard Hok.
  destruct (_ && _); [leaf|].
  step. unfold first_score_ok in Hfld. rewrite E in Hfld.
  destruct l as [|r0 l]; [leaf|]. repeat step.
Qed.

Lemma secconf_002_valid (raw : dict) :
  secconf_ok raw = true -> valid_result "SBS-SECCONF-002" (_rule_secconf_002 raw).
Proof.
  unfold secconf_ok, _rule_secconf_002. intros Hok. open_scope_guard Hok.
  step. unfold first_score_ok in Hfld. rewrite E in Hfld.
  destruct l as [|r0 l]; [leaf|]. repeat step.
Qed.

Lemma dep_003_valid (raw : dict) :
  transaction_security_ok raw = true -> valid_result "SBS-DEP-003" (_rule_dep_003 raw).
Proof.
  unfold transaction_security_ok, _rule_dep_003. intros Hok. open_scope_guard Hok.
  repeat step.
Qed.

Lemma not_collectable_valid (cid sev reason : string) (raw : dict) :
  valid_result cid (_rule_not_collectable cid sev reason raw).
Proof. unfold _rule_not_collectable. leaf. Qed.

(** *** The registry and the loop *)

Lemma raw_ok_parts (raw : dict) :
  raw_ok raw = true ->
  auth_ok raw = true /\ access_ok raw = true /\ integrations_ok raw = true
  /\ event_monitoring_ok raw = true /\ oauth_ok raw = true /\ secconf_ok raw = true
  /\ transaction_security_ok raw = true.
Proof.
  unfold raw_ok. intros Hok.
  repeat (let P := fresh "P" in apply andb_prop in Hok; destruct Hok as [Hok P]).
  repeat split; assumption.
Qed.

Lemma RULES_valid (cid : string) (r : rule) (raw : dict) :
  In (cid, r) RULES -> raw_ok raw = true -> valid_result cid (r raw).
Proof.
  unfold RULES. intros Hin Hok.
  destruct (raw_ok_parts raw Hok) as (Hau & Hac & Hin' & Hem & Hoa & Hsc & Hts).
  repeat (destruct Hin as [[= <- <-] | Hin];
          [ first [ now apply auth_001_valid | now apply auth_002_valid
                  | now apply auth_003_valid | now apply auth_004_valid
                  | now apply acs_001_valid | now apply acs_002_valid
                  | now apply acs_003_valid | now apply acs_004_valid
                  | apply acs_structural_valid
                  | now apply int_002_valid | now apply int_003_valid
                  | now apply int_004_valid
                  | now apply oauth_001_valid | now apply oauth_002_valid
                  | apply oauth_structural_valid
                  | now apply data_004_valid | apply data_structural_valid
                  | now apply secconf_001_valid | now apply secconf_002_valid
                  | now apply dep_003_valid | apply not_collectable_valid ] | ]).
  contradiction.
Qed.

Lemma overrides_valid (cid st obs rem : string) :
  ad_get _DRY_RUN_OVERRIDES cid = Some (st, obs, rem) -> In st VALID_STATUSES.
Proof.
  intros Hget. apply ad_get_In in Hget. unfold _DRY_RUN_OVERRIDES in Hget.
  repeat (destruct Hget as [[= <- <- <- <-] | Hget]; [cbn; tauto|]).
  contradiction.
Qed.

Lemma evaluate_valid (raw : option dict) (dry_run : bool) (cid : value) (sev : string) :
  raw_input_ok raw = true ->
  hashable cid = true ->
  exists f, evaluate raw dry_run cid sev = Ok f
    /\ f.(control_id) = cid /\ In f.(status) VALID_STATUSES.
Proof.
  intros Hraw Hh. unfold evaluate.
  destruct cid as [|b|z|q|s0|l|kv]; try discriminate;
    try (cbn [get_by_value bind]; eexists; split; [reflexivity|];
         split; [reflexivity | cbn; tauto]).
  cbn [get_by_value bind].
  destruct (ad_get RULES s0) as [r|] eqn:Er;
    [| eexists; split; [reflexivity|]; split; [reflexivity | cbn; tauto]].
  apply ad_get_In in Er.
  destruct dry_run.
  - destruct (ad_get _DRY_RUN_OVERRIDES s0) as [[[st obs] rem]|] eqn:Eo.
    + eexists; split; [reflexivity|]. split; [reflexivity|].
      cbn [status finding]. now apply overrides_valid in Eo.
    + apply (RULES_valid s0 r [] Er). reflexivity.
  - apply (RULES_valid s0 r _ Er).
    destruct raw as [d|]; [exact Hraw | reflexivity].
Qed.

Lemma control_ok_hashable (c : value) : control_ok c = true -> hashable (cid_of c) = true.
Proof.
  destruct c as [| | | | | |d]; try discriminate. cbn [control_ok cid_of].
  intros Hok. apply andb_prop in Hok. tauto.
Qed.

Lemma run_assessment_valid (raw : option dict) (controls : list value) (dry_run : bool)
    (org env date_str : string) :
  forallb control_ok controls = true ->
  raw_input_ok raw = true ->
  exists findings,
    run_assessment raw controls dry_run org env date_str = Ok findings
    /\ Forall2 reports controls findings.
Proof.
  intros Hcs Hraw. unfold run_assessment.
  induction controls as [|c cs IH]; cbn [mapM].
  - exists []. split; [reflexivity | constructor].
  - cbn [forallb] in Hcs. apply andb_prop in Hcs. destruct Hcs as [Hc Hcs].
    rewrite (assess_control_ok raw dry_run c Hc).
    destruct (evaluate_valid raw dry_run (cid_of c) (severity_of c) Hraw
                (control_ok_hashable c Hc)) as (f & -> & Hid & Hst).
    destruct (IH Hcs) as (fs & -> & Hfs). cbn [bind].
    eexists. split; [reflexivity|]. constructor; [|exact Hfs].
    split; [cbn; now rewrite Hid|]. exists f.(status). split; [reflexivity | exact Hst].
Qed.

(** C3 (as amended). For every catalog whose entries are objects with a
    hashable control_id and a risk_level that is a string or empty, and
    every raw input that is None or a well-shaped dict (the empty dict
    included), [run_assessment] returns, without raising, exactly one
    finding per catalog entry, in order, carrying that entry's control_id
    and a status among pass, fail, partial and not_applicable. *)
Theorem run_assessment_one_finding_per_control
    (raw : option dict) (controls : list value) (dry_run : bool)
    (org env date_str : string) :
  forallb control_ok controls = true ->
  raw_input_ok raw = true ->
  exists findings,
    run_assessment raw controls dry_run org env date_str = Ok findings
    /\ length findings = length controls
    /\ Forall2 reports controls findings.
Proof.
  intros Hcs Hraw.
  destruct (run_assessment_valid raw controls dry_run org env date_str Hcs Hraw)
    as (findings & Hrun & Hrep).
  exists findings. repeat split; try assumption.
  symmetry. exact (Forall2_length Hrep).
Qed.

End AssessFacts.

(* ------------------------------------------------------------------ *)
(** ** The rule engine on closed inputs *)

Section AssessInstances.
Import Assess.

Lemma scope_falls_back_witness :
  let raw := [("access", VDict [("admin_profiles", VDict [("totalSize", VInt 1)])])] in
  _scope raw "auth" = VDict raw
  /\ _rule_auth_001 raw = _rule_auth_001 [("auth", VDict raw)].
Proof.
  intros raw.
  assert (Hne : raw <> []) by discriminate.
  assert (Habs : ad_get raw "auth" = None) by reflexivity.
  destruct (scope_falls_back_to_whole_input raw "auth" Hne Habs) as [Hs Hr].
  destruct (Hr eq_refl) as [Heq _].
  exact (conj Hs Heq).
Defined.

(** C3 as stated fails: a null [totalSize] makes the rule for
    SBS-AUTH-003 raise, and with it the whole assessment. *)
Lemma run_assessment_raises_on_null_total_size :
  let raw := [("auth", VDict [("login_ip_ranges", VDict [("totalSize", VNone)])])] in
  let controls := [VDict [("control_id", VStr "SBS-AUTH-003");
                          ("risk_level", VStr "Moderate")]] in
  run_assessment (H := plain_builtins) (Some raw) controls false "org" "dev" "2026-01-01"
  = Raise (Exn TypeError "")
  /\ ~ exists findings,
       run_assessment (H := plain_builtins) (Some raw) controls false "org" "dev" "2026-01-01"
       = Ok findings.
Proof.
  split; [reflexivity|]. intros [findings Hf]. discriminate Hf.
Qed.

(** A [totalSize] that is a number but not a finite one raises as well:
    [int] refuses an infinity (what the JSON text 1e400 parses to) and a
    NaN. *)
Example run_assessment_raises_on_infinite_total_size :
  let raw x := [("auth", VDict [("login_ip_ranges", VDict [("totalSize", VFloat x)])])] in
  let controls := [VDict [("control_id", VStr "SBS-AUTH-003");
                          ("risk_level", VStr "Moderate")]] in
  run_assessment (H := plain_builtins) (Some (raw PosInf)) controls false "org" "dev"
    "2026-01-01" = Raise (Exn OverflowError "")
  /\ run_assessment (H := plain_builtins) (Some (raw NaN)) controls false "org" "dev"
       "2026-01-01" = Raise (Exn ValueError "")
  /\ raw_input_ok (Some (raw PosInf)) = false
  /\ raw_input_ok (Some (raw NaN)) = false.
Proof. repeat split. Qed.

Lemma run_assessment_one_finding_witness :
  let raw := [("auth", VDict [("login_ip_ranges", VDict [("totalSize", VInt 1)])]);
              ("access", VDict [("error", VStr "INVALID_SESSION_ID")])] in
  let controls := [VDict [("control_id", VStr "SBS-AUTH-003"); ("risk_level", VStr "Moderate")];
                   VDict [("control_id", VStr "SBS-ACS-001"); ("risk_level", VNone)];
                   VDict [("control_id", VStr "SBS-XYZ-999")]] in
  forallb control_ok controls = true
  /\ raw_input_ok (Some raw) = true
  /\ exists findings,
       run_assessment (H := plain_builtins) (Some raw) controls false "org" "dev" "2026-01-01"
       = Ok findings
       /\ length findings = 3%nat.
Proof.
  intros raw controls.
  assert (Hc : forallb control_ok controls = true) by reflexivity.
  assert (Hr : raw_input_ok (Some raw) = true) by reflexivity.
  destruct (run_assessment_one_finding_per_control (H := plain_builtins)
              (Some raw) controls false "org" "dev" "2026-01-01" Hc Hr)
    as (findings & Hrun & Hlen & _).
  exact (conj Hc (conj Hr (ex_intro _ findings (conj Hrun Hlen)))).
Defined.

(** C4 as stated fails, in two ways.  On the empty dict the rule
    registered for SBS-DATA-001 returns a partial finding.  And on a
    collection that holds access data only, so nothing for auth, the rule
    registered for SBS-AUTH-001 reads the access data and returns a fail. *)
Lemma missing_scope_data_is_not_always_not_applicable :
  (exists r f,
     ad_get (RULES (H := plain_builtins)) "SBS-DATA-001" = Some r
     /\ r [] = Ok f
     /\ f.(status) = "partial"
     /\ f.(status) <> "not_applicable")
  /\ (let raw := [("access", VDict [("admin_profiles", VDict [("totalSize", VInt 1)])])] in
      exists r f,
        ad_get (RULES (H := plain_builtins)) "SBS-AUTH-001" = Some r
        /\ ad_get raw "auth" = None
        /\ r raw = Ok f
        /\ f.(status) = "fail"
        /\ f.(status) <> "not_applicable").
Proof.
  split.
  - do 2 eexists. split; [reflexivity|]. split; [reflexivity|].
    split; [reflexivity | discriminate].
  - do 2 eexists. split; [reflexivity|]. split; [reflexivity|]. split; [reflexivity|].
    split; [reflexivity | discriminate].
Qed.

Lemma rules_degrade_witness :
  let raw := [("auth", VDict []);
              ("access", VDict [("admin_profiles", VDict [("totalSize", VInt 9)])])] in
  ad_get (RULES (H := plain_builtins)) "SBS-AUTH-001" = Some (_rule_auth_001)
  /\ (forall s, ad_get RULE_SCOPE "SBS-AUTH-001" = Some s -> no_data_for raw s)
  /\ exists f, _rule_auth_001 raw = Ok f
       /\ f.(status) = "not_applicable" /\ f.(observed_value) <> "".
Proof.
  intros raw.
  assert (Hg : ad_get (RULES (H := plain_builtins)) "SBS-AUTH-001"
               = Some (_rule_auth_001)) by reflexivity.
  assert (Hn : forall s, ad_get RULE_SCOPE "SBS-AUTH-001" = Some s -> no_data_for raw s).
  { intros s [= <-]. right. exists (VDict []). split; reflexivity. }
  destruct (rules_degrade_without_scope_data (H := plain_builtins)
              "SBS-AUTH-001" _ raw Hg Hn) as (f & Hf & _ & Hna & _).
  assert (Hnd : ~ In "SBS-AUTH-001" DATA_STRUCTURAL)
    by (cbn; intros [E|[E|[E|[]]]]; discriminate E).
  exact (conj Hg (conj Hn (ex_intro _ f (conj Hf (Hna Hnd))))).
Defined.

(** C5 as stated fails: in a dry run the finding for SBS-CODE-004, a
    control registered through [_rule_not_collectable], is a fail. *)
Lemma code_004_fails_in_dry_run :
  let control := VDict [("control_id", VStr "SBS-CODE-004"); ("risk_level", VStr "Critical")] in
  In "SBS-CODE-004" NOT_COLLECTABLE
  /\ exists f, assess_control (H := plain_builtins) None true control = Ok f
       /\ f.(status) = "fail"
       /\ f.(status) <> "not_applicable".
Proof.
  split; [cbn; tauto|]. eexists. split; [reflexivity|].
  split; [reflexivity | discriminate].
Qed.

Lemma not_collectable_witness :
  let control := VDict [("control_id", VStr "SBS-CODE-004"); ("risk_level", VStr "Critical")] in
  let raw := Some [("auth", VDict [("login_ip_ranges", VDict [("totalSize", VInt 1)])])] in
  In "SBS-CODE-004" NOT_COLLECTABLE
  /\ control_ok control = true
  /\ cid_of control = VStr "SBS-CODE-004"
  /\ exists f, assess_control (H := plain_builtins) raw false control = Ok f
       /\ f.(status) = "not_applicable".
Proof.
  intros control raw.
  assert (Hin : In "SBS-CODE-004" NOT_COLLECTABLE) by (cbn; tauto).
  assert (Hok : control_ok control = true) by reflexivity.
  assert (Hid : cid_of control = VStr "SBS-CODE-004") by reflexivity.
  destruct (not_collectable_is_not_applicable_unless_overridden (H := plain_builtins)
              "SBS-CODE-004" control raw false Hin Hok Hid)
    as (_ & f & Hf & _ & Hna & _).
  exact (conj Hin (conj Hok (conj Hid (ex_intro _ f (conj Hf (Hna (or_introl eq_refl))))))).
Defined.

(** The dry run over a catalog that lists the 45 registered controls:
    10 fail, 21 partial, 1 pass and 13 not_applicable findings. *)
Example dry_run_profile :
  let controls :=
    map (fun kv => VDict [("control_id", VStr (fst kv)); ("risk_level", VStr "High")])
        (RULES (H := plain_builtins)) in
  let count st fs :=
    length (filter (fun f => eq_str (ad_get_default f "status" VNone) st) fs) in
  match run_assessment (H := plain_builtins) None controls true "dry-run" "dev" "2026-01-01" with
  | Ok fs =>
      (length fs, count "fail" fs, count "partial" fs, count "pass" fs,
       count "not_applicable" fs) = (45, 10, 21, 1, 13)%nat
  | Raise _ => False
  end.
Proof. vm_compute. reflexivity. Qed.

(** A collector output in which the access scope failed to collect: the
    rule for SBS-ACS-001 sees an object without admin_profiles and passes. *)
Example failed_scope_reads_as_pass :
  let raw := [("access", VDict [("error", VStr "INVALID_SESSION_ID")])] in
  match _rule_acs_001 (H := plain_builtins) raw with
  | Ok f => (f.(status), f.(observed_value))
            = ("pass", "0 admin profile(s) — within acceptable threshold.")
  | Raise _ => False
  end.
Proof. vm_compute. reflexivity. Qed.

End AssessInstances.

(* ------------------------------------------------------------------ *)
(** ** The orchestration loop *)

Section LoopFacts.
Import Loop.
Context `{Builtins} `{Env}.

(** *** What the loop tracks *)

Lemma dispatch_names_path (name : string) (input : value) (w w' : world) (t : text) :
  dispatch name input w = (Ok t, w') -> names_path t.
Proof.
  unfold dispatch.
  destruct (negb _); [discriminate|].
  destruct input as [| | | | | |inp]; try discriminate.
  destruct (run_cli name (VDict inp) w) as [[out_path|e] w1]; [|discriminate].
  destruct (_ && _); intros [= <- _]; exact I.
Qed.

Lemma handle_tool_error_names_path (name : string) (input : value) (e : exn) (t : text) :
  _handle_tool_error name input e = Ok t -> names_path t.
Proof.
  unfold _handle_tool_error. destruct (is_critical_tool name); [discriminate|].
  intros [= <-]. exact I.
Qed.

Lemma track_output_ok (st : state) (name : string) (t : text) :
  names_path t -> tracked_ok st -> tracked_ok (track_output st name t).
Proof.
  unfold track_output, names_path, tracked_ok.
  destruct t as [v|s0]; cbn [json_loads]; [|tauto].
  destruct v as [| | | | | |d]; try tauto.
  destruct (ad_get_default d "output_file" VNone) as [| | | |s0| |] eqn:E;
    cbn [truthy]; try tauto.
  intros _ (Hg & Hb & Hs).
  destruct (negb (s0 =? "")) eqn:Es; [|tauto].
  destruct (name =? "oscal_assess_assess"); [cbn; rewrite Es; tauto|].
  destruct (name =? "oscal_gap_map"); [cbn; rewrite Es; tauto|].
  destruct (name =? "sscf_benchmark_benchmark"); [cbn; rewrite Es; tauto|].
  tauto.
Qed.

Lemma process_block_ok (st st' : state) (trs trs' : list tool_result) (b : block)
    (w w' : world) :
  process_block st trs b w = (Ok (st', trs'), w') -> tracked_ok st -> tracked_ok st'.
Proof.
  unfold process_block. destruct b as [t|id name input|]; try (intros [= <- _ _]; tauto).
  destruct (dispatch name input w) as [[t|e] w1] eqn:Ed.
  - intros [= <- _ _]. apply track_output_ok. now apply dispatch_names_path in Ed.
  - destruct (_handle_tool_error name input e) as [t|e'] eqn:Eh; [|discriminate].
    intros [= <- _ _]. apply track_output_ok.
    now apply handle_tool_error_names_path in Eh.
Qed.

Lemma process_blocks_ok (blocks : list block) (st st' : state)
    (trs trs' : list tool_result) (w w' : world) :
  process_blocks blocks st trs w = (Ok (st', trs'), w') -> tracked_ok st -> tracked_ok st'.
Proof.
  revert st trs w. induction blocks as [|b rest IH]; intros st trs w; cbn [process_blocks].
  - intros [= <- _ _]. tauto.
  - destruct (process_block st trs b w) as [[[st1 trs1]|e] w1] eqn:Eb; [|discriminate].
    intros Hrest Hst. apply (IH _ _ _ Hrest). exact (process_block_ok _ _ _ _ _ _ _ Eb Hst).
Qed.

Lemma agent_turns_ok (fuel turn : nat) (messages : list message) (st st' : state)
    (w w' : world) :
  agent_turns fuel turn messages st w = (Ok st', w') -> tracked_ok st -> tracked_ok st'.
Proof.
  revert turn messages st w. induction fuel as [|fuel IH]; intros turn messages st w;
    cbn [agent_turns].
  - intros [= <- _]. tauto.
  - destruct (messages_create messages w) as [[resp|e] w1]; [|discriminate].
    destruct (stop_reason resp =? "end_turn"); [intros [= <- _]; tauto|].
    destruct (stop_reason resp =? "max_tokens"); [intros [= <- _]; tauto|].
    destruct (negb (stop_reason resp =? "tool_use")); [intros [= <- _]; tauto|].
    destruct (process_blocks _ _ _ _) as [[[st1 trs1]|e] w2] eqn:Ep; [|discriminate].
    intros Hrec Hst. apply (IH _ _ _ _ Hrec).
    apply (process_blocks_ok _ _ _ _ _ _ _ Ep). exact Hst.
Qed.

Lemma loop_phase_ok (task org : string) (w0 w1 : world) (st : state) :
  loop_phase task org w0 = (Ok st, w1) -> tracked_ok st.
Proof.
  unfold loop_phase. intros Hl. apply (agent_turns_ok _ _ _ _ _ _ _ Hl).
  repeat split.
Qed.

Lemma extract_score_returns (p : value) (w : world) :
  path_like p = true -> exists sc, _extract_score p w = Ok sc.
Proof.
  unfold _extract_score. destruct p; try discriminate; intros Hp.
  - eexists; reflexivity.
  - cbn [path_like] in Hp. cbn [truthy]. rewrite Hp. cbn [negb as_path bind].
    destruct (negb (path_exists w s)); eexists; reflexivity.
Qed.

(** *** The gap-analysis artifact at the gate *)

Lemma is_critical_fail_dict (d : dict) :
  is_critical_fail (VDict d) = Ok (critical_fail_entry (VDict d)).
Proof.
  unfold is_critical_fail, critical_fail_entry. cbn [py_get bind].
  destruct (eq_str (ad_get_default d "status" VNone) "fail"); reflexivity.
Qed.

Lemma critical_fail_ids_entries (fs : list value) :
  existsb malformed_entry fs = false ->
  critical_fail_ids fs = Ok (map entry_id (filter critical_fail_entry fs)).
Proof.
  induction fs as [|f fs IH]; cbn [existsb]; [reflexivity|].
  intros Hnone. apply orb_false_elim in Hnone. destruct Hnone as [Hf Hfs].
  cbn [critical_fail_ids filter]. rewrite (IH Hfs).
  destruct f as [| | | | | |d]; try discriminate.
  rewrite is_critical_fail_dict. cbn [bind].
  unfold malformed_entry in Hf. cbn [is_dict negb orb] in Hf.
  destruct (critical_fail_entry (VDict d)); [|reflexivity].
  cbn [andb finding_entry] in Hf. unfold ad_mem in Hf.
  cbn [py_index entry_id map]. unfold ad_get_default.
  destruct (ad_get d "control_id"); [reflexivity | discriminate].
Qed.

Lemma filter_nonempty {A : Type} (f : A -> bool) (l : list A) :
  existsb f l = true -> filter f l <> [].
Proof.
  induction l as [|x l IH]; cbn [existsb filter]; [discriminate|].
  destruct (f x); [discriminate | exact IH].
Qed.

Lemma extract_critical_fails_found (w : world) (p : string) (fs : list value) :
  p <> "" ->
  artifact_findings w p fs ->
  existsb malformed_entry fs = false ->
  _extract_critical_fails (VStr p) w = Ok (map entry_id (filter critical_fail_entry fs)).
Proof.
  intros Hp (Hex & data & Hread & Hfs) Hall. unfold _extract_critical_fails.
  cbn [truthy]. destruct (String.eqb_spec p ""); [contradiction|].
  cbn [negb as_path bind]. rewrite Hex, Hread. cbn [negb json_loads bind py_get].
  rewrite Hfs. cbn [py_iter bind]. now rewrite (critical_fail_ids_entries fs Hall).
Qed.

Lemma run_unfold (env org : string) (dry_run approve : bool) (task : option string)
    (w0 w1 : world) (st : state) :
  loop_phase (task_of env org dry_run task) org w0 = (Ok st, w1) ->
  run env org dry_run approve task w0
  = match gate_phase env org dry_run approve (build_client w0) st w1 with
    | (Returned st', evs) =>
        (Returned tt, evs ++ [WriteLoopResult org (result_of env org dry_run st')], w1)
    | (Raised e, evs) => (Raised e, evs, w1)
    | (Exited c, evs) => (Exited c, evs, w1)
    end.
Proof.
  intros Hl. unfold run, _run_loop. fold (task_of env org dry_run task). rewrite Hl.
  destruct (gate_phase _ _ _ _ _ _ _) as [[st'|e|c] evs]; reflexivity.
Qed.

Lemma save_assessment_strs (org assessment_id : string) (sc : float) (cf : list value)
    (w : world) :
  existsb (fun v => negb (is_str v)) (firstn 5 cf) = false ->
  save_assessment org assessment_id sc cf w = Ok (stored w org assessment_id sc cf).
Proof.
  intros Hs. unfold save_assessment, stored. rewrite Hs.
  destruct (client_add w org assessment_id sc cf); reflexivity.
Qed.

(** C1 (as amended). A run whose loop ends with a gap-analysis artifact
    that the gate can read (a JSON object whose findings are objects, the
    critical/fail ones with a control_id) and that holds at least one
    finding with status fail and severity critical, started without
    --dry-run and without --approve-critical, leaves through [sys.exit(2)]
    and has persisted nothing: neither the memory summary nor
    loop_result.json. *)
Theorem critical_fail_gate_blocks
    (env org : string) (task : option string) (w0 w1 : world) (st : state)
    (p : string) (fs : list value) :
  loop_phase (task_of env org false task) org w0 = (Ok st, w1) ->
  st.(gap_analysis) = VStr p ->
  artifact_findings w1 p fs ->
  existsb malformed_entry fs = false ->
  existsb critical_fail_entry fs = true ->
  run env org false false task w0 = (Exited 2, [], w1)
  /\ exit_code (fst (fst (run env org false false task w0))) = 2%Z.
Proof.
  intros Hloop Hgap Hart Hall Hcrit.
  assert (Hrun : run env org false false task w0 = (Exited 2, [], w1)).
  { rewrite (run_unfold _ _ _ _ _ _ _ _ Hloop). unfold gate_phase.
    destruct (loop_phase_ok _ _ _ _ _ Hloop) as (Hg & _ & Hs).
    rewrite Hgap in Hg |- *.
    assert (Hp : p <> "").
    { cbn [path_like] in Hg. intros ->. discriminate Hg. }
    rewrite (extract_critical_fails_found w1 p fs Hp Hart Hall).
    destruct (extract_score_returns _ w1 Hs) as [sc ->].
    pose proof (filter_nonempty _ _ Hcrit) as Hne.
    destruct (filter critical_fail_entry fs); [contradiction | reflexivity]. }
  rewrite Hrun. split; reflexivity.
Qed.

(** *** An artifact that cannot be read *)

Lemma critical_fail_ids_malformed (fs : list value) :
  existsb malformed_entry fs = true -> exists e, critical_fail_ids fs = Raise e.
Proof.
  induction fs as [|f fs IH]; cbn [existsb]; [discriminate|].
  intros Hex. cbn [critical_fail_ids].
  destruct f as [| | | | | |d]; try (eexists; reflexivity).
  rewrite is_critical_fail_dict. cbn [bind].
  unfold malformed_entry in Hex at 1. cbn [is_dict negb orb] in Hex.
  destruct (critical_fail_entry (VDict d)).
  - cbn [py_index]. cbn [finding_entry andb] in Hex. unfold ad_mem in Hex.
    destruct (ad_get d "control_id"); cbn [bind]; [|eexists; reflexivity].
    cbn [negb orb] in Hex. destruct (IH Hex) as [e ->]. eexists; reflexivity.
  - cbn [andb orb] in Hex. exact (IH Hex).
Qed.

Lemma extract_critical_fails_unreadable (w : world) (p : value) :
  unreadable_artifact w p -> _extract_critical_fails p w = Ok [].
Proof.
  intros Hu. unfold _extract_critical_fails.
  destruct (negb (truthy p)) eqn:Ht; [reflexivity|].
  destruct Hu as [p Hp | s Hm | s e Hr | s t Hr | s v Hr Hv | s d e Hr Hi | s d fs Hr Hi Hm];
    try (rewrite Hp in Ht; discriminate Ht);
    cbn [as_path bind];
    destruct (negb (path_exists w s)) eqn:Hex; try reflexivity;
    try (rewrite Hm in Hex; discriminate Hex);
    rewrite Hr; cbn [bind json_loads try_except]; try reflexivity.
  - destruct v; try discriminate Hv; reflexivity.
  - cbn [py_get bind]. rewrite Hi. reflexivity.
  - cbn [py_get bind]. rewrite Hi. cbn [bind].
    destruct (critical_fail_ids_malformed fs Hm) as [e ->]. reflexivity.
Qed.

(** C9. When the tracked gap-analysis path is unset, names no file, or
    names a file that cannot be read, is not JSON, is not an object, or
    whose findings trip the comprehension, [_extract_critical_fails]
    returns the empty list; the gate then lets the run through whatever
    the flags are: the memory summary (when the memory client was built
    and the store accepts it) and loop_result.json are written with no
    critical fail and the command returns. *)
Theorem unreadable_artifact_passes_the_gate
    (env org : string) (dry_run approve : bool) (task : option string)
    (w0 w1 : world) (st : state) :
  loop_phase (task_of env org dry_run task) org w0 = (Ok st, w1) ->
  unreadable_artifact w1 st.(gap_analysis) ->
  _extract_critical_fails st.(gap_analysis) w1 = Ok []
  /\ exists sc,
       run env org dry_run approve task w0
       = (Returned tt,
          (if build_client w0
           then stored w1 org ("sfdc-assess-" ++ org ++ "-" ++ env ++ "-loop") sc []
           else [])
          ++ [WriteLoopResult org
                {| lr_org := org;
                   lr_env := env;
                   lr_dry_run := dry_run;
                   lr_turns := st.(turns);
                   lr_overall_score := sc;
                   lr_critical_fails := [];
                   lr_gap_analysis := st.(gap_analysis);
                   lr_backlog := st.(backlog);
                   lr_sscf_report := st.(sscf_report);
                   lr_summary := match st.(summary) with
                                 | Some t => t
                                 | None => ""
                                 end |}],
          w1).
Proof.
  intros Hloop Hu.
  pose proof (extract_critical_fails_unreadable w1 _ Hu) as Hcf.
  split; [exact Hcf|].
  destruct (loop_phase_ok _ _ _ _ _ Hloop) as (_ & _ & Hs).
  destruct (extract_score_returns _ w1 Hs) as [sc Hsc].
  exists sc. rewrite (run_unfold _ _ _ _ _ _ _ _ Hloop). unfold gate_phase.
  rewrite Hcf, Hsc. cbn [is_empty negb andb].
  destruct (build_client w0); [|reflexivity].
  rewrite save_assessment_strs by reflexivity. reflexivity.
Qed.

(** *** Where a run stands *)

Lemma run_from_step (c1 c2 : config) : turn_step c1 c2 -> run_from c1 = run_from c2.
Proof.
  intros Hs. destruct Hs as [fuel turn messages st st' w w1 w2 resp trs Hc Hr Hp].
  unfold run_from. cbn [c_fuel c_turn c_messages c_state c_world agent_turns].
  rewrite Hc, Hr, Hp. reflexivity.
Qed.

Lemma run_from_reaches (c c' : config) : reaches c c' -> run_from c = run_from c'.
Proof.
  induction 1 as [|c1 c2 _ IH Hs]; [reflexivity|].
  rewrite IH. now apply run_from_step.
Qed.

Lemma process_blocks_app (pre post : list block) (st : state)
    (trs : list tool_result) (w : world) :
  process_blocks (pre ++ post) st trs w
  = match process_blocks pre st trs w with
    | (Raise e, w') => (Raise e, w')
    | (Ok (st', trs'), w') => process_blocks post st' trs' w'
    end.
Proof.
  revert st trs w. induction pre as [|b pre IH]; intros st trs w; cbn [app process_blocks].
  - reflexivity.
  - destruct (process_block st trs b w) as [[[st1 trs1]|e] w1]; [apply IH | reflexivity].
Qed.

Lemma run_raises (env org : string) (dry_run approve : bool) (task : option string)
    (w0 w : world) (e : exn) :
  loop_phase (task_of env org dry_run task) org w0 = (Raise e, w) ->
  run env org dry_run approve task w0 = (Raised e, [], w).
Proof.
  intros Hl. unfold run, _run_loop. fold (task_of env org dry_run task).
  now rewrite Hl.
Qed.

(** C2. Wherever a run stands, when the dispatch of a requested tool
    fails: for sfdc_connect_collect and oscal_assess_assess the whole
    command ends at once with a RuntimeError whose message names the tool
    and carries the cause, no further tool or model call is made and
    nothing is persisted; for any other tool the failure becomes the JSON
    payload [{"status": "error", "tool": name, "message": str(error)}],
    which is appended to the tool results of the turn while the remaining
    blocks are processed from the same state. *)
Theorem tool_failure_two_tier_policy
    (env org : string) (dry_run approve : bool) (task : option string) (w0 : world)
    (fuel turn : nat) (messages : list message) (st : state) (w w1 w2 w3 : world)
    (resp : response) (pre post : list block) (id name : string) (input : value)
    (st1 : state) (trs1 : list tool_result) (exc : exn) :
  reaches (start (task_of env org dry_run task) org w0)
          (Config (S fuel) turn messages st w) ->
  messages_create messages w = (Ok resp, w1) ->
  resp.(stop_reason) = "tool_use" ->
  resp.(content) = pre ++ ToolUseBlock id name input :: post ->
  process_blocks pre (set_turns st (turn + 1)) [] w1 = (Ok (st1, trs1), w2) ->
  dispatch name input w2 = (Raise exc, w3) ->
  (name = "sfdc_connect_collect" \/ name = "oscal_assess_assess" ->
   run env org dry_run approve task w0
   = (Raised (Exn RuntimeError
                ("Critical tool '" ++ name
                 ++ "' failed — aborting to prevent false-pass assessment."
                 ++ String "010" "" ++ exc.(exn_msg))),
      [], w3))
  /\ (name <> "sfdc_connect_collect" -> name <> "oscal_assess_assess" ->
      let payload :=
        Json (VDict [("status", VStr "error"); ("tool", VStr name);
                     ("message", VStr exc.(exn_msg))]) in
      _handle_tool_error name input exc = Ok payload
      /\ process_blocks resp.(content) (set_turns st (turn + 1)) [] w1
         = process_blocks post st1 (trs1 ++ [ToolResult id payload]) w3).
Proof.
  intros Hreach Hcreate Hstop Hcontent Hpre Hdisp.
  assert (Hcrit : is_critical_tool name = true
                  <-> name = "sfdc_connect_collect" \/ name = "oscal_assess_assess").
  { unfold is_critical_tool, _CRITICAL_TOOLS. cbn [existsb].
    rewrite !orb_true_iff, !String.eqb_eq. intuition discriminate. }
  assert (Hblocks :
    process_blocks resp.(content) (set_turns st (turn + 1)) [] w1
    = match process_block st1 trs1 (ToolUseBlock id name input) w2 with
      | (Raise e, w') => (Raise e, w')
      | (Ok (st', trs'), w') => process_blocks post st' trs' w'
      end).
  { rewrite Hcontent, process_blocks_app, Hpre. reflexivity. }
  cbn [process_block] in Hblocks. rewrite Hdisp in Hblocks.
  unfold _handle_tool_error in Hblocks |- *.
  split; intros Hname.
  - apply Hcrit in Hname. rewrite Hname in Hblocks.
    apply run_raises. unfold loop_phase.
    change (run_from (start (task_of env org dry_run task) org w0)
            = (Raise (Exn RuntimeError (critical_tool_message name exc)), w3)).
    rewrite (run_from_reaches _ _ Hreach). unfold run_from.
    cbn [c_fuel c_turn c_messages c_state c_world agent_turns].
    rewrite Hcreate, Hstop, Hblocks. reflexivity.
  - intros Hname'.
    assert (Hc : is_critical_tool name = false).
    { apply not_true_is_false. intros Ht. apply Hcrit in Ht. tauto. }
    rewrite Hc in Hblocks |- *. split; [reflexivity|]. exact Hblocks.
Qed.

End LoopFacts.

(* ------------------------------------------------------------------ *)
(** ** The orchestration loop in scripted worlds *)

Section LoopInstances.
Import Loop.

Lemma critical_fail_gate_witness :
  exists st,
    @loop_phase plain_builtins blocked_env
      (@task_of "dev" "test-org" false None) "test-org" 0%nat = (Ok st, 2%nat)
    /\ st.(gap_analysis) = VStr "generated/oscal_assess_assess.json"
    /\ @artifact_findings blocked_env 2%nat "generated/oscal_assess_assess.json" sample_findings
    /\ existsb malformed_entry sample_findings = false
    /\ existsb critical_fail_entry sample_findings = true
    /\ @run plain_builtins blocked_env "dev" "test-org" false false None 0%nat
       = (Exited 2, [], 2%nat).
Proof.
  eexists.
  assert (Hl : @loop_phase plain_builtins blocked_env
                 (@task_of "dev" "test-org" false None) "test-org" 0%nat
               = (Ok _, 2%nat)) by (vm_compute; reflexivity).
  assert (Ha : @artifact_findings blocked_env 2%nat "generated/oscal_assess_assess.json"
                 sample_findings)
    by (split; [reflexivity | eexists; split; reflexivity]).
  split; [exact Hl|]. split; [reflexivity|]. split; [exact Ha|].
  split; [reflexivity|]. split; [reflexivity|].
  exact (proj1 (@critical_fail_gate_blocks plain_builtins blocked_env
                  "dev" "test-org" None 0%nat 2%nat _
                  "generated/oscal_assess_assess.json" sample_findings
                  Hl eq_refl Ha eq_refl eq_refl)).
Defined.

Lemma unreadable_artifact_witness :
  exists st sc,
    @loop_phase plain_builtins lost_artifact_env
      (@task_of "dev" "test-org" false None) "test-org" 0%nat = (Ok st, 2%nat)
    /\ @unreadable_artifact lost_artifact_env 2%nat st.(gap_analysis)
    /\ @run plain_builtins lost_artifact_env "dev" "test-org" false false None 0%nat
       = (Returned tt,
          [SaveAssessment "test-org" "sfdc-assess-test-org-dev-loop" sc [];
           WriteLoopResult "test-org"
             {| lr_org := "test-org";
                lr_env := "dev";
                lr_dry_run := false;
                lr_turns := 2;
                lr_overall_score := sc;
                lr_critical_fails := [];
                lr_gap_analysis := VStr "generated/oscal_assess_assess.json";
                lr_backlog := VNone;
                lr_sscf_report := VNone;
                lr_summary := "Assessment complete." |}],
          2%nat).
Proof.
  eexists.
  assert (Hl : @loop_phase plain_builtins lost_artifact_env
                 (@task_of "dev" "test-org" false None) "test-org" 0%nat
               = (Ok _, 2%nat)) by (vm_compute; reflexivity).
  assert (Hu : @unreadable_artifact lost_artifact_env 2%nat
                 (VStr "generated/oscal_assess_assess.json"))
    by (apply file_missing; reflexivity).
  destruct (@unreadable_artifact_passes_the_gate plain_builtins lost_artifact_env
              "dev" "test-org" false false None 0%nat 2%nat _ Hl Hu) as [_ [sc Hrun]].
  exists sc. split; [exact Hl|]. split; [exact Hu|]. exact Hrun.
Defined.

Lemma tool_failure_witness :
  let input := VDict [("dry_run", VBool true)] in
  let resp := Response "tool_use" [ToolUseBlock "call_001" "oscal_assess_assess" input] in
  let exc := Exn RuntimeError "Tool 'python' failed (exit 1)" in
  let task := @task_of "dev" "test-org" false None in
  @messages_create failing_assess_env
    (@initial_messages failing_assess_env task "test-org" 0%nat) 0%nat = (Ok resp, 1%nat)
  /\ @dispatch plain_builtins failing_assess_env "oscal_assess_assess" input 1%nat
     = (Raise exc, 1%nat)
  /\ @run plain_builtins failing_assess_env "dev" "test-org" false false None 0%nat
     = (Raised (Exn RuntimeError
                  ("Critical tool 'oscal_assess_assess' failed — aborting to prevent false-pass assessment."
                   ++ String "010" "" ++ "Tool 'python' failed (exit 1)")),
        [], 1%nat).
Proof.
  intros input resp exc task.
  assert (Hc : @messages_create failing_assess_env
                 (@initial_messages failing_assess_env task "test-org" 0%nat) 0%nat
               = (Ok resp, 1%nat)) by reflexivity.
  assert (Hd : @dispatch plain_builtins failing_assess_env "oscal_assess_assess" input 1%nat
               = (Raise exc, 1%nat)) by reflexivity.
  assert (Hin : "oscal_assess_assess" = "sfdc_connect_collect"
                \/ "oscal_assess_assess" = "oscal_assess_assess") by (right; reflexivity).
  split; [exact Hc|]. split; [exact Hd|].
  exact (proj1 (@tool_failure_two_tier_policy plain_builtins failing_assess_env
                  "dev" "test-org" false false None 0%nat
                  19 0 _ init_state 0%nat 1%nat 1%nat 1%nat resp [] []
                  "call_001" "oscal_assess_assess" input _ [] exc
                  (@reaches_here plain_builtins failing_assess_env _) Hc eq_refl eq_refl eq_refl Hd) Hin).
Defined.

(** C1 as stated fails: the artifact holds a critical/fail finding, but
    one entry of its findings is not an object; the comprehension of
    [_extract_critical_fails] raises on it, the gate sees no critical fail
    and the run, without --dry-run and without --approve-critical, returns
    with the memory summary and loop_result.json written. *)
Lemma malformed_entry_opens_the_gate :
  @artifact_findings masked_env 2%nat "generated/oscal_assess_assess.json" masked_findings
  /\ existsb critical_fail_entry masked_findings = true
  /\ @_extract_critical_fails masked_env (VStr "generated/oscal_assess_assess.json") 2%nat
     = Ok []
  /\ @run plain_builtins masked_env "dev" "test-org" false false None 0%nat
     = (Returned tt,
        [ SaveAssessment "test-org" "sfdc-assess-test-org-dev-loop" (Finite 0) [];
          WriteLoopResult "test-org"
            {| lr_org := "test-org"; lr_env := "dev"; lr_dry_run := false; lr_turns := 2;
               lr_overall_score := Finite 0; lr_critical_fails := [];
               lr_gap_analysis := VStr "generated/oscal_assess_assess.json";
               lr_backlog := VNone; lr_sscf_report := VNone;
               lr_summary := "Assessment complete." |} ],
        2%nat)
  /\ exit_code (fst (fst (@run plain_builtins masked_env "dev" "test-org" false false None
                            0%nat))) = 0%Z.
Proof.
  split; [split; [reflexivity | eexists; split; reflexivity]|].
  split; [reflexivity|]. split; [reflexivity|].
  split; vm_compute; reflexivity.
Qed.

(** With --approve-critical the same run goes through the gate and
    persists the memory summary and the result record, both naming the
    critical fail. *)
Example approved_run_completes :
  match @run plain_builtins blocked_env "dev" "test-org" false true None 0%nat with
  | (Returned tt, [SaveAssessment org _ _ cf; WriteLoopResult _ lr], _) =>
      org = "test-org" /\ cf = [VStr "SBS-AUTH-001"] /\ lr.(lr_critical_fails) = cf
      /\ lr.(lr_turns) = 2%nat
  | _ => False
  end.
Proof. vm_compute. repeat split. Qed.

(** A failing mapper is reported to the model and the run goes on. *)
Example downstream_failure_is_reported :
  let env := scripted
               [ Response "tool_use"
                   [ToolUseBlock "call_001" "oscal_gap_map"
                      (VDict [("gap_analysis", VStr "generated/gap_analysis.json")])];
                 Response "end_turn" [TextBlock "Partial results."] ]
               [] ["oscal_gap_map"] in
  @process_block plain_builtins env init_state []
    (ToolUseBlock "call_001" "oscal_gap_map"
       (VDict [("gap_analysis", VStr "generated/gap_analysis.json")])) 1%nat
  = (Ok (init_state,
         [ToolResult "call_001"
            (Json (VDict [("status", VStr "error"); ("tool", VStr "oscal_gap_map");
                          ("message", VStr "Tool 'python' failed (exit 1)")]))]), 1%nat)
  /\ match @run plain_builtins env "dev" "test-org" false false None 0%nat with
     | (Returned tt, [SaveAssessment _ _ _ cf; WriteLoopResult _ lr], w) =>
         cf = [] /\ lr.(lr_turns) = 2%nat /\ lr.(lr_summary) = "Partial results."
         /\ w = 2%nat
     | _ => False
     end.
Proof. split; [reflexivity|]. vm_compute. repeat split. Qed.

End LoopInstances.

(* ------------------------------------------------------------------ *)
(** ** The scorecard as a whole *)

Section BenchmarkReportFacts.
Import Benchmark.

Lemma py_round4_unit (x : Q) : 0 <= x -> x <= 1 -> unit_score (py_round4 x).
Proof.
  intros H0 H1. unfold py_round4.
  set (n := round_half_even (x * 10000)).
  assert (Hn : (0 <= n <= 10000)%Z).
  { unfold n. split.
    - apply round_nonneg. lra.
    - pose proof (round_half_even_mono (x * 10000) (inject_Z 10000)) as Hm.
      rewrite round_half_even_Z in Hm. apply Hm.
      change (inject_Z 10000) with 10000%Q. lra. }
  assert (Hq : Qred (n # 10000) == n # 10000) by apply Qred_correct.
  unfold unit_score. split; [|split].
  - rewrite Hq. unfold Qle; simpl. lia.
  - rewrite Hq. unfold Qle; simpl. lia.
  - exists n. split; [exact Hn | reflexivity].
Qed.

Lemma score_findings_unit (items : list item) : unit_score (snd (_score_findings items)).
Proof.
  rewrite score_findings_counts. cbn [snd].
  destruct (_ =? 0)%nat eqn:E.
  - apply py_round4_unit; lra.
  - apply Nat.eqb_neq in E. destruct (weighted_average_unit _ _ _ E) as [H0 H1].
    destruct (to_double_unit _ H0 H1). unfold float_div.
    apply py_round4_unit; assumption.
Qed.


Lemma run_benchmark_parts (b : backlog) (idx : adict ctrl) (thr : Q) :
  let st := fold_left (distribute idx) b.(mapped_items)
              (fold_left register_control (map snd idx) [], []) in
  let r := run_benchmark b idx thr in
  r.(domains) = map (score_domain idx thr) (sorted_items (fst st))
  /\ r.(unmatched_findings) = length (snd st)
  /\ r.(overall_score)
     = py_round4 (snd (_score_findings
                         (concat (map (fun d => concat (map snd (snd d))) (fst st)))))
  /\ r.(total_domains) = length r.(domains)
  /\ r.(domains_green) = count_status "green" r.(domains)
  /\ r.(domains_amber) = count_status "amber" r.(domains)
  /\ r.(domains_red) = count_status "red" r.(domains).
Proof.
  unfold run_benchmark.
  destruct (fold_left (distribute idx) (mapped_items b) _) as [dc un].
  destruct (_score_findings _) as [[[[p0 r0] f0] n0] sc0].
  repeat split.
Qed.

(** X1. Every score of a report lies between 0 and 1 and has at most
    four decimals: the overall score and the score of each domain are
    n/10000 for an integer n between 0 and 10000. *)
Theorem report_scores_in_unit_interval (b : backlog) (idx : adict ctrl) (thr : Q) :
  let r := run_benchmark b idx thr in
  unit_score r.(overall_score) /\ Forall (fun dr => unit_score dr.(dr_score)) r.(domains).
Proof.
  intros r. destruct (run_benchmark_parts b idx thr) as (Hd & _ & Hs & _).
  fold r in Hd, Hs. split.
  - rewrite Hs, score_findings_rounded. apply score_findings_unit.
  - rewrite Hd. apply Forall_forall. intros dr Hin.
    apply in_map_iff in Hin. destruct Hin as [entry [<- _]].
    destruct (score_domain_fields idx thr entry) as [Hf _].
    apply (f_equal snd) in Hf. cbn [snd] in Hf. rewrite <- Hf.
    apply score_findings_unit.
Qed.





Lemma domain_status_cases (score thr : Q) :
  _domain_status score thr = "green" \/ _domain_status score thr = "amber"
  \/ _domain_status score thr = "red".
Proof.
  unfold _domain_status.
  destruct (Qle_bool thr score); [auto|].
  destruct (Qle_bool (1 # 2) score); auto.
Qed.

Lemma count_status_partition (drs : list domain_result) :
  Forall (fun dr => dr.(dr_status) = "green" \/ dr.(dr_status) = "amber"
                    \/ dr.(dr_status) = "red") drs ->
  (count_status "green" drs + count_status "amber" drs + count_status "red" drs
   = length drs)%nat.
Proof.
  unfold count_status. induction 1 as [|dr drs Hdr _ IH]; cbn [filter length].
  - reflexivity.
  - destruct Hdr as [-> | [-> | ->]]; simpl; lia.
Qed.

(** X3. The summary of a report adds up: total_domains is the number of
    domain entries, and the green, amber and red counts sum to it (the
    status of a domain is always one of the three). *)
Theorem summary_counts_add_up (b : backlog) (idx : adict ctrl) (thr : Q) :
  let r := run_benchmark b idx thr in
  r.(total_domains) = length r.(domains)
  /\ (r.(domains_green) + r.(domains_amber) + r.(domains_red) = r.(total_domains))%nat.
Proof.
  intros r.
  destruct (run_benchmark_parts b idx thr) as (Hd & _ & _ & Ht & Hg & Ha & Hr).
  fold r in Hd, Ht, Hg, Ha, Hr. split; [exact Ht|].
  rewrite Hg, Ha, Hr, Ht. apply count_status_partition.
  rewrite Hd. apply Forall_forall. intros dr Hin.
  apply in_map_iff in Hin. destruct Hin as [entry [<- _]].
  destruct (score_domain_fields idx thr entry) as [_ ->].
  apply domain_status_cases.
Qed.


(** *** Sums over dictionaries *)

Lemma sum_of_ad_set {V : Type} (f : V -> nat) (d : adict V) (k : string) (v : V) :
  (sum_of (fun kv => f (snd kv)) (ad_set d k v)
   + match ad_get d k with Some o => f o | None => 0 end
   = sum_of (fun kv => f (snd kv)) d + f v)%nat.
Proof.
  induction d as [|[k' v'] r IH]; cbn [ad_set ad_get sum_of snd].
  - lia.
  - destruct (k' =? k); cbn [sum_of snd]; lia.
Qed.

Lemma sum_of_insert_by_key {V : Type} (f : string * V -> nat) (kv : string * V)
    (l : adict V) :
  sum_of f (insert_by_key kv l) = (f kv + sum_of f l)%nat.
Proof.
  induction l as [|x r IH]; cbn [insert_by_key sum_of].
  - reflexivity.
  - destruct (String.leb (fst kv) (fst x)); cbn [sum_of]; lia.
Qed.

Lemma sum_of_sorted_items {V : Type} (f : string * V -> nat) (d : adict V) :
  sum_of f (sorted_items d) = sum_of f d.
Proof.
  unfold sorted_items. induction d as [|x r IH]; cbn [fold_right sum_of].
  - reflexivity.
  - rewrite sum_of_insert_by_key, IH. reflexivity.
Qed.

Lemma sum_of_map {A B : Type} (f : B -> nat) (g : A -> B) (l : list A) :
  sum_of f (map g l) = sum_of (fun a => f (g a)) l.
Proof. induction l as [|a r IH]; cbn [map sum_of]; [reflexivity | now rewrite IH]. Qed.

Lemma sum_of_ext {A : Type} (f g : A -> nat) (l : list A) :
  (forall a, f a = g a) -> sum_of f l = sum_of g l.
Proof.
  intros E. induction l as [|a r IH]; cbn [sum_of]; [reflexivity | now rewrite E, IH].
Qed.

Lemma length_concat_values {A : Type} (d : adict (list A)) :
  length (concat (map snd d)) = sum_of (fun kv => length (snd kv)) d.
Proof.
  induction d as [|[k v] r IH]; cbn [map concat sum_of snd]; [reflexivity|].
  now rewrite length_app, IH.
Qed.

(** *** Filing the items *)

Lemma place_item_placements (dc : adict (adict (list item))) (dom cid : string) (it : item) :
  placements (place_item dc dom cid it) = S (placements dc).
Proof.
  unfold place_item, placements, ad_get_default.
  pose proof (sum_of_ad_set placed_in dc dom) as Hd.
  destruct (ad_get dc dom) as [inner|].
  - pose proof (sum_of_ad_set (@length item) inner cid) as Hi.
    destruct (ad_get inner cid) as [items|].
    + specialize (Hi (items ++ [it])). specialize (Hd (ad_set inner cid (items ++ [it]))).
      rewrite length_app in Hi. cbn [length] in Hi. unfold placed_in in *. lia.
    + specialize (Hi ([] ++ [it])). specialize (Hd (ad_set inner cid ([] ++ [it]))).
      cbn [app length] in Hi, Hd |- *. unfold placed_in in *. lia.
  - specialize (Hd (ad_set [] cid ([] ++ [it]))). cbn in Hd |- *. lia.
Qed.

Lemma register_control_placements (dc : adict (adict (list item))) (c : ctrl) :
  (placements (register_control dc c) <= placements dc)%nat.
Proof.
  unfold register_control, placements, ad_get_default.
  pose proof (sum_of_ad_set placed_in dc c.(domain)) as Hd.
  destruct (ad_get dc (domain c)) as [inner|].
  - pose proof (sum_of_ad_set (@length item) inner c.(sscf_control_id) []) as Hi.
    specialize (Hd (ad_set inner c.(sscf_control_id) [])).
    cbn [length] in Hi. unfold placed_in in *. lia.
  - specialize (Hd (ad_set [] c.(sscf_control_id) [])). cbn in Hd |- *. lia.
Qed.

Lemma registered_placements (cs : list ctrl) (dc : adict (adict (list item))) :
  placements dc = 0%nat -> placements (fold_left register_control cs dc) = 0%nat.
Proof.
  revert dc. induction cs as [|c cs IH]; intros dc H0; cbn [fold_left]; [exact H0|].
  apply IH. pose proof (register_control_placements dc c). lia.
Qed.

Lemma distribute_ids (idx : adict ctrl) (it : item) (ids : list string)
    (dc : adict (adict (list item))) (placed : bool) :
  let out := fold_left (fun acc cid => distribute_item idx acc it cid) ids (dc, placed) in
  placements (fst out) = (placements dc + length (filter (ad_mem idx) ids))%nat
  /\ snd out = placed || negb (length (filter (ad_mem idx) ids) =? 0)%nat.
Proof.
  cbv zeta. revert dc placed.
  induction ids as [|cid ids IH]; intros dc placed; cbn [fold_left filter].
  - cbn [fst snd length Nat.eqb negb]. split; [lia | now rewrite orb_false_r].
  - destruct (ad_get idx cid) as [meta|] eqn:E.
    + replace (distribute_item idx (dc, placed) it cid)
        with (place_item dc meta.(domain) cid it, true)
        by (unfold distribute_item; rewrite E; reflexivity).
      replace (ad_mem idx cid) with true by (unfold ad_mem; now rewrite E).
      destruct (IH (place_item dc meta.(domain) cid it) true) as [Hp Hs].
      rewrite Hp, Hs, place_item_placements. cbn [length Nat.eqb negb].
      split; [lia | now rewrite orb_true_r].
    + replace (distribute_item idx (dc, placed) it cid) with (dc, placed)
        by (unfold distribute_item; rewrite E; reflexivity).
      replace (ad_mem idx cid) with false by (unfold ad_mem; now rewrite E).
      exact (IH dc placed).
Qed.

Lemma distribute_step (idx : adict ctrl) (st : adict (adict (list item)) * list item)
    (it : item) :
  placements (fst (distribute idx st it)) = (placements (fst st) + hits idx it)%nat
  /\ length (snd (distribute idx st it))
     = (length (snd st) + if (hits idx it =? 0)%nat then 1 else 0)%nat.
Proof.
  unfold distribute, hits.
  destruct (distribute_ids idx it it.(sscf_control_ids) (fst st) false) as [Hp Hs].
  cbv zeta in Hp, Hs.
  destruct (fold_left _ (sscf_control_ids it) (fst st, false)) as [dc placed].
  cbn [fst snd] in Hp, Hs. cbn [orb] in Hs. subst placed.
  destruct (length (filter (ad_mem idx) (sscf_control_ids it)) =? 0)%nat;
    cbn [negb fst snd]; split; try exact Hp; rewrite ?length_app; cbn [length]; lia.
Qed.

Lemma distribute_all (idx : adict ctrl) (items : list item)
    (st : adict (adict (list item)) * list item) :
  let out := fold_left (distribute idx) items st in
  placements (fst out) = (placements (fst st) + sum_of (hits idx) items)%nat
  /\ length (snd out)
     = (length (snd st) + length (filter (fun it => (hits idx it =? 0)%nat) items))%nat.
Proof.
  revert st. induction items as [|it items IH]; intros st; cbn [fold_left filter].
  - cbn [fst snd length sum_of]. split; lia.
  - destruct (IH (distribute idx st it)) as [Hp Hl]. cbv zeta in Hp, Hl.
    destruct (distribute_step idx st it) as [Hp1 Hl1].
    rewrite Hp, Hl, Hp1, Hl1. cbn [sum_of].
    destruct (hits idx it =? 0)%nat; cbn [length]; split; lia.
Qed.

Lemma score_domain_findings_count (idx : adict ctrl) (thr : Q)
    (entry : string * adict (list item)) :
  (score_domain idx thr entry).(dr_findings_count) = placed_in (snd entry)
  /\ (score_domain idx thr entry).(dr_domain) = fst entry.
Proof.
  destruct entry as [dom controls]. unfold score_domain.
  destruct (_score_findings _) as [[[[p r] f] n] sc]. cbn [dr_findings_count dr_domain fst snd].
  split; [|reflexivity].
  apply length_concat_values.
Qed.

(** X4. An item is filed once under each of its framework control ids
    that the index knows, without deduplication: the findings_count of all
    domains together is the total number of such ids over the mapped items,
    and unmatched_findings is the number of items none of whose ids is in
    the index. *)
Theorem items_fan_out_over_matching_controls (b : backlog) (idx : adict ctrl) (thr : Q) :
  let r := run_benchmark b idx thr in
  sum_of dr_findings_count r.(domains) = sum_of (hits idx) b.(mapped_items)
  /\ r.(unmatched_findings)
     = length (filter (fun it => (hits idx it =? 0)%nat) b.(mapped_items)).
Proof.
  intros r. destruct (run_benchmark_parts b idx thr) as (Hd & Hu & _).
  fold r in Hd, Hu.
  destruct (distribute_all idx b.(mapped_items)
              (fold_left register_control (map snd idx) [], [])) as [Hp Hl].
  cbv zeta in Hp, Hl. cbn [fst snd length] in Hp, Hl.
  rewrite registered_placements in Hp by reflexivity.
  split.
  - rewrite Hd, sum_of_map.
    rewrite (sum_of_ext _ (fun e => placed_in (snd e)))
      by (intros e; apply score_domain_findings_count).
    rewrite sum_of_sorted_items. exact Hp.
  - rewrite Hu. exact Hl.
Qed.


(** *** The keys of the domain table *)

Lemma keys_ad_set {V : Type} (d : adict V) (k : string) (v : V) (k' : string) :
  In k' (map fst (ad_set d k v)) <-> In k' (map fst d) \/ k' = k.
Proof.
  induction d as [|[k0 v0] r IH]; cbn [ad_set map fst In].
  - intuition.
  - destruct (String.eqb_spec k0 k) as [->|Hne]; cbn [map fst In].
    + intuition.
    + rewrite IH. intuition.
Qed.

Lemma nodup_keys_ad_set {V : Type} (d : adict V) (k : string) (v : V) :
  NoDup (map fst d) -> NoDup (map fst (ad_set d k v)).
Proof.
  induction d as [|[k0 v0] r IH]; cbn [ad_set map fst]; intros Hnd.
  - constructor; [intros [] | constructor].
  - inversion Hnd as [|? ? Hnotin Hr]; subst.
    destruct (String.eqb_spec k0 k) as [->|Hne]; cbn [map fst].
    + constructor; assumption.
    + constructor; [|auto]. rewrite keys_ad_set. intros [Hin | ->]; auto.
Qed.

Lemma keys_insert_by_key {V : Type} (kv : string * V) (l : adict V) (k : string) :
  In k (map fst (insert_by_key kv l)) <-> k = fst kv \/ In k (map fst l).
Proof.
  induction l as [|x r IH]; cbn [insert_by_key map In].
  - intuition.
  - destruct (String.leb (fst kv) (fst x)); cbn [map In].
    + intuition.
    + rewrite IH. intuition.
Qed.

Lemma nodup_keys_insert_by_key {V : Type} (kv : string * V) (l : adict V) :
  ~ In (fst kv) (map fst l) -> NoDup (map fst l) ->
  NoDup (map fst (insert_by_key kv l)).
Proof.
  induction l as [|x r IH]; cbn [insert_by_key map In]; intros Hnotin Hnd.
  - constructor; [intros [] | constructor].
  - destruct (String.leb (fst kv) (fst x)); cbn [map].
    + constructor; assumption.
    + inversion Hnd as [|? ? Hx Hr]; subst. constructor.
      * rewrite keys_insert_by_key. intros [E | Hin]; [|contradiction].
        apply Hnotin. left. exact E.
      * apply IH; [|exact Hr]. intros Hin. apply Hnotin. right. exact Hin.
Qed.

Lemma sorted_keys_insert_by_key {V : Type} (kv : string * V) (l : adict V) :
  Sorted (fun a b => String.leb a b = true) (map fst l) ->
  Sorted (fun a b => String.leb a b = true) (map fst (insert_by_key kv l)).
Proof.
  induction l as [|x r IH]; cbn [insert_by_key map]; intros Hs.
  - repeat constructor.
  - destruct (String.leb (fst kv) (fst x)) eqn:E; cbn [map].
    + constructor; [exact Hs | constructor; exact E].
    + apply Sorted_inv in Hs. destruct Hs as [Hr Hhd].
      constructor; [exact (IH Hr)|].
      assert (Hx : String.leb (fst x) (fst kv) = true).
      { destruct (String.leb_total (fst x) (fst kv)) as [Hle|Hle]; [exact Hle | congruence]. }
      destruct r as [|y r']; cbn [insert_by_key map].
      * constructor. exact Hx.
      * destruct (String.leb (fst kv) (fst y)); cbn [map]; constructor; [exact Hx|].
        inversion Hhd; assumption.
Qed.

Lemma sorted_items_keys {V : Type} (d : adict V) :
  Sorted (fun a b => String.leb a b = true) (map fst (sorted_items d))
  /\ (NoDup (map fst d) -> NoDup (map fst (sorted_items d)))
  /\ (forall k, In k (map fst (sorted_items d)) <-> In k (map fst d)).
Proof.
  unfold sorted_items. induction d as [|x r (Hs & Hn & Hi)]; cbn [fold_right map].
  - repeat split; auto; constructor.
  - split; [|split].
    + apply sorted_keys_insert_by_key. exact Hs.
    + intros Hnd. inversion Hnd as [|? ? Hx Hr]; subst.
      apply nodup_keys_insert_by_key; [rewrite Hi; exact Hx | auto].
    + intros k. rewrite keys_insert_by_key, Hi. cbn [In]. intuition.
Qed.

Lemma registered_keys (cs : list ctrl) (dc : adict (adict (list item))) :
  (NoDup (map fst dc) -> NoDup (map fst (fold_left register_control cs dc)))
  /\ forall d, In d (map fst (fold_left register_control cs dc))
               <-> In d (map fst dc) \/ In d (map domain cs).
Proof.
  revert dc. induction cs as [|c cs IH]; intros dc; cbn [fold_left map In].
  - intuition.
  - destruct (IH (register_control dc c)) as [Hn Hi]. split.
    + intros Hnd. apply Hn. apply nodup_keys_ad_set. exact Hnd.
    + intros d. rewrite Hi. unfold register_control. rewrite keys_ad_set. intuition.
Qed.

Lemma place_item_keys (dc : adict (adict (list item))) (dom cid : string) (it : item) :
  (NoDup (map fst dc) -> NoDup (map fst (place_item dc dom cid it)))
  /\ forall d, In d (map fst (place_item dc dom cid it)) <-> In d (map fst dc) \/ d = dom.
Proof.
  unfold place_item. split.
  - apply nodup_keys_ad_set.
  - intros d. apply keys_ad_set.
Qed.

Lemma in_index_domains (idx : adict ctrl) (cid : string) (meta : ctrl) :
  ad_get idx cid = Some meta -> In meta.(domain) (index_domains idx).
Proof.
  intros E. apply ad_get_In in E. unfold index_domains.
  apply in_map_iff. exists (cid, meta). split; [reflexivity | exact E].
Qed.

Lemma distribute_ids_keys (idx : adict ctrl) (it : item) (ids : list string)
    (dc : adict (adict (list item))) (placed : bool) :
  let out := fold_left (fun acc cid => distribute_item idx acc it cid) ids (dc, placed) in
  (NoDup (map fst dc) -> NoDup (map fst (fst out)))
  /\ (forall d, In d (map fst dc) -> In d (map fst (fst out)))
  /\ (forall d, In d (map fst (fst out)) -> In d (map fst dc) \/ In d (index_domains idx)).
Proof.
  cbv zeta. revert dc placed.
  induction ids as [|cid ids IH]; intros dc placed; cbn [fold_left fst].
  - intuition.
  - unfold distribute_item at 2 4 6. destruct (ad_get idx cid) as [meta|] eqn:E; cbn [fst].
    + destruct (IH (place_item dc meta.(domain) cid it) true) as (Hn & Hin & Hout).
      destruct (place_item_keys dc meta.(domain) cid it) as [Pn Pi].
      split; [|split].
      * intros Hnd. apply Hn, Pn, Hnd.
      * intros d Hd. apply Hin, Pi. left. exact Hd.
      * intros d Hd. apply Hout in Hd. destruct Hd as [Hd | Hd]; [|right; exact Hd].
        apply Pi in Hd. destruct Hd as [Hd | ->]; [left; exact Hd|].
        right. eapply in_index_domains. exact E.
    + destruct placed; exact (IH dc _).
Qed.

Lemma distribute_keys (idx : adict ctrl) (items : list item)
    (st : adict (adict (list item)) * list item) :
  let out := fold_left (distribute idx) items st in
  (NoDup (map fst (fst st)) -> NoDup (map fst (fst out)))
  /\ (forall d, In d (map fst (fst st)) -> In d (map fst (fst out)))
  /\ (forall d, In d (map fst (fst out))
                -> In d (map fst (fst st)) \/ In d (index_domains idx)).
Proof.
  cbv zeta. revert st. induction items as [|it items IH]; intros st; cbn [fold_left].
  - intuition.
  - destruct (IH (distribute idx st it)) as (Hn & Hin & Hout).
    assert (Hstep : fst (distribute idx st it)
                    = fst (fold_left (fun acc cid => distribute_item idx acc it cid)
                             it.(sscf_control_ids) (fst st, false))).
    { unfold distribute. destruct (fold_left _ (sscf_control_ids it) _) as [dc placed].
      destruct placed; reflexivity. }
    destruct (distribute_ids_keys idx it it.(sscf_control_ids) (fst st) false)
      as (Sn & Sin & Sout).
    cbv zeta in Sn, Sin, Sout. rewrite <- Hstep in Sn, Sin, Sout.
    split; [|split].
    + intros Hnd. apply Hn, Sn, Hnd.
    + intros d Hd. apply Hin, Sin, Hd.
    + intros d Hd. apply Hout in Hd. destruct Hd as [Hd | Hd]; [|right; exact Hd].
      apply Sout in Hd. exact Hd.
Qed.

(** X5. The domains of a report are exactly the domains the index
    names, each once, by ascending name, whatever the backlog holds. *)
Theorem report_domains_sorted_distinct_from_index
    (b : backlog) (idx : adict ctrl) (thr : Q) :
  let names := map dr_domain (run_benchmark b idx thr).(domains) in
  Sorted (fun a b => String.leb a b = true) names
  /\ NoDup names
  /\ forall d, In d names <-> In d (index_domains idx).
Proof.
  intros names. destruct (run_benchmark_parts b idx thr) as (Hd & _).
  set (dc0 := fold_left register_control (map snd idx) []) in *.
  set (st := fold_left (distribute idx) (mapped_items b) (dc0, [])) in *.
  assert (Hnames : names = map fst (sorted_items (fst st))).
  { unfold names. rewrite Hd, map_map. apply map_ext.
    intros e. apply score_domain_findings_count. }
  destruct (registered_keys (map snd idx) []) as [Rn Ri]. fold dc0 in Rn, Ri.
  destruct (distribute_keys idx (mapped_items b) (dc0, [])) as (Dn & Din & Dout).
  cbv zeta in Dn, Din, Dout. fold st in Dn, Din, Dout. cbn [fst] in Dn, Din, Dout.
  destruct (sorted_items_keys (fst st)) as (Ss & Sn & Si).
  assert (Hdom : forall d, In d (map fst dc0) <-> In d (index_domains idx)).
  { intros d. rewrite Ri. unfold index_domains. rewrite map_map. cbn [map In]. intuition. }
  rewrite Hnames. split; [exact Ss | split].
  - apply Sn, Dn, Rn. constructor.
  - intros d. rewrite Si. split.
    + intros Hin. apply Dout in Hin. destruct Hin as [Hin | Hin]; [apply Hdom|]; exact Hin.
    + intros Hin. apply Din, Hdom, Hin.
Qed.

(** *** The overall score *)

Lemma count_of_app (s : string) (l1 l2 : list item) :
  count_of s (l1 ++ l2) = (count_of s l1 + count_of s l2)%nat.
Proof. unfold count_of. now rewrite filter_app, length_app. Qed.

Lemma count_of_concat_map {A : Type} (s : string) (g : A -> list item) (l : list A) :
  count_of s (concat (map g l)) = sum_of (fun a => count_of s (g a)) l.
Proof.
  induction l as [|a r IH]; cbn [map concat sum_of]; [reflexivity|].
  now rewrite count_of_app, IH.
Qed.

Lemma score_domain_counts (idx : adict ctrl) (thr : Q) (entry : string * adict (list item)) :
  let dr := score_domain idx thr entry in
  let items := concat (map snd (snd entry)) in
  dr.(dr_pass) = count_of "pass" items
  /\ dr.(dr_partial) = count_of "partial" items
  /\ dr.(dr_fail) = count_of "fail" items.
Proof.
  intros dr items. destruct (score_domain_fields idx thr entry) as [Hf _].
  fold dr items in Hf. rewrite score_findings_counts in Hf. cbv zeta in Hf.
  injection Hf as Hp Hr Hfl _ _. auto.
Qed.

Lemma sum_of_domain_counts (idx : adict ctrl) (thr : Q) (dc : adict (adict (list item)))
    (s : string) (field : domain_result -> nat) :
  (forall e, field (score_domain idx thr e) = count_of s (concat (map snd (snd e)))) ->
  sum_of field (map (score_domain idx thr) (sorted_items dc))
  = count_of s (concat (map (fun d => concat (map snd (snd d))) dc)).
Proof.
  intros Hfield. rewrite sum_of_map, count_of_concat_map.
  rewrite (sum_of_ext (fun e => field (score_domain idx thr e))
             (fun e => count_of s (concat (map snd (snd e)))) _ Hfield).
  apply sum_of_sorted_items.
Qed.

(** X6. The overall score pools the findings of all domains: it is the
    scoring formula applied to the sums of the per-domain pass, partial and
    fail counts (an item filed under two domains counts twice), not the
    mean of the domain scores. *)
Theorem overall_score_pools_domain_counts (b : backlog) (idx : adict ctrl) (thr : Q) :
  let r := run_benchmark b idx thr in
  let P := sum_of dr_pass r.(domains) in
  let R := sum_of dr_partial r.(domains) in
  let F := sum_of dr_fail r.(domains) in
  r.(overall_score)
  = py_round4 (if (P + R + F =? 0)%nat then 1
               else float_div (Qnat P * 1 + Qnat R * (1 # 2)) (Qnat (P + R + F))).
Proof.
  intros r P R F. destruct (run_benchmark_parts b idx thr) as (Hd & _ & Hs & _).
  fold r in Hd, Hs. rewrite Hs, score_findings_rounded, score_findings_counts. cbn [snd].
  unfold P, R, F. rewrite Hd.
  rewrite (sum_of_domain_counts idx thr _ "pass" dr_pass)
    by (intros e; apply score_domain_counts).
  rewrite (sum_of_domain_counts idx thr _ "partial" dr_partial)
    by (intros e; apply score_domain_counts).
  rewrite (sum_of_domain_counts idx thr _ "fail" dr_fail)
    by (intros e; apply score_domain_counts).
  reflexivity.
Qed.

End BenchmarkReportFacts.

(* ------------------------------------------------------------------ *)
(** ** Order in the scorecard *)

Section BenchmarkOrderFacts.
Import Benchmark.

(** X7. Banding is monotone: a higher score never gets a worse band
    (red, then amber, then green), for every threshold. *)
Theorem band_is_monotone_in_the_score (s1 s2 thr : Q) :
  s1 <= s2 ->
  (band_rank (_domain_status s1 thr) <= band_rank (_domain_status s2 thr))%nat.
Proof.
  intros Hle. unfold _domain_status.
  destruct (Qle_bool thr s1) eqn:E1.
  - apply Qle_bool_iff in E1.
    assert (E2 : Qle_bool thr s2 = true) by (apply Qle_bool_iff; lra).
    rewrite E2. cbn. lia.
  - destruct (Qle_bool thr s2); [destruct (Qle_bool (1 # 2) s1); cbn; lia|].
    destruct (Qle_bool (1 # 2) s1) eqn:E3.
    + apply Qle_bool_iff in E3.
      assert (E4 : Qle_bool (1 # 2) s2 = true) by (apply Qle_bool_iff; lra).
      rewrite E4. cbn. lia.
    + destruct (Qle_bool (1 # 2) s2); cbn; lia.
Qed.

Lemma py_round4_mono (x y : Q) : x <= y -> py_round4 x <= py_round4 y.
Proof.
  intros Hle. unfold py_round4.
  assert (Hs : x * 10000 <= y * 10000) by lra.
  pose proof (round_half_even_mono _ _ Hs) as Hn.
  rewrite !Qred_correct. unfold Qle. cbn [Qnum Qden]. nia.
Qed.


Lemma count_of_middle (s : string) (pre post : list item) (x : item) :
  count_of s (pre ++ x :: post)
  = (count_of s (pre ++ post) + if (status x =? s)%string then 1 else 0)%nat.
Proof.
  unfold count_of. rewrite !filter_app, !length_app. cbn [filter].
  destruct (status x =? s); cbn [length]; lia.
Qed.

Lemma status_weight_cases (s : string) (a : nat) :
  status_weight s = Some a ->
  (s = "pass" /\ a = 2%nat) \/ (s = "partial" /\ a = 1%nat) \/ (s = "fail" /\ a = 0%nat).
Proof.
  unfold status_weight.
  destruct (String.eqb_spec s "pass"); [intros [= <-]; auto|].
  destruct (String.eqb_spec s "partial"); [intros [= <-]; auto|].
  destruct (String.eqb_spec s "fail"); [intros [= <-]; auto | discriminate].
Qed.

Lemma Qnat_le (a b : nat) : (a <= b)%nat -> Qnat a <= Qnat b.
Proof. intros Hle. unfold Qnat. rewrite <- Zle_Qle. lia. Qed.

Lemma weighted_average_mono (P R F P' R' F' : nat) :
  (P + R + F = P' + R' + F')%nat -> (P + R + F <> 0)%nat ->
  (2 * P + R <= 2 * P' + R')%nat ->
  float_div (Qnat P * 1 + Qnat R * (1 # 2)) (Qnat (P + R + F))
  <= float_div (Qnat P' * 1 + Qnat R' * (1 # 2)) (Qnat (P' + R' + F')).
Proof.
  intros Hsum Hne Hnum. unfold float_div.
  apply to_double_mono; [apply (weighted_average_unit P R F Hne)|].
  rewrite <- Hsum.
  assert (Hpos : 0 < Qnat (P + R + F)).
  { unfold Qnat. change 0 with (inject_Z 0). rewrite <- Zlt_Qlt. lia. }
  apply Qmult_le_compat_r; [|apply Qinv_le_0_compat; lra].
  pose proof (Qnat_le _ _ Hnum) as Hq.
  assert (E1 : Qnat (2 * P + R) == 2 * Qnat P + Qnat R).
  { unfold Qnat. rewrite Nat2Z.inj_add, Nat2Z.inj_mul, inject_Z_plus, inject_Z_mult.
    reflexivity. }
  assert (E2 : Qnat (2 * P' + R') == 2 * Qnat P' + Qnat R').
  { unfold Qnat. rewrite Nat2Z.inj_add, Nat2Z.inj_mul, inject_Z_plus, inject_Z_mult.
    reflexivity. }
  rewrite E1, E2 in Hq. lra.
Qed.

(** X8. Raising the status of one item among fail, partial and pass
    never lowers the score of the list it belongs to.  (Turning a
    not_applicable item into a scoreable one can: see the example below.) *)
Theorem improving_a_finding_never_lowers_the_score
    (pre post : list item) (it it' : item) (a b : nat) :
  status_weight it.(status) = Some a ->
  status_weight it'.(status) = Some b ->
  (a <= b)%nat ->
  snd (_score_findings (pre ++ it :: post)) <= snd (_score_findings (pre ++ it' :: post)).
Proof.
  intros Ha Hb Hle.
  rewrite !score_findings_counts. cbn [snd]. rewrite !count_of_middle.
  set (p0 := count_of "pass" (pre ++ post)).
  set (r0 := count_of "partial" (pre ++ post)).
  set (f0 := count_of "fail" (pre ++ post)).
  apply status_weight_cases in Ha, Hb.
  destruct Ha as [[Ea ->] | [[Ea ->] | [Ea ->]]];
    destruct Hb as [[Eb ->] | [[Eb ->] | [Eb ->]]];
    try lia; rewrite Ea, Eb; cbn [String.eqb Ascii.eqb Bool.eqb andb];
    repeat match goal with
           | |- context [(?n =? 0)%nat] =>
               let E := fresh "E" in
               destruct (n =? 0)%nat eqn:E; [apply Nat.eqb_eq in E; lia | clear E]
           end;
    apply py_round4_mono, weighted_average_mono; lia.
Qed.

End BenchmarkOrderFacts.

Section BenchmarkOrderInstances.
Import Benchmark.

Lemma band_monotone_witness :
  5 # 8 <= 17 # 20
  /\ (band_rank (_domain_status (5 # 8) (4 # 5))
      <= band_rank (_domain_status (17 # 20) (4 # 5)))%nat.
Proof.
  assert (Hle : 5 # 8 <= 17 # 20) by (unfold Qle; simpl; lia).
  exact (conj Hle (band_is_monotone_in_the_score (5 # 8) (17 # 20) (4 # 5) Hle)).
Defined.

Lemma improving_a_finding_witness :
  let pass := Item "pass" [] None None in
  let fail := Item "fail" [] None None in
  let partial := Item "partial" [] None None in
  status_weight fail.(status) = Some 0%nat
  /\ status_weight partial.(status) = Some 1%nat
  /\ (0 <= 1)%nat
  /\ snd (_score_findings ([pass] ++ fail :: [pass]))
     <= snd (_score_findings ([pass] ++ partial :: [pass])).
Proof.
  intros pass fail partial.
  assert (Ha : status_weight fail.(status) = Some 0%nat) by reflexivity.
  assert (Hb : status_weight partial.(status) = Some 1%nat) by reflexivity.
  assert (Hle : (0 <= 1)%nat) by lia.
  exact (conj Ha (conj Hb (conj Hle
           (improving_a_finding_never_lowers_the_score [pass] [pass] fail partial 0 1
              Ha Hb Hle)))).
Defined.

(** Turning a not_applicable item into a scoreable one can lower the score. *)
Example scoring_a_not_applicable_item_can_lower_the_score :
  snd (_score_findings [Item "pass" [] None None; Item "not_applicable" [] None None]) = 1
  /\ snd (_score_findings [Item "pass" [] None None; Item "partial" [] None None]) = 3 # 4.
Proof. split; reflexivity. Qed.

End BenchmarkOrderInstances.

(* ------------------------------------------------------------------ *)
(** ** The backlog the mapper writes *)

Section GapMapOutputFacts.
Import GapMap.
Context `{Builtins}.

Lemma findings_cases (gap : dict) :
  match ad_get_default gap "findings" (VList []) with
  | VList l => _findings gap = Ok (dict_rows l)
  | _ => _findings gap = Raise (Exn ValueError "")
  end.
Proof.
  unfold _findings. destruct (ad_get_default gap "findings" (VList [])); reflexivity.
Qed.

Lemma dict_rows_length (l : list value) : length (dict_rows l) = length (filter is_dict l).
Proof.
  unfold dict_rows. induction l as [|v l IH]; cbn [flat_map filter]; [reflexivity|].
  destruct v; cbn [is_dict app length]; auto.
Qed.

Lemma map_findings_lengths (cfg : config) (findings : list dict) :
  let out := map_findings cfg findings in
  (length out.(mapped_items) + length out.(unmapped_items)
   + length out.(invalid_mapping_entries) = length findings)%nat.
Proof.
  destruct (fold_map_finding cfg findings (Buckets [] [] []))
    as (ms & us & es & Hm & Hu & He & Fm & Fu & Fe).
  cbn [mapped_items unmapped_items invalid_mapping_entries app] in Hm, Hu, He.
  cbv zeta. unfold map_findings. cbn [mapped_items unmapped_items invalid_mapping_entries].
  rewrite length_map, Hm, Hu, He.
  rewrite <- (Forall2_length Fm), <- (Forall2_length Fu), <- (Forall2_length Fe).
  apply routed_to_lengths.
Qed.

Lemma confidences_sortable_cases (cs : list value) :
  confidences_sortable cs
  = if forallb is_none cs || forallb is_number cs || forallb is_str cs
    then Ok tt else Raise (Exn TypeError "").
Proof.
  unfold confidences_sortable.
  destruct (forallb hashable cs) eqn:Hh; cbn [negb]; [reflexivity|].
  assert (Hn : forall p : value -> bool,
             (forall v, p v = true -> hashable v = true) -> forallb p cs = false).
  { intros p Hp. destruct (forallb p cs) eqn:Hp'; [|reflexivity].
    rewrite <- Hh. symmetry. apply forallb_forall. intros v Hv.
    apply Hp. rewrite forallb_forall in Hp'. auto. }
  rewrite !Hn; [reflexivity| | |]; intros [] Hv; (reflexivity || discriminate).
Qed.

Lemma mapped_row_cases (m : mapped_item) :
  if row_ok m then exists row, mapped_row m = Ok row
  else exists e, mapped_row m = Raise e
                 /\ (e.(exn_kind) = TypeError \/ e.(exn_kind) = AttributeError).
Proof.
  unfold row_ok, mapped_row, str_join.
  destruct (forallb is_str (mi_sscf_control_ids m)); cbn [andb bind].
  - destruct (mi_sbs_title m); cbn [is_str py_replace_bar bind];
      try (eexists; split; [reflexivity | right; reflexivity]).
    eexists; reflexivity.
  - eexists; split; [reflexivity | left; reflexivity].
Qed.

Lemma rows_cases (ms : list mapped_item) :
  if forallb row_ok ms then exists rows, mapM mapped_row ms = Ok rows
  else exists e, mapM mapped_row ms = Raise e
                 /\ (e.(exn_kind) = TypeError \/ e.(exn_kind) = AttributeError).
Proof.
  induction ms as [|m ms IH]; cbn [forallb mapM]; [eexists; reflexivity|].
  pose proof (mapped_row_cases m) as Hm.
  destruct (row_ok m); cbn [andb].
  - destruct Hm as [row ->]. cbn [bind].
    destruct (forallb row_ok ms).
    + destruct IH as [rows ->]. eexists; reflexivity.
    + destruct IH as (e & -> & He). exists e. split; [reflexivity | exact He].
  - destruct Hm as (e & -> & He). exists e. split; [reflexivity | exact He].
Qed.

Lemma to_markdown_cases (a : string) (n : nat) (ms : list mapped_item)
    (us : list unmapped_item) (es : list string) (now : string) :
  if forallb row_ok ms then exists md, _to_markdown a n ms us es now = Ok md
  else exists e, _to_markdown a n ms us es now = Raise e
                 /\ (e.(exn_kind) = TypeError \/ e.(exn_kind) = AttributeError).
Proof.
  pose proof (rows_cases ms) as Hr. unfold _to_markdown.
  destruct (forallb row_ok ms).
  - destruct Hr as [rows ->]. eexists; reflexivity.
  - destruct Hr as (e & -> & He). exists e. split; [reflexivity | exact He].
Qed.

(** X9. [main] on a gap analysis whose findings member is a list (or
    absent), the other input files being of the shapes the loading code
    is written for.  Whatever backlog it writes has findings_total equal to the
    number of entries that are objects (the others are dropped silently)
    and to mapped + unmapped + invalid.  It returns 0, having written the
    backlog and then the report, exactly when the catalog member of the
    controls file is an object (or absent), the mapping confidences of the
    mapped items are all strings, all numbers or all None, and every
    mapped item has a string title and string SSCF control ids.  When only
    the last of the three fails, it raises TypeError or AttributeError
    with the backlog already written and no report; when one of the first
    two fails, it raises AttributeError (catalog) or TypeError
    (confidences) with nothing written.  When the findings member is
    anything but a list, [main] raises ValueError with nothing written. *)
Theorem main_counts_the_object_findings (cfg : config) (controls_payload : dict)
    (now now' : string) (gap : dict) :
  match ad_get_default gap "findings" (VList []) with
  | VList l =>
      let items := (map_findings cfg (dict_rows l)).(mapped_items) in
      let confidences := map mi_mapping_confidence items in
      let catalog := ad_get_default controls_payload "catalog" (VDict []) in
      exists r outs,
        main cfg controls_payload now now' gap = (r, outs)
        /\ (forall p, In (WriteJson p) outs ->
            p.(bp_findings_total) = length (filter is_dict l)
            /\ (p.(bp_mapped_findings) + p.(bp_unmapped_findings)
                + p.(bp_invalid_mapping_entries) = p.(bp_findings_total))%nat)
        /\ if negb (is_dict catalog) then
             r = Raise (Exn AttributeError "") /\ outs = []
           else if negb (forallb is_none confidences || forallb is_number confidences
                         || forallb is_str confidences) then
             r = Raise (Exn TypeError "") /\ outs = []
           else if forallb (fun m => forallb is_str m.(mi_sscf_control_ids)
                                     && is_str m.(mi_sbs_title)) items then
             r = Ok 0%Z /\ exists p md, outs = [WriteJson p; WriteMd md]
           else
             (exists e, r = Raise e
                        /\ (e.(exn_kind) = TypeError \/ e.(exn_kind) = AttributeError))
             /\ exists p, outs = [WriteJson p]
  | _ =>
      exists e, main cfg controls_payload now now' gap = (Raise e, [])
                /\ e.(exn_kind) = ValueError
  end.
Proof.
  pose proof (findings_cases gap) as Hf. unfold main.
  destruct (ad_get_default gap "findings" (VList [])); rewrite Hf; cbn [bind];
    try (eexists; split; [reflexivity | reflexivity]).
  cbv zeta. unfold build_payload.
  destruct (ad_get_default controls_payload "catalog" (VDict [])) eqn:Hc;
    cbn [py_get bind is_dict negb];
    try (do 2 eexists; split; [reflexivity|]; split; [intros p []|];
         split; reflexivity).
  rewrite confidences_sortable_cases.
  destruct (forallb is_none _ || forallb is_number _ || forallb is_str _);
    cbn [bind negb].
  2:{ do 2 eexists. split; [reflexivity|]. split; [intros p []|]. split; reflexivity. }
  cbn [bp_buckets bp_assessment_id].
  match goal with
  | |- context [_to_markdown ?a ?n ?ms ?us ?es ?t] =>
      pose proof (to_markdown_cases a n ms us es t) as Hm
  end.
  fold row_ok. unfold row_ok at 1 in Hm. fold row_ok in Hm.
  assert (Hcount : forall p0 p : backlog_payload,
             p0.(bp_findings_total) = length (dict_rows l) ->
             p0.(bp_mapped_findings) = length (map_findings cfg (dict_rows l)).(mapped_items) ->
             p0.(bp_unmapped_findings) = length (map_findings cfg (dict_rows l)).(unmapped_items) ->
             p0.(bp_invalid_mapping_entries)
             = length (map_findings cfg (dict_rows l)).(invalid_mapping_entries) ->
             p0 = p ->
             p.(bp_findings_total) = length (filter is_dict l)
             /\ (p.(bp_mapped_findings) + p.(bp_unmapped_findings)
                 + p.(bp_invalid_mapping_entries) = p.(bp_findings_total))%nat).
  { intros p0 p H1 H2 H3 H4 <-. rewrite H1, H2, H3, H4. split.
    - apply dict_rows_length.
    - apply map_findings_lengths. }
  destruct (forallb row_ok (mapped_items (map_findings cfg (dict_rows l)))).
  - destruct Hm as [md ->]. do 2 eexists. split; [reflexivity|]. split.
    + intros p [Hp | [Hp | []]]; [|discriminate]. injection Hp as Hp.
      eapply Hcount; [| | | |exact Hp]; reflexivity.
    + split; [reflexivity|]. do 2 eexists; reflexivity.
  - destruct Hm as (e & -> & He). do 2 eexists. split; [reflexivity|]. split.
    + intros p [Hp | []]. injection Hp as Hp.
      eapply Hcount; [| | | |exact Hp]; reflexivity.
    + split; [exists e; split; [reflexivity | exact He]|]. eexists; reflexivity.
Qed.

(** A run of the mapper on four findings, one of them not an object: the
    backlog counts three, and the report renders the title with its bar
    replaced. *)
Example mapper_writes_backlog_then_report :
  let cfg :=
    {| controls_by_id :=
         [("SBS-AUTH-001", Control "SBS-AUTH-001" (VStr "SSO | MFA") "Authentication")];
       map_by_legacy := [("LEG-7", [("legacy_control_id", VStr "LEG-7");
                                    ("sbs_control_id", VStr "SBS-GONE-001")])];
       sscf_defaults_by_category :=
         [("Authentication", [VDict [("sscf_control_id", VStr "SSCF-IAM-001")];
                              VDict [("sscf_control_id", VStr "SSCF-IAM-002")]])];
       sscf_overrides := [] |} in
  let gap :=
    [("assessment_id", VStr "test-001");
     ("findings",
      VList [VDict [("control_id", VStr " SBS-AUTH-001 "); ("status", VStr "fail");
                    ("severity", VStr "critical")];
             VStr "noise";
             VDict [("control_id", VStr "LEG-1"); ("status", VStr "pass")];
             VDict [("control_id", VStr "LEG-7"); ("status", VStr "partial")]])] in
  exists p,
    @main plain_builtins cfg [("catalog", VDict [("version", VStr "1.2")])]
      "2026-03-01T10:00:00+00:00" "2026-03-01T10:00:01+00:00" gap
    = (Ok 0%Z,
       [WriteJson p;
        WriteMd "# Salesforce OSCAL Gap Matrix (POC)

- Assessment ID: `test-001`
- Generated UTC: `2026-03-01T10:00:01+00:00`
- SBS controls in catalog: `1`
- Mapped findings: `1`
- Unmapped findings: `1`

## Status Summary (Mapped Findings)
- pass: `0`
- fail: `1`
- partial: `0`
- not_applicable: `0`

## Control Mapping Table
| Legacy Control ID | SBS Control ID | SBS Title | Mapping Confidence | SSCF Controls | Status | Severity | Owner | Due Date |
|---|---|---|---|---|---|---|---|---|
| SBS-AUTH-001 | SBS-AUTH-001 | SSO / MFA | high | SSCF-IAM-001, SSCF-IAM-002 | fail | critical |  |  |

## Unmapped Findings
- `LEG-1` (pass, )

## Invalid Mapping Entries
- LEG-7 -> SBS-GONE-001 (not found in imported catalog)
"])
    /\ (p.(bp_assessment_id), p.(bp_generated_at_utc), p.(bp_catalog_version))
       = ("test-001", "2026-03-01T10:00:00+00:00", VStr "1.2")
    /\ (p.(bp_findings_total), p.(bp_mapped_findings), p.(bp_unmapped_findings),
        p.(bp_invalid_mapping_entries))
       = (3, 1, 1, 1)%nat
    /\ p.(bp_status_counts)
       = [("pass", 0); ("fail", 1); ("partial", 0); ("not_applicable", 0)]%nat.
Proof. eexists. split; [vm_compute; reflexivity|]. repeat split. Qed.

(** An SSCF control id that is a number: the backlog is written, then
    the join of the report row raises. *)
Example report_failure_leaves_the_backlog :
  let cfg :=
    {| controls_by_id :=
         [("SBS-AUTH-001", Control "SBS-AUTH-001" (VStr "SSO") "Authentication")];
       map_by_legacy := [];
       sscf_defaults_by_category := [];
       sscf_overrides := [("SBS-AUTH-001", [VDict [("sscf_control_id", VInt 7)]])] |} in
  let gap := [("findings", VList [VDict [("control_id", VStr "SBS-AUTH-001")]])] in
  exists p,
    @main plain_builtins cfg [] "2026-03-01T10:00:00+00:00" "2026-03-01T10:00:01+00:00" gap
    = (Raise (Exn TypeError ""), [WriteJson p])
    /\ p.(bp_mapped_findings) = 1%nat.
Proof. eexists. split; [vm_compute; reflexivity | reflexivity]. Qed.

(** A crosswalk row whose confidence is null next to a direct mapping:
    the confidences cannot be sorted and nothing is written. *)
Example mixed_confidences_write_nothing :
  let cfg :=
    {| controls_by_id :=
         [("SBS-AUTH-001", Control "SBS-AUTH-001" (VStr "SSO") "Authentication")];
       map_by_legacy := [("LEG-7", [("legacy_control_id", VStr "LEG-7");
                                    ("sbs_control_id", VStr "SBS-AUTH-001");
                                    ("mapping_confidence", VNone)])];
       sscf_defaults_by_category := [];
       sscf_overrides := [] |} in
  let gap := [("findings", VList [VDict [("control_id", VStr "SBS-AUTH-001")];
                                  VDict [("control_id", VStr "LEG-7")]])] in
  @main plain_builtins cfg [] "2026-03-01T10:00:00+00:00" "2026-03-01T10:00:01+00:00" gap
  = (Raise (Exn TypeError ""), []).
Proof. vm_compute. reflexivity. Qed.

Lemma map_finding_well_mapped (cfg : config) (b : buckets) (f : dict) :
  Forall (well_mapped cfg) b.(mapped_items) ->
  Forall (well_mapped cfg) (map_finding cfg b f).(mapped_items).
Proof.
  intros Hb. unfold map_finding.
  destruct (prefix "SBS-" (legacy_id f)) eqn:Ep.
  - destruct (ad_get (controls_by_id cfg) (legacy_id f)) as [sbs|] eqn:Ec; cbn [mapped_items add_invalid add_mapped]; [|exact Hb].
    apply Forall_app. split; [exact Hb|]. constructor; [|constructor].
    exists sbs. cbn [mk_mapped mi_sbs_control_id mi_sbs_title mi_sscf_mappings
                     mi_legacy_control_id mi_mapping_confidence].
    rewrite Ep. auto.
  - destruct (ad_get (map_by_legacy cfg) (legacy_id f)) as [[|kv row]|] eqn:Er;
      cbn [mapped_items add_unmapped]; try exact Hb.
    destruct (ad_get (controls_by_id cfg) _) as [sbs|] eqn:Ec;
      cbn [mapped_items add_invalid add_mapped]; [|exact Hb].
    apply Forall_app. split; [exact Hb|]. constructor; [|constructor].
    exists sbs. cbn [mk_mapped mi_sbs_control_id mi_sbs_title mi_sscf_mappings
                     mi_legacy_control_id mi_mapping_confidence].
    rewrite Ep. repeat split; auto. exists (kv :: row). auto.
Qed.

(** X10. Every mapped item points into the catalog: its sbs_control_id
    is the id of a catalog control, which gives the title and, through
    overrides and category defaults, the framework mappings.  If its legacy
    id starts with SBS- the target is that id itself and the confidence is
    high (the crosswalk is not consulted); otherwise target and confidence
    come from the crosswalk row of the legacy id. *)
Theorem mapped_items_point_into_the_catalog (cfg : config) (findings : list dict) :
  Forall (well_mapped cfg) (map_findings cfg findings).(mapped_items).
Proof.
  unfold map_findings. cbn [mapped_items].
  assert (Hfold : forall b, Forall (well_mapped cfg) b.(mapped_items) ->
            Forall (well_mapped cfg) (fold_left (map_finding cfg) findings b).(mapped_items)).
  { induction findings as [|f fs IH]; intros b Hb; cbn [fold_left]; [exact Hb|].
    apply IH, map_finding_well_mapped, Hb. }
  specialize (Hfold (Buckets [] [] []) (Forall_nil _)).
  apply Forall_forall. intros m Hin. apply in_map_iff in Hin.
  destruct Hin as [m0 [<- Hin0]].
  rewrite Forall_forall in Hfold. exact (Hfold m0 Hin0).
Qed.


(** *** The crosswalk table *)

Lemma find_last {A : Type} (p : A -> bool) (l : list A) (a : A) :
  find p (rev (l ++ [a])) = if p a then Some a else find p (rev l).
Proof. rewrite rev_app_distr. reflexivity. Qed.

Lemma legacy_of_nonempty (d : dict) : legacy_of d <> "" -> d <> [].
Proof. intros Hne ->. apply Hne. reflexivity. Qed.

Lemma build_map_by_legacy_snoc (rows : list value) (row : value) :
  build_map_by_legacy (rows ++ [row]) = add_mapping_row (build_map_by_legacy rows) row.
Proof. unfold build_map_by_legacy. now rewrite fold_left_app. Qed.

Lemma dict_rows_snoc (rows : list value) (row : value) :
  dict_rows (rows ++ [row])
  = dict_rows rows ++ match row with VDict d => [d] | _ => [] end.
Proof. unfold dict_rows. rewrite flat_map_app. cbn [flat_map]. now rewrite app_nil_r. Qed.

Lemma crosswalk_lookup (mappings : list value) (k : string) :
  ad_get (build_map_by_legacy mappings) k
  = if k =? "" then None
    else find (fun d => legacy_of d =? k) (rev (dict_rows mappings)).
Proof.
  induction mappings as [|row rows IH] using rev_ind.
  - cbn. now destruct (k =? "").
  - rewrite build_map_by_legacy_snoc, dict_rows_snoc. unfold add_mapping_row.
    destruct row as [| | | | | |d]; rewrite ?app_nil_r; try exact IH.
    fold (legacy_of d). rewrite find_last.
    destruct (String.eqb_spec (legacy_of d) "") as [E0|N0]; cbn [negb].
    + rewrite IH, E0. rewrite (String.eqb_sym "" k).
      destruct (k =? ""); reflexivity.
    + destruct (String.eqb_spec (legacy_of d) k) as [<-|Nk].
      * rewrite ad_get_set_same.
        destruct (String.eqb_spec (legacy_of d) ""); [contradiction | reflexivity].
      * rewrite ad_get_set_other by exact Nk. exact IH.
Qed.

(** X11. The crosswalk table built from the mapping rows: looking up a
    legacy id gives the last object row whose stripped legacy_control_id
    equals it; rows that are not objects, and rows whose legacy id is
    empty, are never stored.  So a stored row is never empty, belongs to
    the mapping list and is filed under its own legacy id. *)
Theorem crosswalk_last_row_wins (mappings : list value) :
  (forall k, ad_get (build_map_by_legacy mappings) k
             = if k =? "" then None
               else find (fun d => legacy_of d =? k) (rev (dict_rows mappings)))
  /\ (forall k row, ad_get (build_map_by_legacy mappings) k = Some row ->
        row <> [] /\ legacy_of row = k /\ In (VDict row) mappings).
Proof.
  split; [apply crosswalk_lookup|].
  intros k row Hget. rewrite crosswalk_lookup in Hget.
  destruct (String.eqb_spec k "") as [|Hk]; [discriminate|].
  apply find_some in Hget. destruct Hget as [Hin Hkey].
  apply String.eqb_eq in Hkey. subst k. split; [|split].
  - apply legacy_of_nonempty. exact Hk.
  - reflexivity.
  - apply in_rev in Hin. unfold dict_rows in Hin. apply in_flat_map in Hin.
    destruct Hin as [r [Hr Hd]]. destruct r; cbn [In] in Hd; try contradiction.
    destruct Hd as [-> | []]. exact Hr.
Qed.

(** *** The status summary *)

Lemma count_fold {A : Type} (key : A -> string) (items : list A) (c : adict nat)
    (k : string) :
  ad_mem c k = true ->
  ad_get_default
    (fold_left (fun c x => match ad_get c (key x) with
                           | Some n => ad_set c (key x) (n + 1)%nat
                           | None => c
                           end) items c) k 0%nat
  = (ad_get_default c k 0 + length (filter (fun x => (key x =? k)%string) items))%nat.
Proof.
  revert c. induction items as [|x items IH]; intros c Hk; cbn [fold_left filter length].
  - lia.
  - assert (Hstep :
      let c' := match ad_get c (key x) with
                | Some n => ad_set c (key x) (n + 1)%nat
                | None => c
                end in
      ad_mem c' k = true
      /\ ad_get_default c' k 0%nat
         = (ad_get_default c k 0 + if (key x =? k)%string then 1 else 0)%nat).
    { cbv zeta. unfold ad_mem, ad_get_default in *.
      destruct (ad_get c k) as [n|] eqn:Ek; [clear Hk | discriminate].
      destruct (String.eqb_spec (key x) k) as [->|Hne].
      - rewrite Ek, ad_get_set_same. split; [reflexivity | lia].
      - destruct (ad_get c (key x)) as [m|].
        + rewrite ad_get_set_other, Ek by assumption. split; [reflexivity | lia].
        + rewrite Ek. split; [reflexivity | lia]. }
    cbv zeta in Hstep. destruct Hstep as [Hm Hc].
    rewrite (IH _ Hm), Hc. destruct (key x =? k); cbn [length]; lia.
Qed.

Lemma keys_ad_set_present {V : Type} (d : adict V) (k : string) (v : V) :
  ad_mem d k = true -> map fst (ad_set d k v) = map fst d.
Proof.
  unfold ad_mem. induction d as [|[k0 v0] r IH]; cbn [ad_get ad_set map fst]; [discriminate|].
  destruct (k0 =? k); cbn [map fst]; [reflexivity|].
  intros Hm. now rewrite IH.
Qed.

Lemma status_summary_keys (items : list mapped_item) (c : adict nat) :
  map fst (fold_left status_step items c) = map fst c.
Proof.
  revert c. induction items as [|m items IH]; intros c; cbn [fold_left]; [reflexivity|].
  rewrite IH. unfold status_step.
  destruct (ad_get c (strip (py_str (mi_status m)))) eqn:E; [|reflexivity].
  apply keys_ad_set_present. unfold ad_mem. now rewrite E.
Qed.

(** X12. The status summary of a list of mapped items keeps exactly the
    four keys pass, fail, partial and not_applicable, and each holds the
    number of items whose status, converted to text and stripped of
    surrounding whitespace, is that key; any other status is counted
    nowhere. *)
Theorem status_summary_counts_stripped_statuses (items : list mapped_item) :
  let summary := _status_summary items in
  map fst summary = ["pass"; "fail"; "partial"; "not_applicable"]
  /\ Forall (fun s => ad_get_default summary s 0%nat
                      = length (filter (fun m => status_text m =? s) items))
            ["pass"; "fail"; "partial"; "not_applicable"].
Proof.
  intros summary. split; [apply status_summary_keys|].
  assert (Hs : forall s,
             ad_mem [("pass", 0); ("fail", 0); ("partial", 0); ("not_applicable", 0)]%nat s
             = true ->
             ad_get_default summary s 0%nat
             = length (filter (fun m => status_text m =? s) items)).
  { intros s Hmem. unfold summary, _status_summary.
    change (fold_left status_step) with
      (fold_left (fun c (m : mapped_item) =>
                    match ad_get c (status_text m) with
                    | Some n => ad_set c (status_text m) (n + 1)%nat
                    | None => c
                    end)).
    rewrite (count_fold status_text) by exact Hmem.
    unfold ad_mem, ad_get_default in *.
    destruct (ad_get _ s) as [n|] eqn:E; [|discriminate].
    cbn [ad_get] in E.
    repeat match type of E with
           | (if ?b then _ else _) = _ => destruct b; [injection E as <-; reflexivity|]
           end.
    discriminate. }
  repeat constructor; apply Hs; reflexivity.
Qed.

End GapMapOutputFacts.

(* ------------------------------------------------------------------ *)
(** ** What the rules return *)

(** Unfolds whichever rule the goal applies. *)
Ltac open_rule :=
  cbv delta [Assess._rule_auth_001 Assess._rule_auth_002 Assess._rule_auth_003
             Assess._rule_auth_004 Assess._rule_acs_001 Assess._rule_acs_002
             Assess._rule_acs_003 Assess._rule_acs_004 Assess._rule_acs_structural
             Assess._rule_int_002 Assess._rule_int_003 Assess._rule_int_004
             Assess._rule_oauth_001 Assess._rule_oauth_002 Assess._rule_oauth_structural
             Assess._rule_data_004 Assess._rule_data_structural Assess._rule_secconf_001
             Assess._rule_secconf_002 Assess._rule_dep_003 Assess._rule_not_collectable];
  cbv beta zeta.

Section AssessOutputFacts.
Import Assess.
Context `{Builtins}.

Lemma mapM_ext {A B : Type} (f g : A -> result B) (l : list A) :
  (forall a, f a = g a) -> mapM f l = mapM g l.
Proof.
  intros E. induction l as [|a l IH]; cbn [mapM]; [reflexivity | now rewrite E, IH].
Qed.

Lemma evaluate_dry_run (raw raw' : option dict) (cid : value) (sev : string) :
  evaluate raw true cid sev = evaluate raw' true cid sev.
Proof. reflexivity. Qed.

(** X13. A dry run never reads the collector output: [run_assessment]
    in dry-run mode gives the same result on every raw input, and on a
    catalog of well-formed controls it returns one finding per control
    whatever raw is. *)
Theorem dry_run_never_reads_the_collector_output
    (raw raw' : option dict) (controls : list value) (org env date_str : string) :
  run_assessment raw controls true org env date_str
  = run_assessment raw' controls true org env date_str
  /\ (forallb control_ok controls = true ->
      exists findings,
        run_assessment raw controls true org env date_str = Ok findings
        /\ length findings = length controls).
Proof.
  assert (E : forall r r', run_assessment r controls true org env date_str
                           = run_assessment r' controls true org env date_str).
  { intros r r'. unfold run_assessment. apply mapM_ext. intros c. reflexivity. }
  split; [apply E|].
  intros Hcs. rewrite (E raw None).
  destruct (run_assessment_valid None controls true org env date_str Hcs eq_refl)
    as (findings & Hrun & Hrep).
  exists findings. split; [exact Hrun|]. symmetry. exact (Forall2_length Hrep).
Qed.

(** X14. A control without a registered rule (its id is not a key of
    RULES, or is not a string at all) gets not_applicable with the
    observation No assessment rule defined and the lower-cased risk_level
    of the catalog (moderate when the catalog gives none), in dry-run and
    live mode alike and whatever was collected. *)
Theorem unregistered_control_is_not_applicable
    (raw : option dict) (dry_run : bool) (c : value) :
  control_ok c = true ->
  (forall s, cid_of c = VStr s -> ad_get RULES s = None) ->
  assess_control raw dry_run c
  = Ok (_na (cid_of c) (severity_of c) "No assessment rule defined").
Proof.
  intros Hok Hno. rewrite (assess_control_ok raw dry_run c Hok).
  pose proof (control_ok_hashable c Hok) as Hh.
  unfold evaluate. destruct (cid_of c) as [|b|z|q|s|l|kv]; try discriminate; try reflexivity.
  cbn [get_by_value bind]. now rewrite (Hno s eq_refl).
Qed.


(** *** The shape of every rule's finding *)

Lemma append_nonempty (a b : string) : b <> "" -> (a ++ b)%string <> "".
Proof. destruct a; cbn [append]; [auto | discriminate]. Qed.

Ltac nonempty :=
  cbn [append];
  first [ discriminate
        | apply append_nonempty; nonempty ].

Ltac schema_leaf :=
  unfold schema_ok, _na, finding;
  cbn [control_id status severity owner due_date observed_value remediation];
  split; [reflexivity|];
  split; [cbn [In VALID_STATUSES]; tauto|];
  split; [cbn [In VALID_SEVERITIES]; tauto|];
  split; [reflexivity|];
  split; [reflexivity|];
  split; [unfold NA_DEFAULT_REASON, _CODE_NA, _PORTAL_NA, _DEP_NA, _FILE_NA, _FDNS_NA;
          nonempty|];
  split;
  [ intros E; first [ left; reflexivity | right; reflexivity
                    | exfalso; revert E; nonempty ]
  | intros [E | E]; first [ reflexivity | discriminate E ] ].

Ltac sound_step :=
  match goal with
  | |- sound _ (bind ?m _) => destruct m; cbn [bind sound]; [|exact I]
  | |- sound _ (if ?c then _ else _) => destruct c
  | |- sound _ (match ?l with [] => _ | _ :: _ => _ end) => destruct l
  | |- sound _ (raise_ _) => exact I
  | |- sound _ (Raise _) => exact I
  | |- sound _ (Ok _) => cbn [sound]; schema_leaf
  end.

Lemma rules_sound :
  Forall (fun entry => forall raw, sound (fst entry) (snd entry raw)) RULES.
Proof.
  unfold RULES.
  repeat (apply Forall_cons; [cbn [fst snd]; intros raw; open_rule; repeat sound_step|]).
  apply Forall_nil.
Qed.

(** X15. The finding of every registered rule, on every input on which
    the rule returns, is keyed by the control id of the rule, has a status
    and a severity from the two enumerations, the default owner and an
    empty due date, a non-empty observation, and a remediation exactly when
    its status is fail or partial.  The rule returns on every well-shaped
    input: one whose scope values are objects or empty, whose records can
    be iterated and whose totalSize members are integers, booleans or
    finite floats (an infinity or a NaN makes [int] raise). *)
Theorem every_rule_finding_obeys_the_schema :
  Forall (fun entry =>
            forall raw,
              sound (fst entry) (snd entry raw)
              /\ (raw_ok raw = true -> exists f, snd entry raw = Ok f))
         RULES.
Proof.
  apply Forall_forall. intros [cid r] Hin raw. cbn [fst snd]. split.
  - pose proof rules_sound as Hs. rewrite Forall_forall in Hs. exact (Hs _ Hin raw).
  - intros Hok. destruct (RULES_valid cid r raw Hin Hok) as (f & Hf & _).
    exists f. exact Hf.
Qed.

(** X16. Every registered rule sees its input through one scope only:
    there is a scope name s such that the rule returns the same on any two
    inputs for which [_scope] gives the same value at s. *)
Theorem every_rule_reads_one_scope :
  Forall (fun entry => exists s, In s SCOPES /\ reads_only s (snd entry)) RULES.
Proof.
  unfold RULES.
  repeat (apply Forall_cons;
          [cbn [fst snd];
           first [ exists "auth"; split; [cbn; tauto|]
                   ; intros raw1 raw2 E; open_rule; try rewrite E; reflexivity
                 | exists "access"; split; [cbn; tauto|]
                   ; intros raw1 raw2 E; open_rule; rewrite E; reflexivity
                 | exists "integrations"; split; [cbn; tauto|]
                   ; intros raw1 raw2 E; open_rule; rewrite E; reflexivity
                 | exists "event-monitoring"; split; [cbn; tauto|]
                   ; intros raw1 raw2 E; open_rule; rewrite E; reflexivity
                 | exists "oauth"; split; [cbn; tauto|]
                   ; intros raw1 raw2 E; open_rule; rewrite E; reflexivity
                 | exists "secconf"; split; [cbn; tauto|]
                   ; intros raw1 raw2 E; open_rule; rewrite E; reflexivity
                 | exists "transaction-security"; split; [cbn; tauto|]
                   ; intros raw1 raw2 E; open_rule; rewrite E; reflexivity ]|]).
  apply Forall_nil.
Qed.

(** X17. In live mode the risk_level of the catalog has no effect on a
    registered control: two catalog entries with the same registered id get
    the same finding, which is the one the rule returns (with the severity
    written in the rule). *)
Theorem live_severity_is_the_rules_own
    (raw : option dict) (c1 c2 : value) (s : string) (r : rule) :
  control_ok c1 = true -> control_ok c2 = true ->
  cid_of c1 = VStr s -> cid_of c2 = VStr s ->
  ad_get RULES s = Some r ->
  assess_control raw false c1 = assess_control raw false c2
  /\ assess_control raw false c1 = r (match raw with Some d => d | None => [] end).
Proof.
  intros H1 H2 E1 E2 Hr.
  rewrite (assess_control_ok raw false c1 H1), (assess_control_ok raw false c2 H2), E1, E2.
  unfold evaluate. cbn [get_by_value bind]. rewrite Hr. split; reflexivity.
Qed.

End AssessOutputFacts.

Section AssessOutputInstances.
Import Assess.

Lemma unregistered_control_witness :
  let c := VDict [("control_id", VStr "SBS-NEW-001"); ("risk_level", VStr "High")] in
  control_ok c = true
  /\ (forall s, cid_of c = VStr s -> ad_get (@RULES plain_builtins) s = None)
  /\ @assess_control plain_builtins (Some [("auth", VDict [])]) false c
     = Ok (_na (VStr "SBS-NEW-001") "high" "No assessment rule defined").
Proof.
  intros c.
  assert (Hok : control_ok c = true) by reflexivity.
  assert (Hno : forall s, cid_of c = VStr s -> ad_get (@RULES plain_builtins) s = None)
    by (intros s [= <-]; reflexivity).
  exact (conj Hok (conj Hno
           (@unregistered_control_is_not_applicable plain_builtins
              (Some [("auth", VDict [])]) false c Hok Hno))).
Defined.


Lemma live_severity_witness :
  let c1 := VDict [("control_id", VStr "SBS-ACS-001"); ("risk_level", VStr "low")] in
  let c2 := VDict [("control_id", VStr "SBS-ACS-001")] in
  let raw := Some [("access", VDict [("admin_profiles", VDict [("totalSize", VInt 7)])])] in
  control_ok c1 = true /\ control_ok c2 = true
  /\ cid_of c1 = VStr "SBS-ACS-001" /\ cid_of c2 = VStr "SBS-ACS-001"
  /\ ad_get (@RULES plain_builtins) "SBS-ACS-001" = Some (@_rule_acs_001 plain_builtins)
  /\ @assess_control plain_builtins raw false c1 = @assess_control plain_builtins raw false c2
  /\ exists f, @assess_control plain_builtins raw false c1 = Ok f
               /\ f.(status) = "fail" /\ f.(severity) = "high".
Proof.
  intros c1 c2 raw.
  assert (H1 : control_ok c1 = true) by reflexivity.
  assert (H2 : control_ok c2 = true) by reflexivity.
  assert (E1 : cid_of c1 = VStr "SBS-ACS-001") by reflexivity.
  assert (E2 : cid_of c2 = VStr "SBS-ACS-001") by reflexivity.
  assert (Hr : ad_get (@RULES plain_builtins) "SBS-ACS-001"
               = Some (@_rule_acs_001 plain_builtins)) by reflexivity.
  destruct (@live_severity_is_the_rules_own plain_builtins raw c1 c2 "SBS-ACS-001"
              (@_rule_acs_001 plain_builtins) H1 H2 E1 E2 Hr) as [Hsame Hrule].
  refine (conj H1 (conj H2 (conj E1 (conj E2 (conj Hr (conj Hsame _)))))).
  rewrite Hrule. eexists. split; [reflexivity|]. split; reflexivity.
Defined.

End AssessOutputInstances.

(* ------------------------------------------------------------------ *)
(** ** From the collector to the rules *)

Section CollectFacts.
Import Collect Assess.
Context `{Builtins}.

Lemma collector_output_nonempty (sf : Salesforce) (s : string)
    (collector : Salesforce -> result dict) :
  ad_get SCOPE_COLLECTORS s = Some collector ->
  try_except (collector sf) (fun exc => [("error", VStr exc.(exn_msg))]) <> [].
Proof.
  intros Hget. apply ad_get_In in Hget. unfold SCOPE_COLLECTORS in Hget.
  repeat (destruct Hget as [[= <- <-] | Hget];
          [ cbv delta [collect_auth collect_access collect_event_monitoring
                       collect_transaction_security collect_integrations collect_oauth
                       collect_secconf]; cbv beta zeta;
            repeat match goal with
                   | |- context [bind (query_all ?sf ?q) _] =>
                       destruct (query_all sf q); cbn [bind try_except]
                   end;
            cbn [try_except ad_set]; discriminate |]).
  contradiction.
Qed.

Lemma collect_all_unfold (sf : Salesforce) :
  collect_combined sf "all"
  = map (fun kv => (fst kv,
                    VDict (try_except (snd kv sf)
                             (fun exc => [("error", VStr exc.(exn_msg))]))))
        SCOPE_COLLECTORS.
Proof. reflexivity. Qed.

Lemma collect_all_scopes (sf : Salesforce) :
  let raw := collect_combined sf "all" in
  map fst raw = map fst SCOPE_COLLECTORS
  /\ Forall (fun s => exists d, _scope raw s = VDict d /\ d <> []
                                /\ ad_get raw s = Some (VDict d))
            SCOPES.
Proof.
  cbv zeta. rewrite collect_all_unfold. split; [now rewrite map_map|].
  unfold SCOPES.
  repeat match goal with
         | |- Forall _ (?s :: _) =>
             apply Forall_cons;
             [ eexists; split; [reflexivity|]; split;
               [ eapply (collector_output_nonempty sf s); reflexivity | reflexivity ] |]
         end.
  apply Forall_nil.
Qed.


Ltac decided_step :=
  match goal with
  | |- decided (bind ?m _) => destruct m; cbn [bind decided]; [|exact I]
  | |- decided (if ?c then _ else _) => destruct c
  | |- decided (match ?l with [] => _ | _ :: _ => _ end) => destruct l
  | |- decided (raise_ _) => exact I
  | |- decided (Raise _) => exact I
  | |- decided (Ok _) => cbn [decided finding status]; discriminate
  end.

Lemma rules_decide_on_wrapped_input (raw : dict) :
  Forall (fun s => truthy (_scope raw s) = true) SCOPES ->
  Forall (fun entry => In (fst entry) NOT_COLLECTABLE \/ decided (snd entry raw)) RULES.
Proof.
  intros Hs. unfold SCOPES in Hs.
  repeat match type of Hs with
         | Forall _ (_ :: _) =>
             let Hx := fresh "Hx" in
             apply Forall_cons_iff in Hs; destruct Hs as [Hx Hs]
         end.
  clear Hs. unfold RULES.
  repeat (apply Forall_cons;
          [ cbn [fst snd];
            first [ left; cbn [In NOT_COLLECTABLE]; tauto
                  | right; open_rule;
                    repeat match goal with
                           | Hx : truthy ?v = true |- context [truthy ?v] => rewrite Hx
                           end;
                    cbn [negb]; repeat decided_step ] |]).
  apply Forall_nil.
Qed.

(** X18. With --scope all the collector binds each of the seven scope
    names, in the order of SCOPE_COLLECTORS, to a non-empty object: the
    data of the scope, or the error object when its collector raised; the
    assessor takes this object from the raw member of the document.  The
    rule engine therefore never falls back to the whole input and never
    meets an empty scope: no registered rule other than the not-collectable
    ones returns not_applicable on a full collection, also for a scope
    whose collection failed. *)
Theorem full_collection_wraps_every_scope (sf : Salesforce) :
  let raw := collect_combined sf "all" in
  (forall org env now, raw_of (VDict (collect sf org env now "all")) = Ok (VDict raw))
  /\ map fst raw = map fst SCOPE_COLLECTORS
  /\ Forall (fun s => exists d, _scope raw s = VDict d /\ d <> []
                                /\ ad_get raw s = Some (VDict d))
            SCOPES
  /\ Forall (fun entry => In (fst entry) NOT_COLLECTABLE \/ decided (snd entry raw)) RULES.
Proof.
  cbv zeta. destruct (collect_all_scopes sf) as [Hk Hw]. cbv zeta in Hk, Hw.
  split; [reflexivity|]. split; [exact Hk | split; [exact Hw|]].
  apply rules_decide_on_wrapped_input.
  eapply Forall_impl; [|exact Hw]. cbv beta.
  intros s (d & -> & Hd & _). destruct d; [contradiction | reflexivity].
Qed.

Lemma failed_scope_lookup (sf : Salesforce) (s : string)
    (collector : Salesforce -> result dict) (e : exn) :
  ad_get SCOPE_COLLECTORS s = Some collector ->
  collector sf = Raise e ->
  _scope (collect_combined sf "all") s = VDict [("error", VStr e.(exn_msg))].
Proof.
  intros Hget Hfail. rewrite collect_all_unfold.
  apply ad_get_In in Hget. unfold SCOPE_COLLECTORS in Hget |- *.
  repeat (destruct Hget as [[= <- <-] | Hget];
          [ cbn [map fst snd]; unfold _scope; cbn [ad_get String.eqb Ascii.eqb Bool.eqb];
            rewrite Hfail; reflexivity |]).
  contradiction.
Qed.

(** X19. A scope whose collection failed reads as compliant: when the
    access collector raises, the four rules SBS-ACS-001 to SBS-ACS-004
    return pass on the full collection; when the oauth collector raises,
    SBS-OAUTH-001 and SBS-OAUTH-002 return pass; when the integrations
    collector raises, SBS-INT-002 returns pass. *)
Theorem failed_scope_collection_reads_as_pass (sf : Salesforce) :
  let raw := collect_combined sf "all" in
  (forall e, collect_access sf = Raise e ->
     Forall (has_status "pass")
       [_rule_acs_001 raw; _rule_acs_002 raw; _rule_acs_003 raw; _rule_acs_004 raw])
  /\ (forall e, collect_oauth sf = Raise e ->
        Forall (has_status "pass") [_rule_oauth_001 raw; _rule_oauth_002 raw])
  /\ (forall e, collect_integrations sf = Raise e -> has_status "pass" (_rule_int_002 raw)).
Proof.
  cbv zeta. split; [|split]; intros e Hfail.
  - pose proof (failed_scope_lookup sf "access" collect_access e eq_refl Hfail) as Hs.
    repeat constructor; open_rule; rewrite Hs; eexists; split; reflexivity.
  - pose proof (failed_scope_lookup sf "oauth" collect_oauth e eq_refl Hfail) as Hs.
    repeat constructor; open_rule; rewrite Hs; eexists; split; reflexivity.
  - pose proof (failed_scope_lookup sf "integrations" collect_integrations e eq_refl Hfail)
      as Hs.
    open_rule; rewrite Hs; eexists; split; reflexivity.
Qed.

(** X20. A single-scope collection is read whole by the rules of every
    other scope: [_scope] gives the entire raw object for any other scope name,
    so that SBS-AUTH-001 returns a critical fail on the output of any
    single scope other than auth, whatever the org. *)
Theorem single_scope_collection_is_read_whole (sf : Salesforce) (s0 s : string) :
  In s0 (map fst SCOPE_COLLECTORS) -> s <> s0 ->
  let raw := collect_combined sf s0 in
  (forall org env now, raw_of (VDict (collect sf org env now s0)) = Ok (VDict raw))
  /\ _scope raw s = VDict raw
  /\ (s0 <> "auth" ->
      exists f, _rule_auth_001 raw = Ok f
                /\ f.(status) = "fail" /\ f.(severity) = "critical").
Proof.
  intros Hin Hne. cbv zeta.
  assert (Hraw : exists x, collect_combined sf s0 = [(s0, x)]).
  { unfold collect_combined, scopes_to_run.
    assert (Hall : (s0 =? "all") = false).
    { cbn [map fst SCOPE_COLLECTORS In] in Hin.
      repeat (destruct Hin as [<- | Hin]; [reflexivity|]). contradiction. }
    rewrite Hall. cbn [fold_left collect_scope ad_set]. eexists. reflexivity. }
  split; [reflexivity|].
  destruct Hraw as [x Hraw]. rewrite Hraw. split.
  - unfold _scope. cbn [ad_get].
    destruct (String.eqb_spec s0 s) as [E|_]; [congruence | reflexivity].
  - intros Hauth. cbn [map fst SCOPE_COLLECTORS In] in Hin.
    repeat (destruct Hin as [<- | Hin];
            [first [contradiction | eexists; split; [reflexivity | split; reflexivity]]|]).
    contradiction.
Qed.


(** X21. The auth and secconf collectors swallow the errors of their
    queries: [collect_auth] never raises and always gives its five members.
    A failing SSO query is recorded as a result without rows, so that
    SBS-AUTH-001 returns a critical fail on the full collection; a failing
    health-check query is recorded as a note, so that SBS-SECCONF-001 and
    SBS-SECCONF-002 return partial. *)
Theorem swallowed_query_errors_read_as_findings (sf : Salesforce) :
  let raw := collect_combined sf "all" in
  (exists data,
     collect_auth sf = Ok data
     /\ map fst data = ["session_settings"; "mfa_org_settings"; "sso_providers";
                        "login_ip_ranges"; "mfa_policies"])
  /\ (forall e,
        sf.(query_all) "SELECT Id, Name, SamlVersion, IsEnabled FROM SamlSsoConfig" = Raise e ->
        exists f, _rule_auth_001 raw = Ok f
                  /\ f.(status) = "fail" /\ f.(severity) = "critical")
  /\ (forall e,
        sf.(query_all) "SELECT Score, LastModifiedDate FROM SecurityHealthCheck LIMIT 1"
        = Raise e ->
        has_status "partial" (_rule_secconf_001 raw)
        /\ has_status "partial" (_rule_secconf_002 raw)).
Proof.
  cbv zeta. rewrite collect_all_unfold. split; [|split].
  - eexists. split; reflexivity.
  - intros e Hfail. open_rule. unfold _scope, SCOPE_COLLECTORS.
    cbn [map fst snd ad_get String.eqb Ascii.eqb Bool.eqb].
    unfold collect_auth. cbn [try_except ad_set String.eqb Ascii.eqb Bool.eqb].
    rewrite Hfail. eexists. split; [reflexivity | split; reflexivity].
  - intros e Hfail. split; open_rule; unfold _scope, SCOPE_COLLECTORS;
      cbn [map fst snd ad_get String.eqb Ascii.eqb Bool.eqb];
      unfold collect_secconf; rewrite Hfail; eexists; split; reflexivity.
Qed.

End CollectFacts.

Section CollectInstances.
Import Collect Assess.
#[local] Existing Instance plain_builtins.

Lemma failed_scope_collection_witness :
  let raw := collect_combined refusing_org "all" in
  (exists e, collect_access refusing_org = Raise e)
  /\ Forall (has_status "pass")
       [_rule_acs_001 raw; _rule_acs_002 raw;
        _rule_acs_003 raw; _rule_acs_004 raw].
Proof.
  intros raw.
  assert (Hfail : collect_access refusing_org
                  = Raise (Exn OtherError "INVALID_SESSION_ID: Session expired or invalid"))
    by reflexivity.
  destruct (failed_scope_collection_reads_as_pass refusing_org) as [Hacc _].
  exact (conj (ex_intro _ _ Hfail) (Hacc _ Hfail)).
Defined.

Lemma single_scope_collection_witness :
  let raw := collect_combined refusing_org "access" in
  In "access" (map fst Collect.SCOPE_COLLECTORS) /\ "auth" <> "access"
  /\ _scope raw "auth" = VDict raw
  /\ exists f, _rule_auth_001 raw = Ok f
               /\ f.(status) = "fail" /\ f.(severity) = "critical".
Proof.
  intros raw.
  assert (Hin : In "access" (map fst Collect.SCOPE_COLLECTORS)) by (cbn; tauto).
  assert (Hne : "auth" <> "access") by discriminate.
  assert (Hna : "access" <> "auth") by discriminate.
  destruct (single_scope_collection_is_read_whole refusing_org
              "access" "auth" Hin Hne) as (_ & Hs & Hf).
  exact (conj Hin (conj Hne (conj Hs (Hf Hna)))).
Defined.


Lemma swallowed_query_errors_witness :
  let raw := collect_combined refusing_org "all" in
  (exists e, refusing_org.(query_all) "SELECT Id, Name, SamlVersion, IsEnabled FROM SamlSsoConfig"
             = Raise e)
  /\ exists f, _rule_auth_001 raw = Ok f /\ f.(status) = "fail" /\ f.(severity) = "critical".
Proof.
  intros raw.
  assert (Hfail : refusing_org.(query_all)
                    "SELECT Id, Name, SamlVersion, IsEnabled FROM SamlSsoConfig"
                  = Raise (Exn OtherError "INVALID_SESSION_ID: Session expired or invalid"))
    by reflexivity.
  destruct (swallowed_query_errors_read_as_findings refusing_org) as (_ & Hsso & _).
  exact (conj (ex_intro _ _ Hfail) (Hsso _ Hfail)).
Defined.

End CollectInstances.

(* ------------------------------------------------------------------ *)
(** ** Runs of the orchestration loop *)

Section LoopRunFacts.
Import Loop.
Context `{Builtins} `{Env}.

(** *** What a run persists *)

(** X22. What a run has persisted when it ends: if it raises, nothing;
    if it leaves through sys.exit, nothing, and then the code is 2 and
    neither --dry-run nor --approve-critical was given; if it returns, the
    result record, which holds the org, the environment, the dry-run flag,
    the turn count, the three tracked paths and the summary of the state
    the message loop ended in, with the score and the critical-fail ids
    the gate read; the record is preceded by the memory summary, with the
    same score and ids, exactly when the memory client could be built and
    the store accepted the summary (a store that raises is only warned
    about). *)
Theorem result_record_is_written_iff_run_returns
    (env org : string) (dry_run approve : bool) (task : option string) (w0 : world) :
  match run env org dry_run approve task w0 with
  | (Returned _, evs, w) =>
      exists st sc cf,
        loop_phase (task_of env org dry_run task) org w0 = (Ok st, w)
        /\ _extract_score st.(sscf_report) w = Ok sc
        /\ _extract_critical_fails st.(gap_analysis) w = Ok cf
        /\ evs = (if build_client w0
                  then match client_add w org
                               ("sfdc-assess-" ++ org ++ "-" ++ env ++ "-loop")%string
                               sc cf with
                       | Ok _ => [SaveAssessment org
                                    ("sfdc-assess-" ++ org ++ "-" ++ env ++ "-loop")%string
                                    sc cf]
                       | Raise _ => []
                       end
                  else [])
                 ++ [WriteLoopResult org
                       {| lr_org := org;
                          lr_env := env;
                          lr_dry_run := dry_run;
                          lr_turns := st.(turns);
                          lr_overall_score := sc;
                          lr_critical_fails := cf;
                          lr_gap_analysis := st.(gap_analysis);
                          lr_backlog := st.(backlog);
                          lr_sscf_report := st.(sscf_report);
                          lr_summary := match st.(summary) with
                                        | Some t => t
                                        | None => ""
                                        end |}]
  | (Raised _, evs, _) => evs = []
  | (Exited c, evs, _) => evs = [] /\ c = 2%Z /\ dry_run = false /\ approve = false
  end.
Proof.
  unfold run, _run_loop, gate_phase, task_of.
  destruct (loop_phase _ org w0) as [[st|e] w]; [|reflexivity].
  destruct (_extract_critical_fails _ w) as [cf|e] eqn:Hcf; [|reflexivity].
  destruct (_extract_score _ w) as [sc|e] eqn:Hsc; [|reflexivity].
  destruct (negb (is_empty cf) && negb dry_run && negb approve) eqn:Eg.
  - apply andb_prop in Eg. destruct Eg as [Eg Ea]. apply andb_prop in Eg.
    destruct Eg as [_ Ed]. apply negb_true_iff in Ea, Ed. auto.
  - destruct (build_client w0).
    + unfold save_assessment. destruct (existsb _ _); [reflexivity|].
      exists st, sc, cf. split; [reflexivity|]. split; [exact Hsc|].
      split; [exact Hcf|]. unfold try_except.
      destruct (client_add w org _ sc cf); reflexivity.
    + exists st, sc, cf. split; [reflexivity|]. split; [exact Hsc|].
      split; [exact Hcf|]. reflexivity.
Qed.


(** *** Turns *)

Lemma track_output_fields (st : state) (name : string) (t : text) :
  (track_output st name t).(turns) = st.(turns)
  /\ (track_output st name t).(summary) = st.(summary).
Proof.
  unfold track_output. destruct (json_loads t) as [[| | | | | |d]|e]; try (split; reflexivity).
  destruct (truthy _); [|split; reflexivity].
  destruct (name =? "oscal_assess_assess"); [split; reflexivity|].
  destruct (name =? "oscal_gap_map"); [split; reflexivity|].
  destruct (name =? "sscf_benchmark_benchmark"); split; reflexivity.
Qed.

Lemma process_block_fields (st st' : state) (trs trs' : list tool_result) (b : block)
    (w w' : world) :
  process_block st trs b w = (Ok (st', trs'), w') ->
  st'.(turns) = st.(turns) /\ st'.(summary) = st.(summary)
  /\ map tool_use_id trs' = map tool_use_id trs ++ tool_use_ids [b].
Proof.
  unfold process_block, tool_use_ids.
  destruct b as [t|id name input|]; cbn [flat_map app];
    try (intros [= <- <- _]; rewrite app_nil_r; auto).
  destruct (dispatch name input w) as [[t|e] w1].
  - intros [= <- <- _]. rewrite map_app. cbn [map tool_use_id].
    destruct (track_output_fields st name t). auto.
  - destruct (_handle_tool_error name input e) as [t|e']; [|discriminate].
    intros [= <- <- _]. rewrite map_app. cbn [map tool_use_id].
    destruct (track_output_fields st name t). auto.
Qed.

Lemma process_blocks_fields (blocks : list block) (st st' : state)
    (trs trs' : list tool_result) (w w' : world) :
  process_blocks blocks st trs w = (Ok (st', trs'), w') ->
  st'.(turns) = st.(turns) /\ st'.(summary) = st.(summary)
  /\ map tool_use_id trs' = map tool_use_id trs ++ tool_use_ids blocks.
Proof.
  revert st trs w. induction blocks as [|b rest IH]; intros st trs w; cbn [process_blocks].
  - intros [= <- <- _]. cbn. rewrite app_nil_r. auto.
  - destruct (process_block st trs b w) as [[[st1 trs1]|e] w1] eqn:Eb; [|discriminate].
    intros Hrest. apply IH in Hrest. apply process_block_fields in Eb.
    destruct Hrest as (Ht & Hs & Hi), Eb as (Ht1 & Hs1 & Hi1).
    rewrite Ht, Hs, Hi, Ht1, Hs1, Hi1, <- app_assoc.
    unfold tool_use_ids. cbn [flat_map]. rewrite app_nil_r. auto.
Qed.

Lemma agent_turns_bounds (fuel turn : nat) (messages : list message) (st st' : state)
    (w w' : world) :
  agent_turns fuel turn messages st w = (Ok st', w') ->
  (exists s, st'.(summary) = Some s)
  /\ match fuel with
     | O => st'.(turns) = st.(turns)
     | S _ => (turn + 1 <= st'.(turns) <= turn + fuel)%nat
     end.
Proof.
  revert turn messages st w. induction fuel as [|fuel IH]; intros turn messages st w;
    cbn [agent_turns].
  - intros [= <- _]. split; [eexists; reflexivity | reflexivity].
  - destruct (messages_create messages w) as [[resp|e] w1]; [|discriminate].
    destruct (stop_reason resp =? "end_turn");
      [intros [= <- _]; split; [eexists; reflexivity | cbn; lia]|].
    destruct (stop_reason resp =? "max_tokens");
      [intros [= <- _]; split; [eexists; reflexivity | cbn; lia]|].
    destruct (negb (stop_reason resp =? "tool_use"));
      [intros [= <- _]; split; [eexists; reflexivity | cbn; lia]|].
    destruct (process_blocks _ _ _ _) as [[[st1 trs1]|e] w2] eqn:Ep; [|discriminate].
    intros Hrec. apply IH in Hrec. destruct Hrec as [Hs Hb]. split; [exact Hs|].
    apply process_blocks_fields in Ep. destruct Ep as (Ht & _ & _).
    cbn [set_turns turns] in Ht.
    destruct fuel; lia.
Qed.

(** X23. When the message loop ends without raising, the turn counter
    is between 1 and _MAX_TURNS and a summary has been recorded. *)
Theorem loop_ends_within_the_turn_ceiling (task org : string) (w0 w : world) (st : state) :
  loop_phase task org w0 = (Ok st, w) ->
  (1 <= st.(turns) <= _MAX_TURNS)%nat /\ exists s, st.(summary) = Some s.
Proof.
  unfold loop_phase. intros Hl. apply agent_turns_bounds in Hl.
  destruct Hl as [Hs Hb]. unfold _MAX_TURNS in *. split; [lia | exact Hs].
Qed.

(** *** Where a run stands, continued *)

Lemma reaches_invariant (task org : string) (w0 : world) (c : config) :
  reaches (start task org w0) c ->
  (c.(c_fuel) + c.(c_turn) = _MAX_TURNS)%nat
  /\ c.(c_state).(turns) = c.(c_turn)
  /\ c.(c_state).(summary) = None
  /\ conversation c.(c_messages) c.(c_turn).
Proof.
  induction 1 as [|c1 c2 _ IH Hs].
  - unfold start. cbn [c_fuel c_turn c_messages c_state init_state turns summary].
    split; [lia|]. split; [reflexivity|]. split; [reflexivity|].
    unfold initial_messages. eexists. exists []. split; [reflexivity|].
    split; [reflexivity | constructor].
  - destruct IH as (Hf & Ht & Hsum & (prompt & exs & Hm & Hl & Ha)).
    destruct Hs as [fuel turn messages st st' w w1 w2 resp trs Hc Hr Hp].
    cbn [c_fuel c_turn c_messages c_state] in *.
    apply process_blocks_fields in Hp. destruct Hp as (Ht' & Hs' & Hi).
    cbn [set_turns turns summary map app] in Ht', Hs', Hi.
    split; [lia|]. split; [exact Ht'|]. split; [congruence|].
    exists prompt, (exs ++ [(resp.(content), trs)]). split; [|split].
    + rewrite Hm, flat_map_app. reflexivity.
    + rewrite length_app. cbn [length]. lia.
    + apply Forall_app. split; [exact Ha|]. constructor; [exact Hi | constructor].
Qed.

(** X24. Wherever a run stands, the conversation sent to the model is
    the prompt followed by one assistant message and one tool-result
    message per turn so far, and each tool-result message answers exactly
    the tool_use blocks of the assistant message before it, in order (also
    those whose tool failed). *)
Theorem conversation_alternates_and_answers_every_tool_use
    (task org : string) (w0 : world) (c : config) :
  reaches (start task org w0) c -> conversation c.(c_messages) c.(c_turn).
Proof. intros Hr. apply (reaches_invariant task org w0 c Hr). Qed.

(** X25. When the model has asked for tools in every one of the
    _MAX_TURNS turns, the loop stops there: no further model call is made,
    the turn counter is _MAX_TURNS and the summary reads
    [max_turns=20 exceeded]. *)
Theorem turn_ceiling_is_a_hard_stop
    (task org : string) (w0 w : world) (turn : nat) (messages : list message) (st : state) :
  reaches (start task org w0) (Config 0 turn messages st w) ->
  turn = _MAX_TURNS
  /\ loop_phase task org w0
     = (Ok (set_summary st ("[max_turns=" ++ str_of_nat _MAX_TURNS ++ " exceeded]")), w)
  /\ st.(turns) = _MAX_TURNS.
Proof.
  intros Hr. destruct (reaches_invariant task org w0 _ Hr) as (Hf & Ht & _).
  cbn [c_fuel c_turn c_state] in Hf, Ht. split; [lia|]. split; [|lia].
  change (loop_phase task org w0) with (run_from (start task org w0)).
  rewrite (run_from_reaches _ _ Hr). reflexivity.
Qed.

(** X26. Wherever a run stands: if the model call raises, the command
    raises the same exception and nothing is persisted; if the stop_reason
    of the answer is anything but tool_use, the loop ends with this turn
    (no tool is run, even if the answer holds tool_use blocks) and the
    summary is the joined text for end_turn, [truncated] for max_tokens and
    [stop: reason] otherwise. *)
Theorem loop_ends_on_the_first_answer_that_is_not_tool_use
    (env org : string) (dry_run approve : bool) (task : option string) (w0 : world)
    (fuel turn : nat) (messages : list message) (st : state) (w : world) :
  reaches (start (task_of env org dry_run task) org w0)
          (Config (S fuel) turn messages st w) ->
  match messages_create messages w with
  | (Raise e, w1) => run env org dry_run approve task w0 = (Raised e, [], w1)
  | (Ok resp, w1) =>
      resp.(stop_reason) <> "tool_use" ->
      loop_phase (task_of env org dry_run task) org w0
      = (Ok (set_summary (set_turns st (turn + 1)) (closing_summary resp)), w1)
  end.
Proof.
  intros Hr.
  assert (Hrun : loop_phase (task_of env org dry_run task) org w0
                 = run_from (Config (S fuel) turn messages st w)).
  { change (loop_phase (task_of env org dry_run task) org w0)
      with (run_from (start (task_of env org dry_run task) org w0)).
    apply run_from_reaches. exact Hr. }
  unfold run_from in Hrun. cbn [c_fuel c_turn c_messages c_state c_world agent_turns] in Hrun.
  destruct (messages_create messages w) as [[resp|e] w1].
  - intros Hstop. rewrite Hrun. unfold closing_summary.
    destruct (stop_reason resp =? "end_turn"); [reflexivity|].
    destruct (stop_reason resp =? "max_tokens"); [reflexivity|].
    destruct (String.eqb_spec (stop_reason resp) "tool_use"); [contradiction | reflexivity].
  - apply run_raises. exact Hrun.
Qed.

(** *** Tools *)

(** X27. A tool name that is not in _DISPATCHERS: [dispatch] raises
    ValueError, naming the tool and the four available ones, without
    running anything; the loop answers the block with the JSON object
    {"status": "error", "tool": name, "message": that message} and leaves
    the tracked state as it was. *)
Theorem unknown_tool_is_answered_with_an_error
    (st : state) (trs : list tool_result) (id name : string) (input : value) (w : world) :
  ~ In name _DISPATCHERS ->
  let msg :=
    ("Unknown tool: " ++ py_repr (VStr name) ++ ". Available: "
     ++ py_repr (VList [VStr "sfdc_connect_collect"; VStr "oscal_assess_assess";
                        VStr "oscal_gap_map"; VStr "sscf_benchmark_benchmark"]))%string in
  dispatch name input w = (Raise (Exn ValueError msg), w)
  /\ process_block st trs (ToolUseBlock id name input) w
     = (Ok (st, trs ++ [ToolResult id
                          (Json (VDict [("status", VStr "error"); ("tool", VStr name);
                                        ("message", VStr msg)]))]), w).
Proof.
  intros Hnot msg.
  assert (Hd : existsb (String.eqb name) _DISPATCHERS = false).
  { apply not_true_is_false. intros Hex. apply existsb_exists in Hex.
    destruct Hex as (x & Hin & Heq). apply String.eqb_eq in Heq. subst x. contradiction. }
  assert (Hc : is_critical_tool name = false).
  { unfold is_critical_tool. apply not_true_is_false. intros Hex. apply existsb_exists in Hex.
    destruct Hex as (x & Hin & Heq). apply String.eqb_eq in Heq. subst x.
    apply Hnot. unfold _CRITICAL_TOOLS in Hin. unfold _DISPATCHERS. cbn [In] in *. tauto. }
  split.
  - unfold dispatch. rewrite Hd. cbn [negb]. reflexivity.
  - unfold process_block, dispatch. rewrite Hd. cbn [negb].
    unfold _handle_tool_error. rewrite Hc. reflexivity.
Qed.

(** *** Past the gate *)

(** X28. With --dry-run or --approve-critical and the memory client
    built, a run whose gap analysis is readable at the gate (an object
    whose findings are all objects with a control id) and holds
    critical/fail findings goes through the gate: it persists the memory
    summary, when the store accepts it, and then the result record, both
    naming the ids of those findings in order, the record with the turn
    count, the tracked paths and the summary of the loop's final state;
    unless one of the first five ids is not a string, in which case
    joining them raises TypeError and nothing is written. *)
Theorem bypassed_gate_persists_the_critical_ids
    (env org : string) (dry_run approve : bool) (task : option string) (w0 w1 : world)
    (st : state) (p : string) (fs : list value) :
  loop_phase (task_of env org dry_run task) org w0 = (Ok st, w1) ->
  st.(gap_analysis) = VStr p ->
  artifact_findings w1 p fs ->
  existsb malformed_entry fs = false ->
  dry_run || approve = true ->
  build_client w0 = true ->
  let ids := map entry_id (filter critical_fail_entry fs) in
  if existsb (fun v => negb (is_str v)) (firstn 5 ids)
  then run env org dry_run approve task w0 = (Raised (Exn TypeError ""), [], w1)
  else exists sc,
         _extract_score st.(sscf_report) w1 = Ok sc
         /\ run env org dry_run approve task w0
            = (Returned tt,
               match client_add w1 org
                       ("sfdc-assess-" ++ org ++ "-" ++ env ++ "-loop")%string sc ids with
               | Ok _ => [SaveAssessment org
                            ("sfdc-assess-" ++ org ++ "-" ++ env ++ "-loop")%string sc ids]
               | Raise _ => []
               end
               ++ [WriteLoopResult org
                     {| lr_org := org;
                        lr_env := env;
                        lr_dry_run := dry_run;
                        lr_turns := st.(turns);
                        lr_overall_score := sc;
                        lr_critical_fails := ids;
                        lr_gap_analysis := VStr p;
                        lr_backlog := st.(backlog);
                        lr_sscf_report := st.(sscf_report);
                        lr_summary := match st.(summary) with
                                      | Some t => t
                                      | None => ""
                                      end |}], w1).
Proof.
  intros Hl Hg Ha Hm Hflag Hmem ids.
  destruct (loop_phase_ok _ _ _ _ _ Hl) as (Hpg & _ & Hps).
  assert (Hp : p <> "").
  { rewrite Hg in Hpg. cbn [path_like] in Hpg. intros ->. discriminate. }
  destruct (extract_score_returns _ w1 Hps) as [sc Hsc].
  rewrite (run_unfold _ _ _ _ _ _ _ _ Hl). unfold gate_phase.
  rewrite Hg, (extract_critical_fails_found w1 p fs Hp Ha Hm), Hsc, Hmem. fold ids.
  assert (Hgate : negb (is_empty ids) && negb dry_run && negb approve = false).
  { destruct dry_run, approve; try discriminate; destruct (is_empty ids); reflexivity. }
  rewrite Hgate. unfold save_assessment.
  destruct (existsb _ (firstn 5 ids)).
  - reflexivity.
  - exists sc. split; [reflexivity|]. unfold try_except.
    destruct (client_add w1 org _ sc ids); cbn [bind app];
      unfold result_of, set_gate; cbn; rewrite ?Hg; reflexivity.
Qed.

End LoopRunFacts.

Section LoopRunInstances.
Import Loop.

Lemma turn_bounds_witness :
  exists st,
    @loop_phase plain_builtins lost_artifact_env "go" "test-org" 0%nat = (Ok st, 2%nat)
    /\ (1 <= st.(turns) <= _MAX_TURNS)%nat
    /\ exists s, st.(summary) = Some s.
Proof.
  eexists.
  assert (Hl : @loop_phase plain_builtins lost_artifact_env "go" "test-org" 0%nat
               = (Ok _, 2%nat)) by (vm_compute; reflexivity).
  exact (conj Hl (@loop_ends_within_the_turn_ceiling plain_builtins lost_artifact_env
                    "go" "test-org" 0%nat 2%nat _ Hl)).
Defined.

Lemma conversation_witness :
  exists c,
    @reaches plain_builtins blocked_env (@start blocked_env "go" "test-org" 0%nat) c
    /\ c.(c_turn) = 1%nat
    /\ conversation c.(c_messages) 1.
Proof.
  eexists.
  eassert (Hr : @reaches plain_builtins blocked_env
                  (@start blocked_env "go" "test-org" 0%nat) _).
  { eapply reaches_next; [apply reaches_here|].
    unfold start, _MAX_TURNS. eapply tool_turn; reflexivity. }
  exact (conj Hr (conj eq_refl
           (@conversation_alternates_and_answers_every_tool_use plain_builtins blocked_env
              "go" "test-org" 0%nat _ Hr))).
Defined.

Ltac advance R :=
  let R' := fresh "R" in
  eassert (R' : reaches _ _)
    by (eapply reaches_next; [exact R | eapply tool_turn; reflexivity]);
  clear R; rename R' into R.

Lemma turn_ceiling_witness :
  exists messages st,
    @reaches plain_builtins tool_hungry_env
      (@start tool_hungry_env "go" "test-org" 0%nat)
      (@Config tool_hungry_env 0 20 messages st 20%nat)
    /\ @loop_phase plain_builtins tool_hungry_env "go" "test-org" 0%nat
       = (Ok (set_summary st "[max_turns=20 exceeded]"), 20%nat)
    /\ st.(turns) = 20%nat.
Proof.
  do 2 eexists.
  assert (R : @reaches plain_builtins tool_hungry_env
                (@start tool_hungry_env "go" "test-org" 0%nat)
                (@Config tool_hungry_env 20 0
                   (@initial_messages tool_hungry_env "go" "test-org" 0%nat)
                   init_state 0%nat)) by apply reaches_here.
  do 20 advance R.
  exact (conj R (proj2 (@turn_ceiling_is_a_hard_stop plain_builtins tool_hungry_env
                          "go" "test-org" 0%nat _ _ _ _ R))).
Defined.

Lemma closing_answer_witness :
  let resp := Response "end_turn"
                [TextBlock "Overall score 51%.";
                 ToolUseBlock "call_001" "oscal_assess_assess" (VDict []);
                 TextBlock "Two findings need review."] in
  @reaches plain_builtins closing_env
    (@start closing_env (task_of "dev" "test-org" false (Some "go")) "test-org" 0%nat)
    (@Config closing_env 20 0
       (@initial_messages closing_env "go" "test-org" 0%nat) init_state 0%nat)
  /\ resp.(stop_reason) <> "tool_use"
  /\ @loop_phase plain_builtins closing_env
       (task_of "dev" "test-org" false (Some "go")) "test-org" 0%nat
     = (Ok (set_summary (set_turns init_state 1)
              "Overall score 51%. Two findings need review."), 1%nat).
Proof.
  intros resp.
  assert (Hr : @reaches plain_builtins closing_env
                 (@start closing_env (task_of "dev" "test-org" false (Some "go"))
                    "test-org" 0%nat)
                 (@Config closing_env 20 0
                    (@initial_messages closing_env "go" "test-org" 0%nat)
                    init_state 0%nat)) by apply reaches_here.
  assert (Hn : resp.(stop_reason) <> "tool_use") by discriminate.
  exact (conj Hr (conj Hn
           (@loop_ends_on_the_first_answer_that_is_not_tool_use plain_builtins closing_env
              "dev" "test-org" false false (Some "go") 0%nat 19 0 _ init_state 0%nat
              Hr Hn))).
Defined.

(** An answer cut off while it asks for a tool: the tool is not run. *)
Example truncated_answer_ends_the_loop :
  @loop_phase plain_builtins truncated_env "go" "test-org" 0%nat
  = (Ok (set_summary (set_turns init_state 1) "[truncated]"), 1%nat).
Proof. vm_compute. reflexivity. Qed.

Lemma unknown_tool_witness :
  ~ In "report_gen_generate" (@_DISPATCHERS)
  /\ @dispatch plain_builtins blocked_env "report_gen_generate" (VDict []) 1%nat
     = (Raise (Exn ValueError "Unknown tool: <repr>. Available: <repr>"), 1%nat)
  /\ @process_block plain_builtins blocked_env init_state []
       (ToolUseBlock "call_009" "report_gen_generate" (VDict [])) 1%nat
     = (Ok (init_state,
            [ToolResult "call_009"
               (Json (VDict [("status", VStr "error");
                             ("tool", VStr "report_gen_generate");
                             ("message",
                              VStr "Unknown tool: <repr>. Available: <repr>")]))]),
        1%nat).
Proof.
  assert (Hnot : ~ In "report_gen_generate" (@_DISPATCHERS))
    by (cbn; intros [E|[E|[E|[E|[]]]]]; discriminate E).
  exact (conj Hnot
           (@unknown_tool_is_answered_with_an_error plain_builtins blocked_env
              init_state [] "call_009" "report_gen_generate" (VDict []) 1%nat Hnot)).
Defined.

Lemma bypassed_gate_witness :
  exists st,
    @loop_phase plain_builtins blocked_env
      (task_of "dev" "test-org" false None) "test-org" 0%nat = (Ok st, 2%nat)
    /\ st.(gap_analysis) = VStr "generated/oscal_assess_assess.json"
    /\ @artifact_findings blocked_env 2%nat "generated/oscal_assess_assess.json" sample_findings
    /\ existsb malformed_entry sample_findings = false
    /\ false || true = true
    /\ @build_client blocked_env 0%nat = true
    /\ @run plain_builtins blocked_env "dev" "test-org" false true None 0%nat
       = (Returned tt,
          [SaveAssessment "test-org" "sfdc-assess-test-org-dev-loop" (Finite 0)
             [VStr "SBS-AUTH-001"];
           WriteLoopResult "test-org"
             {| lr_org := "test-org";
                lr_env := "dev";
                lr_dry_run := false;
                lr_turns := 2;
                lr_overall_score := Finite 0;
                lr_critical_fails := [VStr "SBS-AUTH-001"];
                lr_gap_analysis := VStr "generated/oscal_assess_assess.json";
                lr_backlog := VNone;
                lr_sscf_report := VNone;
                lr_summary := "Assessment complete." |}],
          2%nat).
Proof.
  eexists.
  assert (Hl : @loop_phase plain_builtins blocked_env
                 (task_of "dev" "test-org" false None) "test-org" 0%nat
               = (Ok _, 2%nat)) by (vm_compute; reflexivity).
  assert (Ha : @artifact_findings blocked_env 2%nat "generated/oscal_assess_assess.json"
                 sample_findings)
    by (split; [reflexivity | eexists; split; reflexivity]).
  destruct (@bypassed_gate_persists_the_critical_ids plain_builtins blocked_env
              "dev" "test-org" false true None 0%nat 2%nat _
              "generated/oscal_assess_assess.json" sample_findings
              Hl eq_refl Ha eq_refl eq_refl eq_refl) as [sc [Hsc Hrun]].
  injection Hsc as <-.
  exact (conj Hl (conj eq_refl (conj Ha (conj eq_refl (conj eq_refl (conj eq_refl Hrun)))))).
Defined.

(** The same approved run when the critical finding is keyed by a number:
    the summary cannot be joined and nothing is written. *)
Example approved_run_with_numeric_id_raises :
  let gap := Json (VDict [("findings",
                           VList [VDict [("control_id", VInt 7); ("status", VStr "fail");
                                         ("severity", VStr "critical")]])]) in
  let env := scripted assess_then_end [("generated/oscal_assess_assess.json", gap)] [] in
  @run plain_builtins env "dev" "test-org" false true None 0%nat
  = (Raised (Exn TypeError ""), [], 2%nat).
Proof. vm_compute. reflexivity. Qed.

(** The same approved run when the memory store refuses the summary: the
    run returns and only the result record is written. *)
Example approved_run_with_refusing_store :
  @run plain_builtins refusing_store_env "dev" "test-org" false true None 0%nat
  = (Returned tt,
     [WriteLoopResult "test-org"
        {| lr_org := "test-org";
           lr_env := "dev";
           lr_dry_run := false;
           lr_turns := 2;
           lr_overall_score := Finite 0;
           lr_critical_fails := [VStr "SBS-AUTH-001"];
           lr_gap_analysis := VStr "generated/oscal_assess_assess.json";
           lr_backlog := VNone;
           lr_sscf_report := VNone;
           lr_summary := "Assessment complete." |}],
     2%nat).
Proof. vm_compute. reflexivity. Qed.

End LoopRunInstances.

(* ------------------------------------------------------------------ *)
(** ** From the assessor to the gate *)

Section PipelineFacts.
Import Assess Loop.
Context `{Builtins} `{Env}.

Lemma run_assessment_entries (raw : option dict) (controls : list value) (dry_run : bool)
    (org env date_str : string) (findings : list dict) :
  run_assessment raw controls dry_run org env date_str = Ok findings ->
  Forall (fun d => exists f, d = to_dict f org env date_str) findings.
Proof.
  unfold run_assessment. revert findings.
  induction controls as [|c cs IH]; intros findings; cbn [mapM].
  - intros [= <-]. constructor.
  - destruct (assess_control raw dry_run c) as [f|e]; [|discriminate]. cbn [bind].
    destruct (mapM _ cs) as [fs|e]; [|discriminate]. cbn [bind].
    intros [= <-]. constructor; [exists f; reflexivity | apply IH; reflexivity].
Qed.

(** X29. The gate reads what the assessor writes: no entry of the
    findings returned by [run_assessment] trips the comprehension of
    [_extract_critical_fails], which on a file holding them returns exactly
    the control ids of the entries with status fail and severity
    critical. *)
Theorem gate_reads_the_assessors_findings
    (raw : option dict) (controls : list value) (dry_run : bool)
    (org env date_str : string) (findings : list dict) (w : world) (p : string) :
  run_assessment raw controls dry_run org env date_str = Ok findings ->
  p <> "" ->
  artifact_findings w p (map VDict findings) ->
  existsb malformed_entry (map VDict findings) = false
  /\ _extract_critical_fails (VStr p) w
     = Ok (map entry_id (filter critical_fail_entry (map VDict findings))).
Proof.
  intros Hrun Hp Ha.
  assert (Hm : existsb malformed_entry (map VDict findings) = false).
  { apply run_assessment_entries in Hrun. clear Ha.
    induction Hrun as [|d ds (f & ->) _ IH]; cbn [map existsb]; [reflexivity|].
    rewrite IH. unfold malformed_entry. cbn [is_dict negb orb finding_entry].
    replace (ad_mem (to_dict f org env date_str) "control_id") with true by reflexivity.
    cbn [negb]. now rewrite andb_false_r. }
  split; [exact Hm|]. now apply extract_critical_fails_found.
Qed.


Lemma registered_ids_are_canonical :
  Forall (fun entry : string * rule =>
            strip (fst entry) = fst entry /\ prefix "SBS-" (fst entry) = true) RULES.
Proof. unfold RULES. repeat (apply Forall_cons; [split; reflexivity|]). apply Forall_nil. Qed.

(** X30. From the assessor to the mapper: the serialised finding of a
    registered rule keeps the control id of the rule as its legacy id, and
    the loop body of the mapper maps it directly: it appends a mapped item
    with that id as target and confidence high when the imported catalog
    has the control, and an invalid-mapping entry otherwise; the finding is
    never unmapped and the crosswalk is not consulted. *)
Theorem rule_findings_are_mapped_directly :
  Forall (fun entry : string * rule =>
            forall raw f (cfg : GapMap.config) (b : GapMap.buckets) org env date_str,
              snd entry raw = Ok f ->
              let cid := fst entry in
              let finding := to_dict f org env date_str in
              GapMap.legacy_id finding = cid
              /\ match ad_get cfg.(GapMap.controls_by_id) cid with
                 | Some sbs =>
                     GapMap.map_finding cfg b finding
                     = GapMap.add_mapped b
                         (GapMap.mk_mapped cfg finding cid cid sbs
                            (VStr "Direct collector mapping (SBS control ID emitted by collector).")
                            (VStr "high"))
                 | None =>
                     GapMap.map_finding cfg b finding
                     = GapMap.add_invalid b
                         (cid ++ " -> " ++ cid
                          ++ " (SBS control not found in imported catalog)")%string
                 end)
         RULES.
Proof.
  apply Forall_forall. intros [cid r] Hin raw f cfg b org env date_str Hf. cbn [fst snd] in *.
  pose proof rules_sound as Hs. rewrite Forall_forall in Hs.
  specialize (Hs _ Hin raw). cbn [fst snd] in Hs. rewrite Hf in Hs.
  destruct Hs as (Hid & _).
  pose proof registered_ids_are_canonical as Hc. rewrite Forall_forall in Hc.
  destruct (Hc _ Hin) as [Hstrip Hpre]. cbn [fst] in Hstrip, Hpre.
  assert (Hleg : GapMap.legacy_id (to_dict f org env date_str) = cid).
  { unfold GapMap.legacy_id, to_dict, ad_get_default. cbn [ad_get String.eqb Ascii.eqb Bool.eqb].
    rewrite Hid. cbn [py_str]. exact Hstrip. }
  cbv zeta. split; [exact Hleg|].
  unfold GapMap.map_finding. rewrite Hleg, Hpre.
  destruct (ad_get (GapMap.controls_by_id cfg) cid); reflexivity.
Qed.

End PipelineFacts.

Section PipelineInstances.
Import Assess Loop.

Lemma assessors_findings_at_the_gate_witness :
  @run_assessment plain_builtins None [sso_control] true "dry-run" "dev" "2026-03-01"
  = Ok dry_run_findings
  /\ "generated/oscal_assess_assess.json" <> ""
  /\ @artifact_findings assessed_env 2%nat "generated/oscal_assess_assess.json"
       (map VDict dry_run_findings)
  /\ @_extract_critical_fails assessed_env (VStr "generated/oscal_assess_assess.json") 2%nat
     = Ok [VStr "SBS-AUTH-001"].
Proof.
  assert (Hrun : @run_assessment plain_builtins None [sso_control] true "dry-run" "dev"
                   "2026-03-01" = Ok dry_run_findings) by reflexivity.
  assert (Hp : "generated/oscal_assess_assess.json" <> "") by discriminate.
  assert (Ha : @artifact_findings assessed_env 2%nat "generated/oscal_assess_assess.json"
                 (map VDict dry_run_findings))
    by (split; [reflexivity | eexists; split; reflexivity]).
  exact (conj Hrun (conj Hp (conj Ha
           (proj2 (@gate_reads_the_assessors_findings plain_builtins assessed_env
                     None [sso_control] true "dry-run" "dev" "2026-03-01"
                     dry_run_findings 2%nat "generated/oscal_assess_assess.json"
                     Hrun Hp Ha))))).
Defined.

End PipelineInstances.
